(** * monitoring_docker: the Docker side of the monitor, verified

    A shallow embedding of four pieces of [back_py/monitor/main]:

    - [services/docker_service.py]  [DockerService.get_container_stats]
    - [services/error_parser.py]    [parse_logs_and_save_errors]
    - [consumers.py]                [DockerMetricsConsumer.stream] and its
                                    nested [to_series]
    - [management/commands/sync_docker.py] [Command.handle] and
      [views.py] [SyncDockerDataView.post]

    Conventions.  A Python [int] is a [Z].  A Python [float] is an exact
    rational [Q] (the streaming part adds the two infinities and NaN, which
    [float()] can produce from text): IEEE rounding is not modelled.  A [dict]
    read with [d[k]] or [d.get(k, default)] is a record whose fields are
    [option]s, [None] meaning that the key is absent.  Python exceptions are
    values of [exn], and code that can raise lives in the [result] monad. *)

From Stdlib Require Import ZArith QArith Qround Qreduction Qcanon Ascii String.
From stdpp Require Import base option list strings gmap fin_maps.

Local Open Scope Z_scope.

(** ** Python exceptions and the monad of code that may raise *)

Module Py.

Inductive exn : Type :=
  | KeyError (key : string)
  | TypeError
  | ValueError
  | IndexError
  | AttributeError
  | ZeroDivisionError
  | NotFound            (* docker.errors.NotFound, a DockerException *)
  | DockerException     (* any other docker.errors.DockerException *)
  | OtherError.         (* anything else: transport errors, database errors *)

Inductive result (A : Type) : Type :=
  | Return (a : A)
  | Raise (e : exn).
Arguments Return {A} a.
Arguments Raise {A} e.

#[export] Instance result_ret : MRet result := @Return.
#[export] Instance result_bind : MBind result :=
  fun A B f m => match m with Return a => f a | Raise e => Raise e end.
#[export] Instance result_fmap : FMap result :=
  fun A B f m => match m with Return a => Return (f a) | Raise e => Raise e end.

(** [d[key]]: the value, or [KeyError] when the key is absent. *)
Definition getitem {A} (key : string) (field : option A) : result A :=
  match field with
  | Some a => Return a
  | None => Raise (KeyError key)
  end.

(** [d.get(key, dflt)] *)
Definition get {A} (field : option A) (dflt : A) : A := default dflt field.

(** [a / b] on two ints: true division, [ZeroDivisionError] when [b == 0]. *)
Definition truediv (a b : Z) : result Q :=
  if decide (b = 0) then Raise ZeroDivisionError
  else Return (inject_Z a / inject_Z b)%Q.

(** Round half to even, to the nearest integer. *)
Definition round_half_even (q : Q) : Z :=
  let n := Qnum q in
  let d := Zpos (Qden q) in
  let f := n / d in
  match (2 * (n mod d)) ?= d with
  | Lt => f
  | Gt => f + 1
  | Eq => if Z.even f then f else f + 1
  end.

(** [round(q, 2)]; the result is kept in lowest terms. *)
Definition round2 (q : Q) : Q :=
  Qred (inject_Z (round_half_even (q * 100)) / 100).

End Py.
Import Py.

(** ** services/docker_service.py: [DockerService.get_container_stats] *)

Module Stats.

(** The document returned by [container.stats(stream=False)], with the keys
    the function reads.  A key is there or not; a key that is there with the
    value [null] is outside the model. *)
Record cpu_usage_doc := {
  total_usage : option Z;
  percpu_usage : option (list Z);
}.

Record cpu_stats_doc := {
  cpu_usage : option cpu_usage_doc;
  system_cpu_usage : option Z;
  online_cpus : option N;       (* a count of CPUs, unsigned in the Engine API *)
}.

Record memory_stats_doc := {
  usage : option Z;
  limit : option Z;
}.

Record network_doc := {
  rx_bytes : option Z;
  tx_bytes : option Z;
  rx_packets : option Z;
  tx_packets : option Z;
}.

Record io_stat_doc := {
  op : option string;
  value : option Z;
}.

Record blkio_stats_doc := {
  io_service_bytes_recursive : option (list io_stat_doc);
}.

Record stats_doc := {
  cpu_stats : option cpu_stats_doc;
  precpu_stats : option cpu_stats_doc;
  memory_stats : option memory_stats_doc;
  networks : option (list (string * network_doc));
  blkio_stats : option blkio_stats_doc;
}.

(** The dict the function returns. *)
Record stats_record := {
  timestamp : Z;
  cpu_usage_percent : Q;
  cpu_system_usage : Z;
  cpu_total_usage : Z;
  memory_usage : Z;
  memory_limit : Z;
  memory_percent : Q;
  network_rx_bytes : Z;
  network_tx_bytes : Z;
  network_rx_packets : Z;
  network_tx_packets : Z;
  block_read_bytes : Z;
  block_write_bytes : Z;
}.

(** [cpu_stats.get('online_cpus',
                   len(cpu_stats['cpu_usage'].get('percpu_usage', [1])))] *)
Definition cpu_count (cpu : cpu_stats_doc) : result Z :=
  cu ← getitem "cpu_usage" (cpu_usage cpu);
  let dflt := Z.of_nat (length (get (percpu_usage cu) [1])) in
  Return (get (Z.of_N <$> online_cpus cpu) dflt).

(** Lines 346-350: the local [cpu_percent]. *)
Definition cpu_percent (cpu_delta system_delta : Z) (cpu : cpu_stats_doc)
  : result Q :=
  if decide (system_delta > 0 ∧ cpu_delta > 0) then
    n ← cpu_count cpu;
    q ← truediv cpu_delta system_delta;
    Return (q * inject_Z n * 100)%Q
  else Return 0%Q.

(** Lines 353-355: the locals [memory_usage], [memory_limit] and
    [memory_percent]. *)
Definition memory_part (mem : memory_stats_doc) : result (Z * Z * Q) :=
  let memory_usage := get (usage mem) 0 in
  let memory_limit := get (limit mem) 1 in
  pct ← (if decide (memory_limit > 0) then
           q ← truediv memory_usage memory_limit;
           Return (q * 100)%Q
         else Return 0%Q);
  Return (memory_usage, memory_limit, pct).

(** Lines 358-367: the four sums over [networks.values()]. *)
Definition network_totals (nets : list (string * network_doc))
  : Z * Z * Z * Z :=
  fold_left
    (fun '(rxb, txb, rxp, txp) '(_, nd) =>
       (rxb + get (rx_bytes nd) 0, txb + get (tx_bytes nd) 0,
        rxp + get (rx_packets nd) 0, txp + get (tx_packets nd) 0))
    nets (0, 0, 0, 0).

(** Lines 370-377: the two sums over the block I/O entries. *)
Fixpoint block_totals (ios : list io_stat_doc) (rd wr : Z) : result (Z * Z) :=
  match ios with
  | [] => Return (rd, wr)
  | io :: rest =>
      o ← getitem "op" (op io);
      if decide (o = "Read") then
        v ← getitem "value" (value io);
        block_totals rest (rd + v) wr
      else
        o' ← getitem "op" (op io);
        if decide (o' = "Write") then
          v ← getitem "value" (value io);
          block_totals rest rd (wr + v)
        else block_totals rest rd wr
  end.

(** The body of the [try] block, from the parsed document on. *)
Definition stats_of_doc (now : Z) (stats : stats_doc) : result stats_record :=
  cpu ← getitem "cpu_stats" (cpu_stats stats);
  precpu ← getitem "precpu_stats" (precpu_stats stats);
  mem ← getitem "memory_stats" (memory_stats stats);
  let nets := get (networks stats) [] in
  let blkio := get (blkio_stats stats)
                 {| io_service_bytes_recursive := None |} in
  cu ← getitem "cpu_usage" (cpu_usage cpu);
  total ← getitem "total_usage" (total_usage cu);
  pcu ← getitem "cpu_usage" (cpu_usage precpu);
  ptotal ← getitem "total_usage" (total_usage pcu);
  let cpu_delta := total - ptotal in
  system ← getitem "system_cpu_usage" (system_cpu_usage cpu);
  psystem ← getitem "system_cpu_usage" (system_cpu_usage precpu);
  let system_delta := system - psystem in
  pct ← cpu_percent cpu_delta system_delta cpu;
  '(memory_usage, memory_limit, memory_percent) ← memory_part mem;
  let '(rxb, txb, rxp, txp) := network_totals nets in
  '(rd, wr) ← block_totals (get (io_service_bytes_recursive blkio) []) 0 0;
  Return {|
    timestamp := now;
    cpu_usage_percent := round2 pct;
    cpu_system_usage := system;
    cpu_total_usage := total;
    memory_usage := memory_usage;
    memory_limit := memory_limit;
    memory_percent := round2 memory_percent;
    network_rx_bytes := rxb;
    network_tx_bytes := txb;
    network_rx_packets := rxp;
    network_tx_packets := txp;
    block_read_bytes := rd;
    block_write_bytes := wr;
  |}.

(** [get_container_stats].  [api] is what the two Engine calls
    [self.client.containers.get(container_id)] and
    [container.stats(stream=False)] come back with; [now] is
    [datetime.now()].  The two [except] clauses turn [NotFound] and every
    other [DockerException] into [None]; anything else reaches the caller. *)
Definition get_container_stats (now : Z) (api : result stats_doc)
  : result (option stats_record) :=
  match api ≫= stats_of_doc now with
  | Return r => Return (Some r)
  | Raise NotFound => Return None
  | Raise DockerException => Return None
  | Raise e => Raise e
  end.

(** The documents on which the function reaches its [return]: every key read
    with [d[k]] is there. *)
Definition io_complete (io : io_stat_doc) : bool :=
  match op io with
  | Some o =>
      if decide (o = "Read" ∨ o = "Write") then bool_decide (is_Some (value io))
      else true
  | None => false
  end.

Definition counters_complete (cpu : cpu_stats_doc) : bool :=
  match cpu_usage cpu with
  | Some cu =>
      bool_decide (is_Some (total_usage cu)) &&
      bool_decide (is_Some (system_cpu_usage cpu))
  | None => false
  end.

Definition complete (stats : stats_doc) : bool :=
  match cpu_stats stats, precpu_stats stats, memory_stats stats with
  | Some cpu, Some precpu, Some _ =>
      counters_complete cpu && counters_complete precpu &&
      forallb io_complete
        (get (io_service_bytes_recursive
                (get (blkio_stats stats)
                   {| io_service_bytes_recursive := None |})) [])
  | _, _, _ => false
  end.

(** The previous-tick counters of a first sample: there and zero. *)
Definition zeroed (precpu : cpu_stats_doc) : Prop :=
  (∃ pcu, cpu_usage precpu = Some pcu ∧ total_usage pcu = Some 0) ∧
  system_cpu_usage precpu = Some 0.

(** The previous-tick counters of a first sample, as the spec has them:
    absent or zeroed. *)
Definition first_sample (stats : stats_doc) : Prop :=
  match precpu_stats stats with
  | None => True
  | Some precpu =>
      match cpu_usage precpu with
      | None => True
      | Some pcu => total_usage pcu = None ∨ total_usage pcu = Some 0
      end ∧
      (system_cpu_usage precpu = None ∨ system_cpu_usage precpu = Some 0)
  end.

(** The CPU count the function multiplies by. *)
Definition cpu_count_of (cpu : cpu_stats_doc) (cu : cpu_usage_doc) : Z :=
  get (Z.of_N <$> online_cpus cpu)
      (Z.of_nat (length (get (percpu_usage cu) [1]))).

(** Example documents. *)
Definition sample_cpu : cpu_stats_doc :=
  {| cpu_usage := Some {| total_usage := Some 300; percpu_usage := None |};
     system_cpu_usage := Some 2000;
     online_cpus := Some 2%N |}.

(** A first sample: the previous counters are there and zero. *)
Definition first_doc : stats_doc :=
  {| cpu_stats :=
       Some {| cpu_usage :=
                 Some {| total_usage := Some 100; percpu_usage := None |};
               system_cpu_usage := Some 1000;
               online_cpus := Some 2%N |};
     precpu_stats :=
       Some {| cpu_usage :=
                 Some {| total_usage := Some 0; percpu_usage := None |};
               system_cpu_usage := Some 0;
               online_cpus := None |};
     memory_stats := Some {| usage := Some 50; limit := Some 100 |};
     networks := None;
     blkio_stats := None |}.

(** A first sample whose [precpu_stats] has no [system_cpu_usage]. *)
Definition first_doc_absent : stats_doc :=
  {| cpu_stats := cpu_stats first_doc;
     precpu_stats :=
       Some {| cpu_usage :=
                 Some {| total_usage := Some 0; percpu_usage := None |};
               system_cpu_usage := None;
               online_cpus := None |};
     memory_stats := memory_stats first_doc;
     networks := None;
     blkio_stats := None |}.

(** A document whose [memory_stats] has no [limit]. *)
Definition no_limit_doc : stats_doc :=
  {| cpu_stats := cpu_stats first_doc;
     precpu_stats := cpu_stats first_doc;
     memory_stats := Some {| usage := Some 7; limit := None |};
     networks := None;
     blkio_stats := None |}.

(** The sum of a list of ints. *)
Definition Zsum (l : list Z) : Z := foldr Z.add 0 l.

(** The values of the block I/O entries whose [op] is [o]. *)
Definition op_values (o : string) (ios : list io_stat_doc) : list Z :=
  omap (fun io => if decide (op io = Some o) then value io else None) ios.

(** The keys the function reads with [d[k]]. *)
Definition required_keys : list string :=
  ["cpu_stats"; "precpu_stats"; "memory_stats"; "cpu_usage"; "total_usage";
   "system_cpu_usage"; "op"; "value"].

End Stats.

(** ** Python [str] operations used by the parser and the stream

    A [str] is a [string]; its characters are the code points below 256. *)

Module Str.

Local Open Scope char_scope.

(** The line boundaries of [str.splitlines] among these code points:
    LF, VT, FF, CR, FS, GS, RS and NEL. *)
Definition is_linebreak (c : ascii) : bool :=
  match nat_of_ascii c with
  | 10 | 11 | 12 | 13 | 28 | 29 | 30 | 133 => true
  | _ => false
  end%nat.

(** [str.isspace] on one character: the line boundaries, TAB, US, SPACE and
    NBSP. *)
Definition is_space (c : ascii) : bool :=
  is_linebreak c ||
  match nat_of_ascii c with
  | 9 | 31 | 32 | 160 => true
  | _ => false
  end%nat.

Definition is_cr (c : ascii) : bool := Nat.eqb (nat_of_ascii c) 13.
Definition is_lf (c : ascii) : bool := Nat.eqb (nat_of_ascii c) 10.

Local Open Scope string_scope.

(** [s.splitlines()].  [skip_lf] is set right after a CR, whose following LF
    belongs to the same boundary. *)
Fixpoint splitlines_from (skip_lf : bool) (s : string) : list string :=
  match s with
  | "" => []
  | String c rest =>
      if skip_lf && is_lf c then splitlines_from false rest
      else if is_linebreak c then "" :: splitlines_from (is_cr c) rest
      else match splitlines_from false rest with
           | [] => [String c ""]
           | l :: ls => String c l :: ls
           end
  end.

Definition splitlines (s : string) : list string := splitlines_from false s.

(** [k in s] *)
Fixpoint contains (k s : string) : bool :=
  String.prefix k s ||
  match s with
  | "" => false
  | String _ rest => contains k rest
  end.

Fixpoint lstrip (s : string) : string :=
  match s with
  | "" => ""
  | String c rest => if is_space c then lstrip rest else s
  end.

Fixpoint rstrip (s : string) : string :=
  match s with
  | "" => ""
  | String c rest =>
      match rstrip rest with
      | "" => if is_space c then "" else String c ""
      | r => String c r
      end
  end.

(** [s.strip()] *)
Definition strip (s : string) : string := rstrip (lstrip s).

(** [sep.join(parts)] *)
Definition join (sep : string) (parts : list string) : string :=
  String.concat sep parts.

(** [s.split(sep, 1)[0]] for a one-character [sep]: the text before the
    first [sep], or all of [s]. *)
Fixpoint before_first (sep : ascii) (s : string) : string :=
  match s with
  | "" => ""
  | String c rest =>
      if Ascii.eqb c sep then "" else String c (before_first sep rest)
  end.

(** [s.split(sep)[-1]] for a one-character [sep]: the text after the last
    [sep], or all of [s]. *)
Fixpoint after_last (sep : ascii) (s : string) : string :=
  match s with
  | "" => ""
  | String c rest =>
      if contains (String sep "") rest then after_last sep rest
      else if Ascii.eqb c sep then rest
      else s
  end.

(** [s[:n]] for [n >= 0] *)
Definition take (n : nat) (s : string) : string := String.substring 0 n s.

(** [s[n:]] for [n >= 0] *)
Fixpoint drop (n : nat) (s : string) : string :=
  match n, s with
  | O, _ => s
  | S n', String _ rest => drop n' rest
  | S _, "" => ""
  end.

(** [s[:-n]] for [n > 0] *)
Definition drop_last (n : nat) (s : string) : string :=
  take (String.length s - n) s.

(** [s.startswith(p)] *)
Definition startswith (s p : string) : bool := String.prefix p s.

(** [s.endswith(p)] *)
Definition endswith (s p : string) : bool :=
  (String.length p <=? String.length s)%nat &&
  String.eqb (drop (String.length s - String.length p) s) p.

(** The one-character string "\n". *)
Definition LF : string := String (ascii_of_nat 10) "".

(** No character of [s] is a line boundary. *)
Fixpoint no_linebreak (s : string) : Prop :=
  match s with
  | "" => True
  | String c rest => is_linebreak c = false ∧ no_linebreak rest
  end.

End Str.

(** ** services/error_parser.py: [parse_logs_and_save_errors] *)

Module ErrorParser.
Import Str.

Local Open Scope string_scope.

Definition ERROR_KEYWORDS : list string :=
  ["ERROR"; "Error"; "Exception"; "Traceback"; "Stacktrace"].

(** Modelled from the spec: the [ContainerError] model, which is imported
    from [main/models.py] but not declared there.  The spec's Incident Record
    is "source type, owning container identifier/name, timestamp, full
    message text, truncated summary, severity level, optional service name";
    the field names are the keyword arguments of the [create] call. *)
Record ContainerError := {
  source_type : string;
  container_id : string;
  container_name : string;
  timestamp : Z;
  error_message : string;
  short_message : string;
  level : string;
  service_name : string;
}.

(** [any(k in line for k in ERROR_KEYWORDS)] *)
Definition has_kw (line : string) : bool :=
  existsb (fun k => contains k line) ERROR_KEYWORDS.

(** [line.strip() == ''] *)
Definition is_blank (line : string) : bool := String.eqb (strip line) "".

Section Call.

(** The arguments other than [logs]; [clock n] is the value of
    [datetime.now(timezone.utc)] read for the record number [n] of the
    call. *)
Variable clock : nat → Z.
Variables arg_source_type arg_container_id arg_container_name : string.
Variable arg_service_name : option string.
Variable arg_default_level : string.

(** The locals of the function, and the table [ContainerError.objects]. *)
Record state := {
  errors_found : nat;
  buf : list string;
  capturing : bool;
  table : list ContainerError;
}.

(** The row built by [flush] from a non-empty [buf]. *)
Definition record_of (n : nat) (block : list string) : ContainerError :=
  let full := join LF block in
  let short := take 1024 (before_first (ascii_of_nat 10) full) in
  {| source_type := arg_source_type;
     container_id := arg_container_id;
     container_name := arg_container_name;
     timestamp := clock n;
     error_message := full;
     short_message := short;
     level := arg_default_level;
     service_name := match arg_service_name with
                     | Some s => s      (* [s or ''] is [s], also for [''] *)
                     | None => ""
                     end |}.

(** The nested [flush()]. *)
Definition flush (st : state) : state :=
  match buf st with
  | [] => st
  | block =>
      {| errors_found := S (errors_found st);
         buf := [];
         capturing := capturing st;
         table := table st ++ [record_of (errors_found st) block] |}
  end.

(** One iteration of [for line in lines]. *)
Definition step (st : state) (line : string) : state :=
  if has_kw line then
    let st := flush st in
    {| errors_found := errors_found st;
       buf := buf st ++ [line];
       capturing := true;
       table := table st |}
  else if capturing st then
    if is_blank line then
      let st := flush st in
      {| errors_found := errors_found st;
         buf := buf st;
         capturing := false;
         table := table st |}
    else
      {| errors_found := errors_found st;
         buf := buf st ++ [line];
         capturing := capturing st;
         table := table st |}
  else st.

Definition scan (lines : list string) (st : state) : state :=
  fold_left step lines st.

(** The function from [lines = logs.splitlines()] on. *)
Definition parse_lines (lines : list string) (db : list ContainerError)
  : nat * list ContainerError :=
  let st := scan lines {| errors_found := 0; buf := []; capturing := false;
                          table := db |} in
  let st := if capturing st then flush st else st in
  (errors_found st, table st).

(** The whole function: the number it returns and the table afterwards. *)
Definition parse_logs_and_save_errors (logs : string)
    (db : list ContainerError) : nat * list ContainerError :=
  match logs with
  | "" => (0%nat, db)
  | _ => parse_lines (splitlines logs) db
  end.

End Call.

(** Outside a block the buffer is empty. *)
Definition idle_empty (st : state) : Prop :=
  capturing st = false → buf st = [].

(** Inside a block the buffer holds at least the keyword line. *)
Definition open_nonempty (st : state) : Prop :=
  capturing st = true → buf st ≠ [].

(** The log of the spec's example:
    "INFO ok\nERROR boom\nline2\n\nINFO next". *)
Definition sample_logs : string :=
  "INFO ok" ++ LF ++ "ERROR boom" ++ LF ++ "line2" ++ LF ++ LF ++ "INFO next".

(** A log that ends inside a block: "ok\nTraceback:\n  at f". *)
Definition open_logs : string :=
  "ok" ++ LF ++ "Traceback:" ++ LF ++ "  at f".

(** The number of lines that hold a keyword. *)
Definition count_kw (lines : list string) : nat :=
  length (List.filter has_kw lines).

(** A block as the scanner collects it: a keyword line, then lines that
    neither hold a keyword nor are blank. *)
Definition is_block (block : list string) : Prop :=
  ∃ kw tail,
    block = kw :: tail ∧ has_kw kw = true ∧
    Forall (fun line => has_kw line = false ∧ is_blank line = false) tail.

(** The buffer and the flag of the scanner go together: outside a block the
    buffer is empty, inside it holds a block. *)
Definition scanner_ok (buf : list string) (capturing : bool) : Prop :=
  (capturing = false → buf = []) ∧ (capturing = true → is_block buf).

(** The rows [flush] saves for a list of blocks, the first one being the
    record number [n] of the call. *)
Definition records_of (clock : nat → Z)
    (source_type container_id container_name : string)
    (service_name : option string) (default_level : string)
    (n : nat) (blocks : list (list string)) : list ContainerError :=
  imap (fun i block =>
          record_of clock source_type container_id container_name
            service_name default_level (n + i) block) blocks.

(** A row without its timestamp. *)
Definition forget_timestamp (r : ContainerError) : ContainerError :=
  {| source_type := source_type r; container_id := container_id r;
     container_name := container_name r; timestamp := 0;
     error_message := error_message r; short_message := short_message r;
     level := level r; service_name := service_name r |}.

End ErrorParser.

(** ** consumers.py: [DockerMetricsConsumer.stream] and [to_series] *)

Module Stream.
Import Str.

Local Open Scope string_scope.

(** A Python float: a rational, an infinity or NaN. *)
Inductive pyfloat : Type :=
  | Finite (q : Q)
  | PosInf
  | NegInf
  | NaN.

(** [f == 0] *)
Definition float_is_zero (f : pyfloat) : bool :=
  match f with
  | Finite q => Qeq_bool q 0
  | _ => false
  end.

(** What [resp.json()] returns.  The fields of a [JDict] are in document
    order and have distinct keys. *)
#[local] Set Warnings "-register-all".
Inductive json : Type :=
  | JNull
  | JBool (b : bool)
  | JInt (n : Z)
  | JFloat (f : pyfloat)
  | JStr (s : string)
  | JList (items : list json)
  | JDict (fields : list (string * json)).

(** One of the four values [asyncio.gather(..., return_exceptions=True)]
    hands back: the exception the request ended with, or a response, whose
    [body] is [None] when [resp.json()] raises. *)
Inductive response : Type :=
  | Failed (e : exn)
  | Response (body : option json).

Fixpoint assoc (k : string) (fields : list (string * json)) : option json :=
  match fields with
  | [] => None
  | (k', v) :: rest => if String.eqb k k' then Some v else assoc k rest
  end.

(** [d.get(k, dflt)] on a value that may not be a dict. *)
Definition py_get (d : json) (k : string) (dflt : json) : result json :=
  match d with
  | JDict fields => Return (default dflt (assoc k fields))
  | _ => Raise AttributeError
  end.

(** [resp.json()] *)
Definition resp_json (body : option json) : result json :=
  match body with
  | Some j => Return j
  | None => Raise ValueError
  end.

(** [v != "success"] is false for the string "success" only. *)
Definition is_success (v : json) : bool :=
  match v with
  | JStr s => String.eqb s "success"
  | _ => false
  end.

Fixpoint chars (s : string) : list json :=
  match s with
  | "" => []
  | String c rest => JStr (String c "") :: chars rest
  end.

(** The elements [for m in data] goes through. *)
Definition py_iter (data : json) : result (list json) :=
  match data with
  | JList items => Return items
  | JDict fields => Return (map (fun kv => JStr (fst kv)) fields)
  | JStr s => Return (chars s)
  | _ => Raise TypeError
  end.

(** Lines 105-116 on a [str]. *)
Definition display_name (container_name : string) : string :=
  let container_name :=
    if contains "/" container_name then after_last "/" container_name
    else container_name in
  let container_name :=
    if endswith container_name ".scope" then drop_last 6 container_name
    else container_name in
  if startswith container_name "docker-" then
    let container_name := drop 7 container_name in
    if (12 <? String.length container_name)%nat then take 12 container_name
    else container_name
  else container_name.

(** Lines 105-116 on any value of the label: ["/" in x] raises [TypeError]
    unless [x] is a str, a list or a dict, and a list or a dict has neither
    [split] nor [endswith]. *)
Definition name_of (x : json) : result string :=
  match x with
  | JStr s => Return (display_name s)
  | JList _ | JDict _ => Raise AttributeError
  | _ => Raise TypeError
  end.

(** Truth value of [value] in [value and len(value) > 1]. *)
Definition truthy (v : json) : bool :=
  match v with
  | JNull => false
  | JBool b => b
  | JInt n => negb (n =? 0)%Z
  | JFloat f => negb (float_is_zero f)
  | JStr s => negb (String.eqb s "")
  | JList items => match items with [] => false | _ => true end
  | JDict fields => match fields with [] => false | _ => true end
  end.

Definition py_len (v : json) : result nat :=
  match v with
  | JStr s => Return (String.length s)
  | JList items => Return (length items)
  | JDict fields => Return (length fields)
  | _ => Raise TypeError
  end.

(** [value[1]]; a dict parsed from JSON has no key [1]. *)
Definition py_index1 (v : json) : result json :=
  match v with
  | JList items =>
      match items !! 1%nat with
      | Some x => Return x
      | None => Raise IndexError
      end
  | JStr s =>
      match String.get 1 s with
      | Some c => Return (JStr (String c ""))
      | None => Raise IndexError
      end
  | JDict _ => Raise (KeyError "1")
  | _ => Raise TypeError
  end.

Record point := {
  name : string;
  value : pyfloat;
}.

Record payload := {
  ts : Z;
  cpu : list point;
  memory : list point;
  netrx : list point;
  nettx : list point;
}.

(** What one tick sends: the merged payload, or [{"error": str(e)}]. *)
Inductive message : Type :=
  | Payload (p : payload)
  | ErrorMessage (e : exn).

Section Float.

(** The built-in [float] on a str: the parsed number, or [None] for
    [ValueError]. *)
Variable float_of_str : string → option pyfloat.

(** [float(x)]; an int too large for a float raises [OverflowError]. *)
Definition py_float (x : json) : result pyfloat :=
  match x with
  | JInt n =>
      if (Z.abs n <? 2 ^ 1024 - 2 ^ 970)%Z then Return (Finite (inject_Z n))
      else Raise OtherError
  | JFloat f => Return f
  | JBool b => Return (Finite (if b then 1 else 0))
  | JStr s =>
      match float_of_str s with
      | Some f => Return f
      | None => Raise ValueError
      end
  | _ => Raise TypeError
  end.

(** [float(value[1]) if value and len(value) > 1 else 0.0] *)
Definition value_float (value : json) : result pyfloat :=
  if truthy value then
    n ← py_len value;
    if (1 <? n)%nat then
      x ← py_index1 value;
      py_float x
    else Return (Finite 0)
  else Return (Finite 0).

(** The body of [for m in data]: the point appended to [result], or [None]
    when the series is skipped. *)
Definition series_item (m : json) : result (option point) :=
  metric ← py_get m "metric" (JDict []);
  value ← py_get m "value" (JList [JNull; JInt 0]);
  raw ← py_get metric "name" (JStr "unknown");
  container_name ← name_of raw;
  match value_float value with
  | Return f =>
      if float_is_zero f then Return None
      else Return (Some {| name := container_name; value := f |})
  | Raise ValueError | Raise IndexError | Raise TypeError => Return None
  | Raise e => Raise e
  end.

Fixpoint series_loop (data : list json) (result : list point)
  : Py.result (list point) :=
  match data with
  | [] => Return result
  | m :: rest =>
      o ← series_item m;
      series_loop rest (match o with
                        | Some p => result ++ [p]
                        | None => result
                        end)
  end.

(** The inner [try] block of [to_series]. *)
Definition series_of_body (body : option json) : result (list point) :=
  json_data ← resp_json body;
  status ← py_get json_data "status" JNull;
  if is_success status then
    d ← py_get json_data "data" (JDict []);
    data ← py_get d "result" (JList []);
    items ← py_iter data;
    series_loop items []
  else Return [].

Definition to_series (resp : response) : list point :=
  match resp with
  | Failed _ => []
  | Response body =>
      match series_of_body body with
      | Return result => result
      | Raise _ => []
      end
  end.

(** The body of the [try] in the [while] loop, from the four gathered
    values on. *)
Definition tick_body (ts_ms : Z)
    (responses : response * response * response * response)
  : result message :=
  let '(cpu, mem, rx, tx) := responses in
  let cpu_data := to_series cpu in
  let mem_data := to_series mem in
  let rx_data := to_series rx in
  let tx_data := to_series tx in
  Return (Payload {| ts := ts_ms; cpu := cpu_data; memory := mem_data;
                     netrx := rx_data; nettx := tx_data |}).

(** One tick of [stream]: what is passed to [self.send]. *)
Definition tick (ts_ms : Z)
    (responses : response * response * response * response) : message :=
  match tick_body ts_ms responses with
  | Return m => m
  | Raise e => ErrorMessage e
  end.

End Float.

(** A series as [to_series] needs it: an object whose [metric], when there,
    is an object whose [name], when there, is a string. *)
Definition item_ok (m : json) : bool :=
  match m with
  | JDict fields =>
      match default (JDict []) (assoc "metric" fields) with
      | JDict labels =>
          match default (JStr "unknown") (assoc "name" labels) with
          | JStr _ => true
          | _ => false
          end
      | _ => false
      end
  | _ => false
  end.

(** An answer as [to_series] needs it: an object with status "success"
    whose [data], when there, is an object whose [result], when there, is a
    list of such series. *)
Definition body_ok (body : json) : bool :=
  match body with
  | JDict fields =>
      is_success (default JNull (assoc "status" fields)) &&
      match default (JDict []) (assoc "data" fields) with
      | JDict data =>
          match default (JList []) (assoc "result" data) with
          | JList items => forallb item_ok items
          | _ => false
          end
      | _ => false
      end
  | _ => false
  end.

(** A sub-query that failed or came back malformed: the request raised, the
    body is not JSON, or the answer is not as above. *)
Definition failed_or_malformed (resp : response) : bool :=
  match resp with
  | Failed _ => true
  | Response None => true
  | Response (Some body) => negb (body_ok body)
  end.

(** Example values: a [float] that reads three literals, a series, an
    answer. *)
Definition sample_float (s : string) : option pyfloat :=
  if String.eqb s "0" then Some (Finite 0)
  else if String.eqb s "0.5" then Some (Finite (1 # 2))
  else if String.eqb s "1024" then Some (Finite 1024)
  else None.

Definition sample_item (label text : string) : json :=
  JDict [("metric", JDict [("name", JStr label)]);
         ("value", JList [JInt 1700000000; JStr text])].

Definition sample_answer (items : list json) : response :=
  Response (Some (JDict [("status", JStr "success");
                         ("data", JDict [("resultType", JStr "vector");
                                         ("result", JList items)])])).

Definition sample_error : response :=
  Response (Some (JDict [("status", JStr "error");
                         ("error", JStr "query timed out")])).

End Stream.

(** ** management/commands/sync_docker.py and views.py: the sync pass *)

Module Sync.

Local Open Scope string_scope.

(** The thirteen keys of a container descriptor that both callers copy into
    the [defaults] of [update_or_create]; they are also the columns of
    [DockerContainer] with the same names. *)
Record attrs := {
  name : string;
  image : string;
  image_id : string;
  status : string;
  state : string;
  restart_count : Z;
  ports : list (string * list string);
  networks : list string;
  ip_address : option string;
  created : string;
  started_at : option string;
  finished_at : option string;
  labels : list (string * string);
}.

(** One element of [docker_service.get_all_containers(...)]. *)
Record container_data := {
  container_id : string;
  short_id : string;
  fields : attrs;
}.

(** A row of [DockerContainer] without its two key columns [host] and
    [container_id] ([unique_together]): the primary key, the thirteen columns
    above, [command], which no sync path writes, and [updated_at], which
    [auto_now=True] sets on every save. *)
Record DockerContainer := {
  id : Z;
  columns : attrs;
  command : option string;
  updated_at : Z;
}.

(** A row of [DockerContainerMetric]: the foreign key and the sample. *)
Record DockerContainerMetric := {
  container : Z;
  sample : Stats.stats_record;
}.

(** The two tables; [next_id] is the next primary key of [DockerContainer].
    The key of [containers] is [(host, container_id)]. *)
Record database := {
  containers : gmap (Z * string) DockerContainer;
  metrics : list DockerContainerMetric;
  next_id : Z;
}.

(** The lines written per unit by the command. *)
Inductive line : Type :=
  | Created (name status : string)        (* "+ Создан" *)
  | Updated (name status : string)        (* "↻ Обновлен" *)
  | MetricsUnavailable (name : string)
  | SyncError (name : string).

(** The locals of the loop over [containers_data]; [iteration] counts the
    descriptors seen so far and indexes the clock. *)
Record loop_state := {
  db : database;
  docker_container_ids : gset string;
  synced_count : nat;
  metrics_count : nat;
  iteration : nat;
  out : list line;
}.

(** The three numbers of the command's summary line for one host. *)
Record report := {
  synced : nat;
  removed : nat;
  collected : nat;
}.

(** The response of the view. *)
Inductive response : Type :=
  | Success (containers removed : nat)   (* 'synced': {'containers', 'removed'} *)
  | ServerError (e : exn).               (* HTTP 500 *)

(** [filter(host=host).exclude(container_id__in=ids)] as a predicate on a
    row and its key. *)
Definition stale (host : Z) (ids : gset string)
    (kv : Z * string * DockerContainer) : Prop :=
  kv.1.1 = host ∧ kv.1.2 ∉ ids.

#[export] Instance stale_dec host ids kv : Decision (stale host ids kv).
Proof. unfold stale. apply _. Defined.

(** The queryset [removed]. *)
Definition removed_rows (host : Z) (ids : gset string) (d : database)
  : gmap (Z * string) DockerContainer :=
  filter (stale host ids) (containers d).

(** The metric rows that go with a set of container rows
    ([on_delete=CASCADE]). *)
Definition cascaded (rows : gmap (Z * string) DockerContainer)
    (m : DockerContainerMetric) : Prop :=
  container m ∈ (fun kv => id kv.2) <$> map_to_list rows.

#[export] Instance cascaded_dec rows m : Decision (cascaded rows m).
Proof. unfold cascaded. apply _. Defined.

(** [removed.delete()]: the database afterwards, and the first component of
    what [delete()] returns, the number of rows deleted in all tables. *)
Definition delete_removed (host : Z) (ids : gset string) (d : database)
  : database * nat :=
  let rows := removed_rows host ids d in
  ({| containers := filter (fun kv => ¬ stale host ids kv) (containers d);
      metrics := filter (fun m => ¬ cascaded rows m) (metrics d);
      next_id := next_id d |},
   (size rows + length (filter (cascaded rows) (metrics d)))%nat).

(** [DockerContainerMetric.objects.create(container=container, ...)] *)
Definition create_metric (pk : Z) (stats : Stats.stats_record) (d : database)
  : database :=
  {| containers := containers d;
     metrics := metrics d ++ [{| container := pk; sample := stats |}];
     next_id := next_id d |}.

Section Pass.

(** Whether the database accepts a row with these values (column lengths,
    date syntax, null constraints); when it does not, [update_or_create]
    raises. *)
Variable storable : string → attrs → bool.

(** The time read during the processing of the descriptor number [n]. *)
Variable clock : nat → Z.

(** What the Engine answers to the two calls of [get_container_stats] for a
    container identifier. *)
Variable stats_api : string → result Stats.stats_doc.

(** [DockerContainer.objects.update_or_create(host=host,
    container_id=container_id, defaults=defaults)]: the row and the
    [created] flag. *)
Definition update_or_create (host : Z) (container_id : string)
    (defaults : attrs) (now : Z) (d : database)
  : result (database * DockerContainer * bool) :=
  if storable container_id defaults then
    match containers d !! (host, container_id) with
    | Some row =>
        let row := {| id := id row; columns := defaults;
                      command := command row; updated_at := now |} in
        Return ({| containers := <[(host, container_id) := row]> (containers d);
                   metrics := metrics d;
                   next_id := next_id d |}, row, false)
    | None =>
        let row := {| id := next_id d; columns := defaults;
                      command := None; updated_at := now |} in
        Return ({| containers := <[(host, container_id) := row]> (containers d);
                   metrics := metrics d;
                   next_id := next_id d + 1 |}, row, true)
    end
  else Raise OtherError.

(** sync_docker.py, lines 64-120: one iteration of
    [for container_data in containers_data]. *)
Definition command_step (host : Z) (skip_metrics : bool) (st : loop_state)
    (container_data : container_data) : loop_state :=
  let ids := {[container_id container_data]} ∪ docker_container_ids st in
  let now := clock (iteration st) in
  let data := fields container_data in
  match update_or_create host (container_id container_data) data now (db st)
  with
  | Raise _ =>
      {| db := db st; docker_container_ids := ids;
         synced_count := synced_count st; metrics_count := metrics_count st;
         iteration := S (iteration st);
         out := out st ++ [SyncError (name data)] |}
  | Return (d, row, created) =>
      let action := if created then Created (name data) (status data)
                    else Updated (name data) (status data) in
      if negb skip_metrics && String.eqb (status data) "running" then
        match Stats.get_container_stats now
                (stats_api (container_id container_data)) with
        | Return (Some stats) =>
            {| db := create_metric (id row) stats d;
               docker_container_ids := ids;
               synced_count := S (synced_count st);
               metrics_count := S (metrics_count st);
               iteration := S (iteration st);
               out := out st ++ [action] |}
        | Return None =>
            {| db := d; docker_container_ids := ids;
               synced_count := S (synced_count st);
               metrics_count := metrics_count st;
               iteration := S (iteration st);
               out := out st ++ [action] |}
        | Raise _ =>
            {| db := d; docker_container_ids := ids;
               synced_count := S (synced_count st);
               metrics_count := metrics_count st;
               iteration := S (iteration st);
               out := out st ++ [action; MetricsUnavailable (name data)] |}
        end
      else
        {| db := d; docker_container_ids := ids;
           synced_count := S (synced_count st);
           metrics_count := metrics_count st;
           iteration := S (iteration st);
           out := out st ++ [action] |}
  end.

Definition initial (d : database) : loop_state :=
  {| db := d; docker_container_ids := ∅; synced_count := 0;
     metrics_count := 0; iteration := 0; out := [] |}.

(** sync_docker.py, lines 60-140: the pass of [Command.handle] over one
    host, from [containers_data] on. *)
Definition sync_host (host : Z) (skip_metrics : bool)
    (containers_data : list container_data) (d : database)
  : database * report * list line :=
  let st := fold_left (command_step host skip_metrics) containers_data
              (initial d) in
  let removed_count := size (removed_rows host (docker_container_ids st) (db st)) in
  let d' := if (0 <? removed_count)%nat
            then (delete_removed host (docker_container_ids st) (db st)).1
            else db st in
  (d', {| synced := synced_count st; removed := removed_count;
          collected := metrics_count st |}, out st).

(** views.py, lines 613-647: the loop of [SyncDockerDataView.post].  An
    exception of [update_or_create] is not caught inside the loop: it ends
    the loop, and the rows written so far stay written (each save commits
    on its own). *)
Fixpoint view_loop (host : Z) (containers_data : list container_data)
    (st : loop_state) : loop_state * option exn :=
  match containers_data with
  | [] => (st, None)
  | container_data :: rest =>
      let ids := {[container_id container_data]} ∪ docker_container_ids st in
      let now := clock (iteration st) in
      let data := fields container_data in
      match update_or_create host (container_id container_data) data now
              (db st) with
      | Raise e =>
          ({| db := db st; docker_container_ids := ids;
              synced_count := synced_count st;
              metrics_count := metrics_count st;
              iteration := iteration st; out := out st |}, Some e)
      | Return (d, row, _) =>
          let d :=
            if String.eqb (status data) "running" then
              match Stats.get_container_stats now
                      (stats_api (container_id container_data)) with
              | Return (Some stats) => create_metric (id row) stats d
              | _ => d
              end
            else d in
          view_loop host rest
            {| db := d; docker_container_ids := ids;
               synced_count := S (synced_count st);
               metrics_count := metrics_count st;
               iteration := S (iteration st); out := out st |}
      end
  end.

(** views.py, lines 607-667: [SyncDockerDataView.post] for an active host,
    from [containers_data] on. *)
Definition post (host : Z) (containers_data : list container_data)
    (d : database) : database * response :=
  match view_loop host containers_data (initial d) with
  | (st, Some e) => (db st, ServerError e)
  | (st, None) =>
      let '(d', removed_count) :=
        delete_removed host (docker_container_ids st) (db st) in
      (d', Success (synced_count st) removed_count)
  end.

End Pass.

(** The row [update_or_create] writes, from the row it found, if any, and
    the next primary key. *)
Definition upserted_row (found : option DockerContainer) (next : Z)
    (defaults : attrs) (now : Z) : DockerContainer :=
  {| id := match found with Some row => id row | None => next end;
     columns := defaults;
     command := match found with Some row => command row | None => None end;
     updated_at := now |}.

(** The set S of the spec: the identifiers of the snapshot. *)
Definition snapshot_ids (containers_data : list container_data) : gset string :=
  list_to_set (container_id <$> containers_data).

(** The descriptors of a snapshot that carry the identifier [cid] and that
    the database accepts; the last of them is the one whose values stay. *)
Definition stored_as (storable : string → attrs → bool) (cid : string)
    (cd : container_data) : Prop :=
  storable (container_id cd) (fields cd) = true ∧ container_id cd = cid.

#[export] Instance stored_as_dec storable cid cd :
  Decision (stored_as storable cid cd).
Proof. unfold stored_as. apply _. Defined.

Definition last_stored (storable : string → attrs → bool) (cid : string)
    (containers_data : list container_data) : option container_data :=
  last (filter (stored_as storable cid) containers_data).

(** A row without its [updated_at]. *)
Definition forget_updated_at (row : DockerContainer) : DockerContainer :=
  {| id := id row; columns := columns row; command := command row;
     updated_at := 0 |}.

Definition is_created (l : line) : bool :=
  match l with Created _ _ => true | _ => false end.

Definition is_updated (l : line) : bool :=
  match l with Updated _ _ => true | _ => false end.

(** The number of "created" and of "updated" lines in the output. *)
Definition created_count (out : list line) : nat :=
  length (List.filter is_created out).

Definition updated_count (out : list line) : nat :=
  length (List.filter is_updated out).

(** An accepted descriptor for which the host has no row in [T], and one
    for which it has a row. *)
Definition is_new (storable : string → attrs → bool) (host : Z)
    (T : gmap (Z * string) DockerContainer) (x : container_data) : bool :=
  storable (container_id x) (fields x) &&
  bool_decide (T !! (host, container_id x) = None).

Definition is_known (storable : string → attrs → bool) (host : Z)
    (T : gmap (Z * string) DockerContainer) (x : container_data) : bool :=
  storable (container_id x) (fields x) &&
  bool_decide (is_Some (T !! (host, container_id x))).

(** The persisted set P of the spec: the identifiers of the rows of a
    host. *)
Definition persisted_ids (host : Z) (d : database) : gset string :=
  list_to_set
    ((fun kv : Z * string * DockerContainer => kv.1.2) <$>
     map_to_list
       (filter (fun kv : Z * string * DockerContainer => kv.1.1 = host)
          (containers d))).

(** The contract of the spec:
    [reconcile(scope, liveUnits) -> {createdCount, updatedCount,
    removedCount}], for a persisted set [P] and a snapshot [L] of
    identifiers. *)
Definition reconcile_counts (P L : gset string) : nat * nat * nat :=
  (size (L ∖ P), size (L ∩ P), size (P ∖ L)).

(** The numbers the command reports for a host, and those the view
    returns. *)
Definition reported (r : report) : list nat :=
  [synced r; removed r; collected r].

Definition returned (r : response) : list nat :=
  match r with
  | Success containers removed => [containers; removed]
  | ServerError _ => []
  end.

(** Example values. *)
Definition unit_data (cid st : string) (restarts : Z) : container_data :=
  {| container_id := cid; short_id := cid;
     fields := {| name := "svc-" ++ cid; image := "nginx:latest";
                  image_id := "sha256:0"; status := st; state := st;
                  restart_count := restarts; ports := []; networks := [];
                  ip_address := None; created := "2024-01-01T00:00:00Z";
                  started_at := None; finished_at := None; labels := [] |} |}.

Definition unit_row (pk : Z) (cid st : string) (stamp : Z) : DockerContainer :=
  {| id := pk; columns := fields (unit_data cid st 0);
     command := Some "run"; updated_at := stamp |}.

(** Host 1 holds a, b and c; host 2 holds a. *)
Definition abc_database : database :=
  {| containers :=
       <[(1, "a") := unit_row 1 "a" "running" 10]>
       (<[(1, "b") := unit_row 2 "b" "running" 10]>
       (<[(1, "c") := unit_row 3 "c" "exited" 10]>
       (<[(2, "a") := unit_row 4 "a" "running" 10]> ∅)));
     metrics := [];
     next_id := 5 |}.

(** The same tables with three metric rows: two of a and one of b, on
    host 1. *)
Definition sample_metric (pk : Z) : DockerContainerMetric :=
  {| container := pk;
     sample := {| Stats.timestamp := 0; Stats.cpu_usage_percent := 0;
                  Stats.cpu_system_usage := 0; Stats.cpu_total_usage := 0;
                  Stats.memory_usage := 0; Stats.memory_limit := 1;
                  Stats.memory_percent := 0; Stats.network_rx_bytes := 0;
                  Stats.network_tx_bytes := 0; Stats.network_rx_packets := 0;
                  Stats.network_tx_packets := 0; Stats.block_read_bytes := 0;
                  Stats.block_write_bytes := 0 |} |}.

Definition abc_with_metrics : database :=
  {| containers := containers abc_database;
     metrics := [sample_metric 1; sample_metric 1; sample_metric 2];
     next_id := 5 |}.

(** The live snapshot b, c, d. *)
Definition bcd_snapshot : list container_data :=
  [unit_data "b" "exited" 1; unit_data "c" "exited" 0;
   unit_data "d" "created" 0].

Definition always_storable (_ : string) (_ : attrs) : bool := true.

Definition no_stats (_ : string) : result Stats.stats_doc := Raise NotFound.

End Sync.

(** ** The metric rows of a pass and the integrity of the two tables *)

Module Integrity.
Import Sync.

(** Whether [get_container_stats] gives a record on what the Engine
    answers. *)
Definition has_record (api : result Stats.stats_doc) : bool :=
  match api with
  | Return doc => Stats.complete doc
  | Raise _ => false
  end.

(** The descriptors for which a pass that collects metrics writes a metric
    row: accepted by the database, running, and with statistics. *)
Definition collects (storable : string → attrs → bool)
    (stats_api : string → result Stats.stats_doc) (x : container_data) : bool :=
  storable (container_id x) (fields x) &&
  String.eqb (status (fields x)) "running" &&
  has_record (stats_api (container_id x)).

(** The primary keys of [DockerContainer] are distinct and below the next
    one. *)
Definition pk_ok (d : database) : Prop :=
  (∀ k row, containers d !! k = Some row → id row < next_id d) ∧
  (∀ k1 k2 row1 row2,
     containers d !! k1 = Some row1 → containers d !! k2 = Some row2 →
     id row1 = id row2 → k1 = k2).

(** Every metric row refers to a container row. *)
Definition fk_ok (d : database) : Prop :=
  ∀ m, m ∈ metrics d →
       ∃ k row, containers d !! k = Some row ∧ id row = container m.

(** The metric rows of the units of a host. *)
Definition of_host (host : Z) (d : database) (m : DockerContainerMetric)
  : Prop :=
  ∃ cid row, containers d !! (host, cid) = Some row ∧ id row = container m.

Definition is_unavailable (l : line) : bool :=
  match l with MetricsUnavailable _ => true | _ => false end.

(** The lines of the units without those about metrics. *)
Definition unit_lines (out : list line) : list line :=
  List.filter (fun l => negb (is_unavailable l)) out.

(** Example values: the Engine has statistics for b only. *)
Definition stats_of_b (cid : string) : result Stats.stats_doc :=
  if decide (cid = "b"%string) then Return Stats.first_doc
  else Raise NotFound.

Definition running_snapshot : list container_data :=
  [unit_data "b" "running" 1; unit_data "c" "running" 0;
   unit_data "d" "exited" 0].

End Integrity.

(** ** sync_docker.py and views.py: the hosts around the pass *)

Module Hosts.
Import Sync.

(** A row of [DockerHost]; [host_id] is its primary key. *)
Record DockerHost := {
  host_id : Z;
  host_name : string;
  host_url : string;
  is_active : bool;
}.

(** What the Docker daemon behind a URL answers: to [DockerService(url)],
    whose constructor pings and re-raises; to
    [self.client.containers.list(all=True)] followed by the parse of every
    container; and to the two calls of [get_container_stats]. *)
Record engine := {
  connection : result unit;
  listing : result (list container_data);
  stats : string → result Stats.stats_doc;
}.

(** docker_service.py, lines 225-243: [get_all_containers].  A
    [DockerException] ([NotFound] is one) is answered with the empty list;
    anything else reaches the caller. *)
Definition get_all_containers (listing : result (list container_data))
  : result (list container_data) :=
  match listing with
  | Return result => Return result
  | Raise NotFound => Return []
  | Raise DockerException => Return []
  | Raise e => Raise e
  end.

(** What the command writes for one host: the summary line with the lines
    of the units, or the line of the outer [except]. *)
Inductive host_outcome : Type :=
  | Synced (r : report) (out : list line)
  | ConnectionError (e : exn).

Record totals := {
  total_synced : nat;
  total_removed : nat;
  total_metrics : nat;
}.

(** What [Command.handle] writes. *)
Inductive handle_result : Type :=
  | HostNotFound (host_id : Z)
  | NoActiveHosts
  | Finished (per_host : list host_outcome) (t : totals)
      (total_containers running_containers : nat).

(** The responses of [SyncDockerDataView.post]. *)
Inductive http_response : Type :=
  | BadRequest                    (* 400, 'host_id is required' *)
  | HostMissing                   (* 404, 'Docker host not found' *)
  | Answered (r : response).      (* 200 or 500 *)

(** The locals of the loop over [docker_hosts]. *)
Record hosts_state := {
  hdb : database;
  outcomes : list host_outcome;
  sums : totals;
}.

(** [if host_id:] on an optional int. *)
Definition truthy (host_id : option Z) : option Z :=
  match host_id with
  | Some i => if decide (i = 0) then None else Some i
  | None => None
  end.

(** The hosts a truthy or falsy [host_id] selects, as a predicate. *)
Definition selects (host_id : option Z) (h : DockerHost) : Prop :=
  is_active h = true ∧
  match truthy host_id with Some i => Hosts.host_id h = i | None => True end.

#[export] Instance selects_dec host_id h : Decision (selects host_id h).
Proof. unfold selects. destruct (truthy host_id); apply _. Defined.

Section Hosts.

Variable storable : string → attrs → bool.

(** The time read during the processing of the descriptor number [n] of a
    host. *)
Variable clock : Z → nat → Z.

(** The daemon behind a URL. *)
Variable docker : string → engine.

(** [DockerService(host.host_url)] followed by
    [docker_service.get_all_containers(all_containers=True)]. *)
Definition containers_of (h : DockerHost) : result (list container_data) :=
  _ ← connection (docker (host_url h));
  get_all_containers (listing (docker (host_url h))).

(** sync_docker.py, lines 48-143: the body of [for host in docker_hosts]. *)
Definition handle_host (skip_metrics : bool) (st : hosts_state)
    (h : DockerHost) : hosts_state :=
  match containers_of h with
  | Return containers_data =>
      let pass := sync_host storable (clock (host_id h))
                    (stats (docker (host_url h))) (host_id h) skip_metrics
                    containers_data (hdb st) in
      {| hdb := pass.1.1;
         outcomes := outcomes st ++ [Synced pass.1.2 pass.2];
         sums := {| total_synced := total_synced (sums st) + synced pass.1.2;
                    total_removed := total_removed (sums st) + removed pass.1.2;
                    total_metrics :=
                      total_metrics (sums st) + collected pass.1.2 |} |}
  | Raise e =>
      {| hdb := hdb st; outcomes := outcomes st ++ [ConnectionError e];
         sums := sums st |}
  end.

Definition hosts_initial (d : database) : hosts_state :=
  {| hdb := d; outcomes := [];
     sums := {| total_synced := 0; total_removed := 0; total_metrics := 0 |} |}.

Definition running (kv : Z * string * DockerContainer) : Prop :=
  status (columns kv.2) = "running"%string.

#[export] Instance running_dec kv : Decision (running kv).
Proof. unfold running. apply _. Defined.

(** sync_docker.py, lines 42-157: the loop over the hosts and the final
    statistics. *)
Definition handle_loop (skip_metrics : bool) (docker_hosts : list DockerHost)
    (d : database) : database * handle_result :=
  let st := fold_left (handle_host skip_metrics) docker_hosts
              (hosts_initial d) in
  (hdb st,
   Finished (outcomes st) (sums st) (size (containers (hdb st)))
     (size (filter running (containers (hdb st))))).

(** sync_docker.py, lines 22-157: [Command.handle].  [hosts] is the table
    [DockerHost] in the order of its queryset. *)
Definition handle (host_id : option Z) (skip_metrics : bool)
    (hosts : list DockerHost) (d : database) : database * handle_result :=
  match truthy host_id with
  | Some i =>
      let docker_hosts :=
        filter (fun h => Hosts.host_id h = i ∧ is_active h = true) hosts in
      match docker_hosts with
      | [] => (d, HostNotFound i)
      | _ => handle_loop skip_metrics docker_hosts d
      end
  | None =>
      let docker_hosts := filter (fun h => is_active h = true) hosts in
      match docker_hosts with
      | [] => (d, NoActiveHosts)
      | _ => handle_loop skip_metrics docker_hosts d
      end
  end.

(** views.py, lines 585-667: [SyncDockerDataView.post].  The primary key is
    unique, so [DockerHost.objects.get] finds at most one row. *)
Definition post_request (host_id : option Z) (hosts : list DockerHost)
    (d : database) : database * http_response :=
  match truthy host_id with
  | None => (d, BadRequest)
  | Some i =>
      match filter (fun h => Hosts.host_id h = i ∧ is_active h = true) hosts
      with
      | [] => (d, HostMissing)
      | host :: _ =>
          match containers_of host with
          | Raise e => (d, Answered (ServerError e))
          | Return containers_data =>
              let r := post storable (clock (Hosts.host_id host))
                         (stats (docker (host_url host)))
                         (Hosts.host_id host) containers_data d in
              (r.1, Answered r.2)
          end
      end
  end.

End Hosts.

(** The descriptors a host contributes to the sums of the command: those of
    its listing that the database accepts, and the rows of the host that its
    listing does not name. *)
Definition synced_of (storable : string → attrs → bool)
    (listed : result (list container_data)) : nat :=
  match listed with
  | Return l =>
      length (List.filter (fun x => storable (container_id x) (fields x)) l)
  | Raise _ => 0
  end.

Definition removed_of (d : database) (h : Z)
    (listed : result (list container_data)) : nat :=
  match listed with
  | Return l => size (removed_rows h (snapshot_ids l) d)
  | Raise _ => 0
  end.

Definition metrics_of (storable : string → attrs → bool) (skip_metrics : bool)
    (stats_api : string → result Stats.stats_doc)
    (listed : result (list container_data)) : nat :=
  match listed with
  | Return l =>
      if skip_metrics then 0%nat
      else length (List.filter (Integrity.collects storable stats_api) l)
  | Raise _ => 0
  end.

(** Example values: two active hosts and an inactive one; the daemon of the
    first is reached but fails to list, the others are not reached. *)
Definition local_url : string := "unix:///var/run/docker.sock".

Definition three_hosts : list DockerHost :=
  [ {| host_id := 1; host_name := "local"; host_url := local_url;
       is_active := true |};
    {| host_id := 2; host_name := "remote"; host_url := "tcp://10.0.0.2:2375";
       is_active := true |};
    {| host_id := 3; host_name := "old"; host_url := "tcp://10.0.0.3:2375";
       is_active := false |} ].

Definition failing_docker (url : string) : engine :=
  if decide (url = local_url) then
    {| connection := Return (); listing := Raise DockerException;
       stats := no_stats |}
  else
    {| connection := Raise DockerException; listing := Return [];
       stats := no_stats |}.

Definition host_clock (h : Z) (n : nat) : Z := h * 1000 + Z.of_nat n.

End Hosts.

(** ** services/docker_service.py: [_parse_container_info] and the listing *)

Module Parse.
Import Sync.

Local Open Scope string_scope.

(** The part of [container.attrs] the function reads.  A key is there or
    not; the bindings of a port can also be [null], which the Engine sends
    for an exposed port that is not published. *)
Record binding_doc := {
  HostIp : option string;
  HostPort : option string;
}.

Record endpoint_doc := {
  IPAddress : option string;
}.

Record state_doc := {
  Status : option string;
  StartedAt : option string;
  FinishedAt : option string;
}.

Record config_doc := {
  Labels : option (list (string * string));
}.

Record network_settings_doc := {
  Networks : option (list (string * endpoint_doc));
  Ports : option (list (string * option (list binding_doc)));
}.

Record attrs_doc := {
  State : option state_doc;
  Created : option string;
  RestartCount : option Z;
  Config : option config_doc;
  NetworkSettings : option network_settings_doc;
}.

(** The container object of the Docker SDK. *)
Record image_obj := {
  tags : list string;
  image_obj_id : string;
}.

Record container_obj := {
  obj_id : string;
  obj_short_id : string;
  obj_name : string;
  obj_image : image_obj;
  obj_status : string;
  obj_attrs : attrs_doc;
}.

(** [not ip_address] on an optional string. *)
Definition falsy (s : option string) : bool :=
  match s with
  | None => true
  | Some s => String.eqb s ""
  end.

(** Lines 284-291: the loop over [networks.items()]. *)
Fixpoint networks_loop (nets : list (string * endpoint_doc))
    (network_list : list string) (ip_address : option string)
  : list string * option string :=
  match nets with
  | [] => (network_list, ip_address)
  | (network_name, network_data) :: rest =>
      networks_loop rest (network_list ++ [network_name])
        (if falsy ip_address then IPAddress network_data else ip_address)
  end.

(** Lines 300-303: the list comprehension over the bindings of a port. *)
Fixpoint bindings (host_bindings : list binding_doc) : result (list string) :=
  match host_bindings with
  | [] => Return []
  | binding :: rest =>
      ip ← getitem "HostIp" (HostIp binding);
      port ← getitem "HostPort" (HostPort binding);
      strs ← bindings rest;
      Return ((ip ++ ":" ++ port) :: strs)
  end.

(** [if host_bindings:] on a list that can be [null]. *)
Definition published (host_bindings : option (list binding_doc)) : bool :=
  match host_bindings with
  | None | Some [] => false
  | Some (_ :: _) => true
  end.

(** Lines 296-304: the loop over [ports.items()]. *)
Fixpoint ports_loop (ports : list (string * option (list binding_doc)))
    (port_mappings : list (string * list string))
  : result (list (string * list string)) :=
  match ports with
  | [] => Return port_mappings
  | (container_port, host_bindings) :: rest =>
      if published host_bindings then
        strs ← bindings (default [] host_bindings);
        ports_loop rest (port_mappings ++ [(container_port, strs)])
      else ports_loop rest port_mappings
  end.

Definition no_settings : network_settings_doc :=
  {| Networks := None; Ports := None |}.

(** Lines 262-323: [_parse_container_info(container)], with
    [detailed=False]. *)
Definition _parse_container_info (container : container_obj)
  : result container_data :=
  let attrs := obj_attrs container in
  let image :=
    match tags (obj_image container) with
    | tag :: _ => tag
    | [] => image_obj_id (obj_image container)
    end in
  st ← getitem "State" (State attrs);
  state ← getitem "Status" (Status st);
  created ← getitem "Created" (Created attrs);
  st' ← getitem "State" (State attrs);
  let started_at := StartedAt st' in
  st'' ← getitem "State" (State attrs);
  let finished_at := FinishedAt st'' in
  restart_count ← getitem "RestartCount" (RestartCount attrs);
  config ← getitem "Config" (Config attrs);
  let labels := get (Labels config) [] in
  let networks := get (Networks (get (NetworkSettings attrs) no_settings)) [] in
  let '(network_list, ip_address) := networks_loop networks [] None in
  let ports := get (Ports (get (NetworkSettings attrs) no_settings)) [] in
  port_mappings ← ports_loop ports [];
  Return {|
    container_id := obj_id container;
    short_id := obj_short_id container;
    fields := {|
      name := obj_name container;
      image := image;
      image_id := image_obj_id (obj_image container);
      status := obj_status container;
      state := state;
      restart_count := restart_count;
      ports := port_mappings;
      networks := network_list;
      ip_address := ip_address;
      created := created;
      started_at := started_at;
      finished_at := finished_at;
      labels := labels;
    |}
  |}.

(** Lines 236-239: the loop of [get_all_containers] over the containers. *)
Fixpoint parse_all (containers : list container_obj)
  : result (list container_data) :=
  match containers with
  | [] => Return []
  | container :: rest =>
      container_info ← _parse_container_info container;
      result ← parse_all rest;
      Return (container_info :: result)
  end.

(** Lines 225-243: [get_all_containers], from what
    [self.client.containers.list(all=all_containers)] comes back with. *)
Definition get_all_containers (listed : result (list container_obj))
  : result (list container_data) :=
  Hosts.get_all_containers (listed ≫= parse_all).

(** The documents on which [_parse_container_info] reaches its [return]. *)
Definition binding_complete (b : binding_doc) : bool :=
  bool_decide (is_Some (HostIp b)) && bool_decide (is_Some (HostPort b)).

Definition port_complete (p : string * option (list binding_doc)) : bool :=
  forallb binding_complete (default [] p.2).

Definition parsable (container : container_obj) : bool :=
  let attrs := obj_attrs container in
  match State attrs with
  | Some st =>
      bool_decide (is_Some (Status st)) &&
      bool_decide (is_Some (Created attrs)) &&
      bool_decide (is_Some (RestartCount attrs)) &&
      bool_decide (is_Some (Config attrs)) &&
      forallb port_complete
        (get (Ports (get (NetworkSettings attrs) no_settings)) [])
  | None => false
  end.

Definition parse_keys : list string :=
  ["State"; "Status"; "Created"; "RestartCount"; "Config"; "HostIp";
   "HostPort"].

(** The string a binding is written as. *)
Definition binding_str (b : binding_doc) : string :=
  default "" (HostIp b) ++ ":" ++ default "" (HostPort b).

(** The entry of [port_mappings] for a published port. *)
Definition mapping (p : string * option (list binding_doc))
  : string * list string :=
  (p.1, binding_str <$> default [] p.2).

(** The networks of a container, as the function reads them. *)
Definition networks_of (container : container_obj)
  : list (string * endpoint_doc) :=
  get (Networks (get (NetworkSettings (obj_attrs container)) no_settings)) [].

Definition ports_of (container : container_obj)
  : list (string * option (list binding_doc)) :=
  get (Ports (get (NetworkSettings (obj_attrs container)) no_settings)) [].

(** Example values. *)
Definition web_attrs : attrs_doc :=
  {| State := Some {| Status := Some "running"; StartedAt := Some "t1";
                      FinishedAt := None |};
     Created := Some "t0";
     RestartCount := Some 0;
     Config := Some {| Labels := None |};
     NetworkSettings :=
       Some {| Networks :=
                 Some [("none", {| IPAddress := Some "" |});
                       ("bridge", {| IPAddress := Some "172.17.0.2" |});
                       ("backend", {| IPAddress := Some "10.0.0.5" |})];
               Ports :=
                 Some [("80/tcp",
                        Some [{| HostIp := Some "0.0.0.0";
                                 HostPort := Some "8080" |}]);
                       ("443/tcp", None)] |} |}.

Definition web : container_obj :=
  {| obj_id := "b"; obj_short_id := "b"; obj_name := "web";
     obj_image := {| tags := ["nginx:latest"]; image_obj_id := "sha256:0" |};
     obj_status := "running"; obj_attrs := web_attrs |}.

(** A container whose inspection lacks [State]. *)
Definition broken : container_obj :=
  {| obj_id := "x"; obj_short_id := "x"; obj_name := "broken";
     obj_image := {| tags := []; image_obj_id := "sha256:1" |};
     obj_status := "created";
     obj_attrs := {| State := None; Created := Some "t0";
                     RestartCount := Some 0; Config := None;
                     NetworkSettings := None |} |}.

End Parse.

(** * Properties *)

(** ** Rounding and division *)

Module PyFacts.

Lemma round_half_even_Z (q : Q) (z : Z) :
  (q == inject_Z z)%Q → round_half_even q = z.
Proof.
  unfold Qeq, round_half_even. cbn [Qnum Qden inject_Z]. intros H.
  rewrite Z.mul_1_r in H. rewrite H.
  rewrite Z.div_mul, Z.mod_mul by lia.
  now destruct (Qden q).
Qed.

Lemma Qred_inject_Z (z : Z) : Qred (inject_Z z) = inject_Z z.
Proof.
  apply Qred_identity. cbn [Qnum Qden inject_Z]. apply Z.gcd_1_r.
Qed.

Lemma round2_Z (q : Q) (z : Z) : (q == inject_Z z)%Q → round2 q = inject_Z z.
Proof.
  intros H. unfold round2.
  rewrite (round_half_even_Z (q * 100) (z * 100)).
  - transitivity (Qred (inject_Z z)); [|apply Qred_inject_Z].
    apply Qred_complete. rewrite inject_Z_mult. field.
  - rewrite H, inject_Z_mult. reflexivity.
Qed.

Lemma round_half_even_nonneg (q : Q) : (0 <= q)%Q → 0 <= round_half_even q.
Proof.
  unfold Qle, round_half_even. cbn [Qnum Qden]. intros H.
  rewrite Z.mul_1_r in H.
  assert (0 <= Qnum q / Z.pos (Qden q)) by (apply Z.div_pos; lia).
  destruct (_ ?= _); [destruct (Z.even _)|..]; lia.
Qed.

Lemma round2_nonneg (q : Q) : (0 <= q)%Q → (0 <= round2 q)%Q.
Proof.
  intros H. unfold round2. rewrite Qred_correct.
  assert (0 <= round_half_even (q * 100)) as Hr.
  { apply round_half_even_nonneg. apply Qmult_le_0_compat; [done|].
    now unfold Qle. }
  unfold Qle, Qdiv. cbn. lia.
Qed.

Lemma truediv_Return (a b : Z) :
  b ≠ 0 → truediv a b = Return (inject_Z a / inject_Z b)%Q.
Proof. intros H. unfold truediv. now destruct (decide (b = 0)). Qed.

End PyFacts.

(** ** [get_container_stats] *)

Module StatsFacts.
Import Stats PyFacts.

Lemma cpu_count_of_nonneg cpu cu : 0 <= cpu_count_of cpu cu.
Proof.
  unfold cpu_count_of, get. destruct (online_cpus cpu); cbn; lia.
Qed.

Lemma cpu_count_Return cpu cu :
  cpu_usage cpu = Some cu → cpu_count cpu = Return (cpu_count_of cpu cu).
Proof. intros H. unfold cpu_count. now rewrite H. Qed.

Lemma block_totals_complete ios rd wr :
  forallb io_complete ios = true → ∃ p, block_totals ios rd wr = Return p.
Proof.
  revert rd wr. induction ios as [|io ios IH]; intros rd wr H; cbn in *.
  - eauto.
  - apply andb_prop in H as [Hio Hrest]. unfold io_complete in Hio.
    destruct (op io) as [o|]; [|done]. cbn.
    destruct (decide (o = "Read")) as [->|Hr].
    + rewrite decide_True in Hio by auto.
      apply bool_decide_eq_true in Hio as [v ->]. cbn. auto.
    + destruct (decide (o = "Write")) as [->|Hw].
      * rewrite decide_True in Hio by auto.
        apply bool_decide_eq_true in Hio as [v ->]. cbn. auto.
      * auto.
Qed.

Lemma block_totals_no_division ios rd wr :
  block_totals ios rd wr ≠ Raise ZeroDivisionError.
Proof.
  revert rd wr. induction ios as [|io ios IH]; intros rd wr; cbn; [done|].
  destruct (op io) as [o|]; cbn; [|done].
  destruct (decide (o = "Read")).
  - destruct (value io); cbn; [apply IH|done].
  - destruct (decide (o = "Write")); [|apply IH].
    destruct (value io); cbn; [apply IH|done].
Qed.

Lemma cpu_percent_no_division cd sd cpu :
  cpu_percent cd sd cpu ≠ Raise ZeroDivisionError.
Proof.
  unfold cpu_percent. destruct (decide _) as [[Hs Hc]|]; [|done].
  unfold cpu_count. destruct (cpu_usage cpu); cbn; [|done].
  rewrite truediv_Return by lia. done.
Qed.

Lemma memory_part_total mem :
  let u := get (usage mem) 0 in
  let l := get (limit mem) 1 in
  memory_part mem =
    Return (u, l,
            if decide (l > 0) then (inject_Z u / inject_Z l * 100)%Q
            else 0%Q).
Proof.
  cbv zeta. unfold memory_part. destruct (decide _); [|done].
  rewrite truediv_Return by lia. done.
Qed.

(** What a returned record was computed from. *)
Lemma stats_of_doc_inv now stats r :
  stats_of_doc now stats = Return r →
  ∃ cpu precpu mem cu pcu total ptotal system psystem pct,
    cpu_stats stats = Some cpu ∧ precpu_stats stats = Some precpu ∧
    memory_stats stats = Some mem ∧
    cpu_usage cpu = Some cu ∧ total_usage cu = Some total ∧
    cpu_usage precpu = Some pcu ∧ total_usage pcu = Some ptotal ∧
    system_cpu_usage cpu = Some system ∧
    system_cpu_usage precpu = Some psystem ∧
    cpu_percent (total - ptotal) (system - psystem) cpu = Return pct ∧
    cpu_usage_percent r = round2 pct ∧
    memory_usage r = get (usage mem) 0 ∧
    memory_limit r = get (limit mem) 1 ∧
    memory_percent r =
      round2 (if decide (get (limit mem) 1 > 0)
              then (inject_Z (memory_usage r) / inject_Z (memory_limit r)
                    * 100)%Q
              else 0%Q).
Proof.
  unfold stats_of_doc.
  destruct (cpu_stats stats) as [cpu|]; [|done].
  destruct (precpu_stats stats) as [precpu|]; [|done].
  destruct (memory_stats stats) as [mem|]; [|done]. cbn.
  destruct (cpu_usage cpu) as [cu|] eqn:Hcu; [|done]. cbn.
  destruct (total_usage cu) as [total|] eqn:Htotal; [|done]. cbn.
  destruct (cpu_usage precpu) as [pcu|] eqn:Hpcu; [|done]. cbn.
  destruct (total_usage pcu) as [ptotal|] eqn:Hptotal; [|done]. cbn.
  destruct (system_cpu_usage cpu) as [system|] eqn:Hsys; [|done]. cbn.
  destruct (system_cpu_usage precpu) as [psystem|] eqn:Hpsys; [|done]. cbn.
  destruct (cpu_percent _ _ cpu) as [pct|] eqn:Hpct; [|done]. cbn.
  pose proof (memory_part_total mem) as Hmem. cbv zeta in Hmem.
  rewrite Hmem. cbn.
  destruct (network_totals _) as [[[rxb txb] rxp] txp].
  destruct (block_totals _ 0 0) as [[rd wr]|]; [|done]. cbn.
  intros [= <-]. cbn.
  exists cpu, precpu, mem, cu, pcu, total, ptotal, system, psystem, pct.
  repeat split; done.
Qed.

(** A complete document always yields a record. *)
Lemma stats_of_doc_returns now stats :
  complete stats = true → ∃ r, stats_of_doc now stats = Return r.
Proof.
  unfold complete, counters_complete, stats_of_doc.
  destruct (cpu_stats stats) as [cpu|]; [|done].
  destruct (precpu_stats stats) as [precpu|]; [|done].
  destruct (memory_stats stats) as [mem|]; [|done]. cbn.
  destruct (cpu_usage cpu) as [cu|] eqn:Hcu; [|done]. cbn.
  destruct (cpu_usage precpu) as [pcu|] eqn:Hpcu;
    [|rewrite andb_false_r; done]. cbn.
  rewrite !andb_true_iff, !bool_decide_eq_true.
  intros [[[[total ->] [system ->]] [[ptotal ->] [psystem ->]]] Hio]. cbn.
  unfold cpu_percent. rewrite (cpu_count_Return _ _ Hcu).
  destruct (decide _) as [[Hs Hc]|]; cbn.
  - rewrite truediv_Return by lia. cbn.
    pose proof (memory_part_total mem) as Hmem. cbv zeta in Hmem.
    rewrite Hmem. cbn. destruct (network_totals _) as [[[rxb txb] rxp] txp].
    edestruct block_totals_complete as [[rd wr] ->]; [eassumption|].
    cbn. eauto.
  - pose proof (memory_part_total mem) as Hmem. cbv zeta in Hmem.
    rewrite Hmem. cbn. destruct (network_totals _) as [[[rxb txb] rxp] txp].
    edestruct block_totals_complete as [[rd wr] ->]; [eassumption|].
    cbn. eauto.
Qed.

(** No document makes the function divide by zero. *)
Lemma stats_of_doc_no_division now stats :
  stats_of_doc now stats ≠ Raise ZeroDivisionError.
Proof.
  unfold stats_of_doc.
  destruct (cpu_stats stats) as [cpu|]; [|done].
  destruct (precpu_stats stats) as [precpu|]; [|done].
  destruct (memory_stats stats) as [mem|]; [|done]. cbn.
  destruct (cpu_usage cpu) as [cu|]; [|done]. cbn.
  destruct (total_usage cu) as [total|]; [|done]. cbn.
  destruct (cpu_usage precpu) as [pcu|]; [|done]. cbn.
  destruct (total_usage pcu) as [ptotal|]; [|done]. cbn.
  destruct (system_cpu_usage cpu) as [system|]; [|done]. cbn.
  destruct (system_cpu_usage precpu) as [psystem|]; [|done]. cbn.
  destruct (cpu_percent _ _ cpu) as [pct|e] eqn:Hpct; cbn.
  - pose proof (memory_part_total mem) as Hmem. cbv zeta in Hmem.
    rewrite Hmem. cbn. destruct (network_totals _) as [[[rxb txb] rxp] txp].
    destruct (block_totals _ 0 0) as [[rd wr]|e] eqn:Hb; cbn; [done|].
    intros [= ->]. by apply block_totals_no_division in Hb.
  - intros [= ->]. by apply cpu_percent_no_division in Hpct.
Qed.

Lemma get_container_stats_Return now stats r :
  stats_of_doc now stats = Return r →
  get_container_stats now (Return stats) = Return (Some r).
Proof. unfold get_container_stats. cbn. now intros ->. Qed.

Lemma cpu_percent_guard_true cd sd cpu cu :
  cpu_usage cpu = Some cu → sd > 0 ∧ cd > 0 →
  cpu_percent cd sd cpu =
    Return (inject_Z cd / inject_Z sd * inject_Z (cpu_count_of cpu cu)
            * 100)%Q.
Proof.
  intros Hcu Hg. unfold cpu_percent. rewrite decide_True by done.
  rewrite (cpu_count_Return _ _ Hcu). cbn.
  rewrite truediv_Return by lia. done.
Qed.

Lemma cpu_percent_guard_false cd sd cpu :
  ¬ (sd > 0 ∧ cd > 0) → cpu_percent cd sd cpu = Return 0%Q.
Proof. intros Hg. unfold cpu_percent. by rewrite decide_False. Qed.








(** A first sample whose previous [system_cpu_usage] is absent: the
    [KeyError] is neither [NotFound] nor a [DockerException], and reaches
    the caller. *)
Lemma first_sample_absent_raises :
  first_sample first_doc_absent ∧
  get_container_stats 0 (Return first_doc_absent) =
    Raise (KeyError "system_cpu_usage").
Proof. split; [cbn; auto|reflexivity]. Qed.



End StatsFacts.

(** ** [parse_logs_and_save_errors] *)

Module ErrorParserFacts.
Import Str ErrorParser.

Local Open Scope string_scope.

(** *** Lines of [splitlines] hold no line boundary *)

Lemma splitlines_from_no_linebreak skip s :
  Forall no_linebreak (splitlines_from skip s).
Proof.
  revert skip. induction s as [|c rest IH]; intros skip; cbn; [constructor|].
  destruct (skip && is_lf c); [apply IH|].
  destruct (is_linebreak c) eqn:Hc.
  - constructor; [done|apply IH].
  - specialize (IH false). destruct (splitlines_from false rest) as [|l ls].
    + repeat constructor. done.
    + inversion IH; subst. constructor; [cbn; auto|done].
Qed.

Lemma before_first_self (line : string) :
  no_linebreak line → before_first (ascii_of_nat 10) line = line.
Proof.
  induction line as [|c line IH]; [done|]. intros [Hc Hline].
  cbn [before_first].
  destruct (Ascii.eqb c (ascii_of_nat 10)) eqn:E.
  - apply Ascii.eqb_eq in E. by subst c.
  - by rewrite IH.
Qed.

Lemma before_first_app (line tl : string) :
  no_linebreak line →
  before_first (ascii_of_nat 10) (line ++ LF ++ tl) = line.
Proof.
  induction line as [|c line IH]; [done|]. intros [Hc Hline].
  change (String c line ++ LF ++ tl) with (String c (line ++ LF ++ tl)).
  cbn [before_first].
  destruct (Ascii.eqb c (ascii_of_nat 10)) eqn:E.
  - apply Ascii.eqb_eq in E. by subst c.
  - f_equal. by apply IH.
Qed.

Lemma before_first_join (line : string) (rest : list string) :
  no_linebreak line →
  before_first (ascii_of_nat 10) (join LF (line :: rest)) = line.
Proof.
  intros H. unfold join. cbn. destruct rest.
  - by apply before_first_self.
  - by apply before_first_app.
Qed.

Section Call.

Variable clock : nat → Z.
Variables source_type container_id container_name : string.
Variable service_name : option string.
Variable default_level : string.

Local Abbreviation record_of :=
  (record_of clock source_type container_id container_name service_name
     default_level).
Local Abbreviation flush :=
  (flush clock source_type container_id container_name service_name
     default_level).
Local Abbreviation step :=
  (step clock source_type container_id container_name service_name
     default_level).
Local Abbreviation scan :=
  (scan clock source_type container_id container_name service_name
     default_level).
Local Abbreviation parse_lines :=
  (parse_lines clock source_type container_id container_name service_name
     default_level).
Local Abbreviation parse_logs_and_save_errors :=
  (parse_logs_and_save_errors clock source_type container_id container_name
     service_name default_level).

Lemma scan_app a b st : scan (a ++ b) st = scan b (scan a st).
Proof. apply fold_left_app. Qed.

Lemma flush_buf st : buf (flush st) = [].
Proof. unfold flush. by destruct (buf st) eqn:E. Qed.

Lemma step_idle_empty st line : idle_empty st → idle_empty (step st line).
Proof.
  unfold idle_empty, step. intros H.
  destruct (has_kw line); [done|].
  destruct (capturing st) eqn:Hc; [|auto].
  destruct (is_blank line); cbn; [|done].
  intros _. apply flush_buf.
Qed.

Lemma scan_idle_empty lines st : idle_empty st → idle_empty (scan lines st).
Proof.
  revert st. induction lines as [|l ls IH]; intros st H; [done|].
  cbn. apply IH. by apply step_idle_empty.
Qed.

Lemma step_open_nonempty st line :
  open_nonempty st → open_nonempty (step st line).
Proof.
  unfold open_nonempty, ErrorParser.step. intros H.
  destruct (has_kw line); cbn.
  - intros _. by destruct (buf (flush st)).
  - destruct (capturing st) eqn:Hc; [|by rewrite Hc].
    destruct (is_blank line); cbn; [done|].
    intros _. by destruct (buf st).
Qed.

Lemma scan_open_nonempty lines st :
  open_nonempty st → open_nonempty (scan lines st).
Proof.
  revert st. induction lines as [|l ls IH]; intros st H; [done|].
  cbn. apply IH. by apply step_open_nonempty.
Qed.

(** Closing the scan is a [flush], whether a block is open or not. *)
Lemma close_is_flush st :
  idle_empty st →
  (if capturing st then flush st else st) = flush st.
Proof.
  intros H. destruct (capturing st) eqn:Hc; [done|].
  unfold flush. by rewrite (H Hc).
Qed.

(** Lines without a keyword leave an idle scanner as it is. *)
Lemma scan_no_keyword lines st :
  capturing st = false →
  Forall (fun line => has_kw line = false) lines →
  scan lines st = st.
Proof.
  intros Hc Hall. induction Hall as [|l ls Hl _ IH]; [done|].
  cbn. unfold ErrorParser.step. by rewrite Hl, Hc.
Qed.

(** Lines that neither hold a keyword nor are blank extend an open block. *)
Lemma scan_block tail st :
  capturing st = true →
  Forall (fun line => has_kw line = false ∧ is_blank line = false) tail →
  scan tail st =
    {| errors_found := errors_found st; buf := buf st ++ tail;
       capturing := true; table := table st |}.
Proof.
  intros Hc Hall. revert st Hc.
  induction Hall as [|l ls [Hk Hb] _ IH]; intros st Hc.
  - cbn. rewrite app_nil_r. destruct st; cbn in *. by subst.
  - change (scan (l :: ls) st) with (scan ls (step st l)).
    assert (step st l =
            {| errors_found := errors_found st; buf := buf st ++ [l];
               capturing := capturing st; table := table st |}) as ->.
    { unfold ErrorParser.step. by rewrite Hk, Hc, Hb. }
    rewrite IH by done. cbn. by rewrite <- app_assoc.
Qed.

(** C7.  On "INFO ok\nERROR boom\nline2\n\nINFO next" the extractor saves
    exactly one record, whose summary is "ERROR boom" and whose full text is
    the two lines "ERROR boom" and "line2"; on a log none of whose lines
    holds a keyword it saves nothing; on a log that ends inside a block (a
    keyword line followed, up to the end, by lines that are neither blank nor
    keyword lines) it saves that block as one more record, after the records
    of the lines before it; said on the scanner, when the loop ends with
    [capturing] set, the buffer is not empty and becomes one more record. *)
Theorem log_extraction :
  (∀ db,
     parse_logs_and_save_errors sample_logs db =
       (1%nat,
        (db ++ [{| ErrorParser.source_type := source_type;
                  ErrorParser.container_id := container_id;
                  ErrorParser.container_name := container_name;
                  timestamp := clock 0;
                  error_message := "ERROR boom" ++ LF ++ "line2";
                  short_message := "ERROR boom";
                  level := default_level;
                  ErrorParser.service_name := default "" service_name |}])%list)) ∧
  (∀ logs db,
     Forall (fun line => has_kw line = false) (splitlines logs) →
     parse_logs_and_save_errors logs db = (0%nat, db)) ∧
  (∀ (logs : string) (pre : list string) (kw : string) (tail : list string)
       (db : list ContainerError),
     splitlines logs = (pre ++ kw :: tail)%list →
     has_kw kw = true →
     Forall (fun line => has_kw line = false ∧ is_blank line = false) tail →
     let before := parse_lines pre db in
     let block := record_of before.1 (kw :: tail) in
     parse_logs_and_save_errors logs db = (S before.1, (before.2 ++ [block])%list) ∧
     error_message block = join LF (kw :: tail) ∧
     short_message block = take 1024 kw) ∧
  (∀ (logs : string) (db : list ContainerError),
     let st := scan (splitlines logs)
                 {| errors_found := 0; buf := []; capturing := false;
                    table := db |} in
     capturing st = true →
     buf st ≠ [] ∧
     parse_logs_and_save_errors logs db =
       (S (errors_found st),
        (table st ++ [record_of (errors_found st) (buf st)])%list)).
Proof.
  split; [|split; [|split]].
  - intros db. unfold ErrorParser.parse_logs_and_save_errors.
    change (splitlines sample_logs)
      with ["INFO ok"; "ERROR boom"; "line2"; ""; "INFO next"].
    unfold sample_logs. cbn [String.append].
    destruct service_name; reflexivity.
  - intros logs db Hall. unfold ErrorParser.parse_logs_and_save_errors.
    destruct logs as [|c logs]; [done|].
    unfold ErrorParser.parse_lines. by rewrite scan_no_keyword.
  - intros logs pre kw tail db Hsplit Hkw Htail before block.
    assert (no_linebreak kw) as Hnl.
    { pose proof (splitlines_from_no_linebreak false logs) as Hall.
      fold (splitlines logs) in Hall. rewrite Hsplit in Hall.
      apply Forall_app in Hall as [_ Hall]. by inversion Hall. }
    split; [|split].
    + unfold ErrorParser.parse_logs_and_save_errors.
      destruct logs as [|c logs]; [by destruct pre|].
      rewrite Hsplit. subst before block.
      unfold ErrorParser.parse_lines.
      set (st0 := {| errors_found := 0; buf := []; capturing := false;
                     table := db |}).
      assert (idle_empty (scan pre st0)) as Hidle
        by (by apply scan_idle_empty).
      rewrite (close_is_flush _ Hidle).
      rewrite scan_app.
      change (scan (kw :: tail) (scan pre st0))
        with (scan tail (step (scan pre st0) kw)).
      assert (step (scan pre st0) kw =
              {| errors_found := errors_found (flush (scan pre st0));
                 buf := [kw]; capturing := true;
                 table := table (flush (scan pre st0)) |}) as ->.
      { unfold ErrorParser.step. rewrite Hkw. by rewrite flush_buf. }
      rewrite scan_block by done. reflexivity.
    + reflexivity.
    + subst block. cbn [short_message ErrorParser.record_of].
      by rewrite before_first_join.
  - intros logs db st Hcap.
    assert (buf st ≠ []) as Hbuf.
    { apply (scan_open_nonempty (splitlines logs)); [|done].
      intros Hc. cbn in Hc. done. }
    split; [done|].
    unfold ErrorParser.parse_logs_and_save_errors.
    destruct logs as [|c logs]; [done|].
    unfold ErrorParser.parse_lines. fold st. rewrite Hcap.
    unfold ErrorParser.flush. by destruct (buf st).
Qed.

End Call.

Lemma log_extraction_witness :
  parse_logs_and_save_errors (fun n => Z.of_nat n) "docker" "c1" "web" None
    "Error" "INFO ok" [] = (0%nat, []) ∧
  parse_logs_and_save_errors (fun n => Z.of_nat n) "docker" "c1" "web" None
    "Error" open_logs [] =
    (1%nat,
     [{| source_type := "docker"; container_id := "c1";
         container_name := "web"; timestamp := 0;
         error_message := "Traceback:" ++ LF ++ "  at f";
         short_message := "Traceback:"; level := "Error";
         service_name := "" |}]).
Proof.
  destruct (log_extraction (fun n => Z.of_nat n) "docker" "c1" "web" None
              "Error") as (_ & Hnone & Hopen & _).
  split.
  - apply Hnone. repeat constructor.
  - apply (Hopen open_logs ["ok"] "Traceback:" ["  at f"] []).
    + reflexivity.
    + reflexivity.
    + repeat constructor.
Defined.

End ErrorParserFacts.

(** ** [to_series] and the tick of [stream] *)

Module StreamFacts.
Import Str Stream.

Local Open Scope string_scope.

Section Float.

Variable float_of_str : string → option pyfloat.

Local Abbreviation py_float := (py_float float_of_str).
Local Abbreviation value_float := (value_float float_of_str).
Local Abbreviation series_item := (series_item float_of_str).
Local Abbreviation series_loop := (series_loop float_of_str).
Local Abbreviation series_of_body := (series_of_body float_of_str).
Local Abbreviation to_series := (to_series float_of_str).
Local Abbreviation tick := (tick float_of_str).

(** A point is appended only with a value other than zero. *)
Lemma series_item_nonzero m p :
  series_item m = Return (Some p) → float_is_zero (value p) = false.
Proof.
  unfold Stream.series_item.
  destruct (py_get m "metric" _) as [metric|]; [|done]. cbn.
  destruct (py_get m "value" _) as [v|]; [|done]. cbn.
  destruct (py_get metric "name" _) as [raw|]; [|done]. cbn.
  destruct (name_of raw) as [n|]; [|done]. cbn.
  destruct (value_float v) as [f|[]]; try done.
  destruct (float_is_zero f) eqn:Hz; [done|].
  by intros [= <-].
Qed.

Lemma series_loop_nonzero items acc l :
  series_loop items acc = Return l →
  Forall (fun p => float_is_zero (value p) = false) acc →
  Forall (fun p => float_is_zero (value p) = false) l.
Proof.
  revert acc. induction items as [|m items IH]; intros acc; cbn.
  - by intros [= <-].
  - destruct (series_item m) as [[p|]|] eqn:Hm; cbn; [| |done].
    + intros Hl Hacc. apply (IH _ Hl). apply Forall_app. split; [done|].
      repeat constructor. by apply series_item_nonzero in Hm.
    + apply IH.
Qed.

Lemma to_series_nonzero resp :
  Forall (fun p => float_is_zero (value p) = false) (to_series resp).
Proof.
  destruct resp as [e|body]; cbn; [constructor|].
  destruct (series_of_body body) as [l|] eqn:Hb; [|constructor].
  unfold Stream.series_of_body in Hb.
  destruct (resp_json body) as [j|]; [|done]. cbn in Hb.
  destruct (py_get j "status" JNull) as [st|]; [|done]. cbn in Hb.
  destruct (is_success st).
  - destruct (py_get j "data" _) as [d|]; [|done]. cbn in Hb.
    destruct (py_get d "result" _) as [r|]; [|done]. cbn in Hb.
    destruct (py_iter r) as [items|]; [|done]. cbn in Hb.
    by apply (series_loop_nonzero _ _ _ Hb).
  - injection Hb as <-. constructor.
Qed.

(** A series that is not as [to_series] needs it makes the loop raise. *)
Lemma series_item_ill_formed m :
  item_ok m = false → ∃ e, series_item m = Raise e.
Proof.
  unfold item_ok, Stream.series_item.
  destruct m as [| | | | |items|fields]; cbn; eauto.
  destruct (default (JDict []) (assoc "metric" fields))
    as [| | | | |items|labels]; cbn; eauto.
  destruct (default (JStr "unknown") (assoc "name" labels)); cbn; eauto.
  done.
Qed.

Lemma series_loop_ill_formed items acc :
  forallb item_ok items = false → ∃ e, series_loop items acc = Raise e.
Proof.
  revert acc. induction items as [|m items IH]; intros acc; cbn; [done|].
  destruct (item_ok m) eqn:Hm; cbn.
  - intros H. destruct (series_item m) as [o|e]; cbn; eauto.
  - intros _. destruct (series_item_ill_formed m Hm) as [e ->]. cbn. eauto.
Qed.

Lemma series_loop_strings (keys : list string) acc :
  keys = [] ∨ ∃ e, series_loop (map JStr keys) acc = Raise e.
Proof. destruct keys; cbn; eauto. Qed.

Lemma chars_strings s : ∃ keys, chars s = map JStr keys.
Proof.
  induction s as [|c s [keys IH]]; [by exists []|].
  exists (String c "" :: keys). cbn. by rewrite IH.
Qed.

(** A failed or malformed sub-query yields the empty list. *)
Lemma to_series_failed resp :
  failed_or_malformed resp = true → to_series resp = [].
Proof.
  destruct resp as [e|[body|]]; cbn; [done| |done].
  intros Hbad. apply negb_true_iff in Hbad.
  unfold Stream.series_of_body. cbn.
  destruct body as [| | | | |items|fields]; cbn; try done.
  cbn in Hbad.
  destruct (is_success (default JNull (assoc "status" fields))); [|done].
  cbn in Hbad.
  destruct (default (JDict []) (assoc "data" fields))
    as [| | | | |items|data]; cbn; try done.
  destruct (default (JList []) (assoc "result" data))
    as [| | | |s|items|rfields]; cbn; try done.
  - destruct (chars_strings s) as [keys ->].
    destruct (series_loop_strings keys []) as [->|[e ->]]; done.
  - by destruct (series_loop_ill_formed items [] Hbad) as [e ->].
  - rewrite <- (map_map fst JStr).
    destruct (series_loop_strings (map fst rfields) []) as [->|[e ->]]; done.
Qed.

(** A series whose value cannot be read is skipped alone: the other series
    of the answer stay. *)
Lemma unreadable_value_skipped label t text :
  float_of_str text = None →
  series_item (JDict [("metric", JDict [("name", JStr label)]);
                      ("value", JList [t; JStr text])]) = Return None.
Proof. intros H. unfold Stream.series_item. cbn. by rewrite H. Qed.

(** C8.  Within one tick, when one of the four sub-queries fails or comes
    back malformed (the request raised, the body is not JSON, the status is
    not "success", or the answer is not a list of series objects), the
    payload that is sent holds the empty list for that dimension and, for
    the other three, the lists their own answers produce; the tick sends a
    payload, not an error message. *)
Theorem tick_isolation (ts_ms : Z) (r_cpu r_mem r_rx r_tx bad : response) :
  failed_or_malformed bad = true →
  tick ts_ms (r_cpu, r_mem, r_rx, r_tx) =
    Payload {| ts := ts_ms; cpu := to_series r_cpu;
               memory := to_series r_mem; netrx := to_series r_rx;
               nettx := to_series r_tx |} ∧
  tick ts_ms (bad, r_mem, r_rx, r_tx) =
    Payload {| ts := ts_ms; cpu := []; memory := to_series r_mem;
               netrx := to_series r_rx; nettx := to_series r_tx |} ∧
  tick ts_ms (r_cpu, bad, r_rx, r_tx) =
    Payload {| ts := ts_ms; cpu := to_series r_cpu; memory := [];
               netrx := to_series r_rx; nettx := to_series r_tx |} ∧
  tick ts_ms (r_cpu, r_mem, bad, r_tx) =
    Payload {| ts := ts_ms; cpu := to_series r_cpu;
               memory := to_series r_mem; netrx := [];
               nettx := to_series r_tx |} ∧
  tick ts_ms (r_cpu, r_mem, r_rx, bad) =
    Payload {| ts := ts_ms; cpu := to_series r_cpu;
               memory := to_series r_mem; netrx := to_series r_rx;
               nettx := [] |}.
Proof.
  intros Hbad. unfold Stream.tick, tick_body.
  rewrite (to_series_failed bad Hbad). done.
Qed.


End Float.

Lemma tick_isolation_witness :
  tick sample_float 1700000000000
    (sample_answer [sample_item "/system.slice/docker-ab12cd34ef56gh78.scope"
                      "0.5"],
     sample_answer [sample_item "my-service" "1024"],
     Failed OtherError,
     sample_answer [sample_item "my-service" "0.5"]) =
  Payload {| ts := 1700000000000;
             cpu := [{| name := "ab12cd34ef56"; value := Finite (1 # 2) |}];
             memory := [{| name := "my-service"; value := Finite 1024 |}];
             netrx := [];
             nettx := [{| name := "my-service"; value := Finite (1 # 2) |}] |}
  ∧
  tick sample_float 1700000000000
    (sample_answer [sample_item "my-service" "0.5"],
     sample_error,
     sample_answer [],
     sample_answer []) =
  Payload {| ts := 1700000000000;
             cpu := [{| name := "my-service"; value := Finite (1 # 2) |}];
             memory := []; netrx := []; nettx := [] |}.
Proof.
  split.
  - refine (proj1 (proj2 (proj2 (proj2
      (tick_isolation sample_float 1700000000000
         (sample_answer
            [sample_item "/system.slice/docker-ab12cd34ef56gh78.scope" "0.5"])
         (sample_answer [sample_item "my-service" "1024"])
         (sample_answer [])
         (sample_answer [sample_item "my-service" "0.5"])
         (Failed OtherError) _))))).
    reflexivity.
  - refine (proj1 (proj2 (proj2
      (tick_isolation sample_float 1700000000000
         (sample_answer [sample_item "my-service" "0.5"])
         (sample_answer [])
         (sample_answer [])
         (sample_answer [])
         sample_error _)))).
    reflexivity.
Defined.


End StreamFacts.

(** ** The sync pass *)

Module SyncFacts.
Import Sync.

#[local] Set Warnings "-clear-no-such-hyp".

Section Pass.

Variable storable : string → attrs → bool.
Variable clock : nat → Z.
Variable stats_api : string → result Stats.stats_doc.
Variable host : Z.

Local Abbreviation update_or_create := (update_or_create storable).
Local Abbreviation command_step skip :=
  (command_step storable clock stats_api host skip).
Local Abbreviation sync_host := (sync_host storable clock stats_api host).
Local Abbreviation view_loop := (view_loop storable clock stats_api host).
Local Abbreviation post := (post storable clock stats_api host).
Local Abbreviation last_stored := (last_stored storable).
Local Abbreviation is_new := (is_new storable host).
Local Abbreviation is_known := (is_known storable host).

(** *** One call of [update_or_create] *)

Lemma update_or_create_eq cid defaults now d :
  update_or_create host cid defaults now d =
    if storable cid defaults then
      let found := containers d !! (host, cid) in
      let row := upserted_row found (next_id d) defaults now in
      Return ({| containers := <[(host, cid) := row]> (containers d);
                 metrics := metrics d;
                 next_id := match found with
                            | Some _ => next_id d
                            | None => next_id d + 1
                            end |},
              row, match found with Some _ => false | None => true end)
    else Raise OtherError.
Proof.
  unfold Sync.update_or_create. destruct (storable cid defaults); [|done].
  by destruct (containers d !! (host, cid)).
Qed.

(** *** One iteration of the command's loop *)

Ltac step_cases st x skip :=
  unfold Sync.command_step; rewrite update_or_create_eq;
  destruct (storable (container_id x) (fields x)) eqn:?;
  [ cbv zeta;
    destruct (containers (db st) !! (host, container_id x)) eqn:?;
    destruct (negb skip && String.eqb (status (fields x)) "running"%string);
    try destruct (Stats.get_container_stats _ _) as [[?|]|?]
  | ].

Lemma command_step_containers skip st x :
  containers (db (command_step skip st x)) =
    if storable (container_id x) (fields x) then
      <[(host, container_id x) :=
          upserted_row (containers (db st) !! (host, container_id x))
            (next_id (db st)) (fields x) (clock (iteration st))]>
        (containers (db st))
    else containers (db st).
Proof. step_cases st x skip; cbn; done. Qed.

Lemma command_step_next_id skip st x :
  next_id (db (command_step skip st x)) =
    if storable (container_id x) (fields x) then
      match containers (db st) !! (host, container_id x) with
      | Some _ => next_id (db st)
      | None => next_id (db st) + 1
      end
    else next_id (db st).
Proof. step_cases st x skip; cbn; done. Qed.

Lemma command_step_ids skip st x :
  docker_container_ids (command_step skip st x) =
    {[container_id x]} ∪ docker_container_ids st.
Proof. step_cases st x skip; cbn; done. Qed.

Lemma command_step_synced skip st x :
  synced_count (command_step skip st x) =
    if storable (container_id x) (fields x) then S (synced_count st)
    else synced_count st.
Proof. step_cases st x skip; cbn; done. Qed.

Lemma command_step_iteration skip st x :
  iteration (command_step skip st x) = S (iteration st).
Proof. step_cases st x skip; cbn; done. Qed.

Lemma created_count_app out1 out2 :
  created_count (out1 ++ out2) = (created_count out1 + created_count out2)%nat.
Proof. unfold created_count. by rewrite List.filter_app, length_app. Qed.

Lemma updated_count_app out1 out2 :
  updated_count (out1 ++ out2) = (updated_count out1 + updated_count out2)%nat.
Proof. unfold updated_count. by rewrite List.filter_app, length_app. Qed.

Lemma command_step_created skip st x :
  created_count (out (command_step skip st x)) =
    (created_count (out st) +
     if storable (container_id x) (fields x) then
       match containers (db st) !! (host, container_id x) with
       | Some _ => 0
       | None => 1
       end
     else 0)%nat.
Proof.
  step_cases st x skip; cbn [out]; rewrite created_count_app; cbn; lia.
Qed.

Lemma command_step_updated skip st x :
  updated_count (out (command_step skip st x)) =
    (updated_count (out st) +
     if storable (container_id x) (fields x) then
       match containers (db st) !! (host, container_id x) with
       | Some _ => 1
       | None => 0
       end
     else 0)%nat.
Proof.
  step_cases st x skip; cbn [out]; rewrite updated_count_app; cbn; lia.
Qed.

(** *** The loop of the command *)

Local Abbreviation run skip := (fold_left (command_step skip)).

Lemma run_snoc skip l x st :
  run skip (l ++ [x]) st = command_step skip (run skip l st) x.
Proof. by rewrite fold_left_app. Qed.

Lemma run_ids skip l st :
  docker_container_ids (run skip l st) =
    snapshot_ids l ∪ docker_container_ids st.
Proof.
  revert st. induction l as [|x l IH]; intros st; cbn.
  - unfold snapshot_ids. cbn. set_solver.
  - rewrite IH, command_step_ids. unfold snapshot_ids. cbn. set_solver.
Qed.

Lemma run_iteration skip l st :
  iteration (run skip l st) = (iteration st + length l)%nat.
Proof.
  revert st. induction l as [|x l IH]; intros st; cbn; [lia|].
  rewrite IH, command_step_iteration. lia.
Qed.

Lemma run_synced skip l st :
  synced_count (run skip l st) =
    (synced_count st +
     length (List.filter (fun x => storable (container_id x) (fields x)) l))%nat.
Proof.
  revert st. induction l as [|x l IH]; intros st; cbn; [lia|].
  rewrite IH, command_step_synced.
  destruct (storable _ _); cbn; lia.
Qed.

Lemma command_step_other_host skip st x h cid :
  h ≠ host →
  containers (db (command_step skip st x)) !! (h, cid) =
    containers (db st) !! (h, cid).
Proof.
  intros Hh. rewrite command_step_containers.
  destruct (storable _ _); [|done].
  rewrite lookup_insert_ne; [done|congruence].
Qed.

Lemma run_other_host skip l st h cid :
  h ≠ host →
  containers (db (run skip l st)) !! (h, cid) = containers (db st) !! (h, cid).
Proof.
  intros Hh. revert st. induction l as [|x l IH]; intros st; cbn; [done|].
  by rewrite IH, command_step_other_host.
Qed.

Lemma command_step_next_id_le skip st x :
  next_id (db st) ≤ next_id (db (command_step skip st x)).
Proof.
  rewrite command_step_next_id.
  destruct (storable _ _); [|lia]. destruct (_ !! _); lia.
Qed.

Lemma run_next_id_le skip l st :
  next_id (db st) ≤ next_id (db (run skip l st)).
Proof.
  revert st. induction l as [|x l IH]; intros st; cbn; [lia|].
  etrans; [apply (command_step_next_id_le skip st x)|apply IH].
Qed.

Lemma last_stored_snoc cid l x :
  last_stored cid (l ++ [x]) =
    if decide (stored_as storable cid x) then Some x else last_stored cid l.
Proof.
  unfold Sync.last_stored. rewrite filter_app.
  destruct (decide (stored_as storable cid x)) as [Hx|Hx].
  - rewrite filter_cons_True by done. cbn. apply last_snoc.
  - rewrite filter_cons_False by done. cbn. by rewrite app_nil_r.
Qed.

Lemma last_stored_None cid l :
  cid ∉ snapshot_ids l → last_stored cid l = None.
Proof.
  intros Hcid. unfold Sync.last_stored. apply last_None.
  induction l as [|x l IH]; [done|].
  unfold snapshot_ids in *. cbn in Hcid.
  rewrite filter_cons_False; [apply IH; set_solver|].
  intros [_ Hx]. set_solver.
Qed.

Lemma last_stored_Some cid l cd :
  last_stored cid l = Some cd →
  cd ∈ l ∧ storable (container_id cd) (fields cd) = true ∧
  container_id cd = cid.
Proof.
  unfold Sync.last_stored. intros H. apply last_Some_elem_of in H.
  apply list_elem_of_filter in H as [[? ?] ?]. done.
Qed.

Lemma last_stored_is_Some cid l cd :
  cd ∈ l → storable (container_id cd) (fields cd) = true →
  container_id cd = cid → is_Some (last_stored cid l).
Proof.
  intros Hin Hs Hid. unfold Sync.last_stored. apply last_is_Some.
  intros Hnil.
  assert (cd ∈ filter (stored_as storable cid) l) as Hf
    by (apply list_elem_of_filter; done).
  rewrite Hnil in Hf. by apply not_elem_of_nil in Hf.
Qed.

(** What the loop leaves under one key of the host: the row is untouched
    when no accepted descriptor carries the identifier; otherwise it holds
    the values of the last such descriptor, and keeps the primary key and
    the command of the row that was there, or is new. *)
Lemma run_key skip l st cid :
  match last_stored cid l with
  | None =>
      containers (db (run skip l st)) !! (host, cid) =
        containers (db st) !! (host, cid)
  | Some cd =>
      ∃ row, containers (db (run skip l st)) !! (host, cid) = Some row ∧
             columns row = fields cd ∧
             match containers (db st) !! (host, cid) with
             | Some old => id row = id old ∧ command row = command old
             | None =>
                 command row = None ∧
                 next_id (db st) ≤ id row < next_id (db (run skip l st))
             end
  end.
Proof.
  induction l as [|x l IH] using rev_ind; [done|].
  rewrite last_stored_snoc, run_snoc.
  pose proof (run_next_id_le skip l st) as Hle.
  pose proof (command_step_next_id skip (run skip l st) x) as Hnext.
  rewrite command_step_containers.
  destruct (decide (stored_as storable cid x)) as [[Hs <-]|Hx].
  - rewrite Hs in Hnext |- *. rewrite lookup_insert_eq.
    eexists. split; [done|]. split; [done|].
    destruct (last_stored (container_id x) l) as [cd|].
    + destruct IH as (row & Hrow & _ & Hold).
      rewrite Hrow in Hnext |- *. cbn.
      destruct (containers (db st) !! (host, container_id x)); [done|].
      split; [tauto|lia].
    + rewrite IH in Hnext |- *.
      destruct (containers (db st) !! (host, container_id x)); cbn; [done|].
      split; [done|lia].
  - assert ((if storable (container_id x) (fields x)
             then <[(host, container_id x) :=
                      upserted_row
                        (containers (db (run skip l st)) !!
                           (host, container_id x))
                        (next_id (db (run skip l st))) (fields x)
                        (clock (iteration (run skip l st)))]>
                    (containers (db (run skip l st)))
             else containers (db (run skip l st))) !! (host, cid) =
            containers (db (run skip l st)) !! (host, cid)) as ->.
    { destruct (storable (container_id x) (fields x)) eqn:Hs; [|done].
      rewrite lookup_insert_ne; [done|].
      intros [= Heq]. apply Hx. done. }
    destruct (last_stored cid l) as [cd|]; [|done].
    destruct IH as (row & Hrow & Hcols & Hold).
    exists row. split; [done|]. split; [done|].
    destruct (containers (db st) !! (host, cid)); [done|].
    split; [tauto|].
    assert (next_id (db (run skip l st)) ≤
            next_id (db (command_step skip (run skip l st) x)))
      by apply command_step_next_id_le.
    lia.
Qed.

(** Where every accepted descriptor already has its row, the loop creates
    nothing. *)
Lemma command_step_is_Some skip st x k :
  is_Some (containers (db st) !! k) →
  is_Some (containers (db (command_step skip st x)) !! k).
Proof.
  intros H. rewrite command_step_containers.
  destruct (storable _ _); [|done]. rewrite lookup_insert_is_Some'. auto.
Qed.

Lemma run_covered skip l st :
  (∀ x, x ∈ l → storable (container_id x) (fields x) = true →
        is_Some (containers (db st) !! (host, container_id x))) →
  created_count (out (run skip l st)) = created_count (out st) ∧
  next_id (db (run skip l st)) = next_id (db st).
Proof.
  revert st. induction l as [|x l IH]; intros st Hcov; [done|]. cbn.
  destruct (IH (command_step skip st x)) as [-> ->].
  { intros y Hy Hs. apply command_step_is_Some, Hcov; [|done].
    by apply list_elem_of_further. }
  rewrite command_step_created, command_step_next_id.
  destruct (storable (container_id x) (fields x)) eqn:Hs; [|split; lia].
  destruct (Hcov x) as [row ->]; [apply list_elem_of_here|done|].
  split; lia.
Qed.

(** The "created" and "updated" lines of a snapshot without repeated
    identifiers: one line per accepted descriptor, "created" when the host
    had no row for it. *)
Lemma run_counts skip l st T :
  NoDup (container_id <$> l) →
  (∀ y, y ∈ l →
        containers (db st) !! (host, container_id y) =
          T !! (host, container_id y)) →
  created_count (out (run skip l st)) =
    (created_count (out st) + length (List.filter (is_new T) l))%nat ∧
  updated_count (out (run skip l st)) =
    (updated_count (out st) + length (List.filter (is_known T) l))%nat ∧
  next_id (db (run skip l st)) =
    next_id (db st) + Z.of_nat (length (List.filter (is_new T) l)).
Proof.
  revert st. induction l as [|x l IH]; intros st Hnd HT; cbn.
  { repeat split; lia. }
  cbn in Hnd. apply NoDup_cons in Hnd as [Hx Hnd].
  destruct (IH (command_step skip st x) Hnd) as (-> & -> & ->).
  { intros y Hy. rewrite command_step_containers.
    rewrite <- HT by (by apply list_elem_of_further).
    destruct (storable (container_id x) (fields x)); [|done].
    rewrite lookup_insert_ne; [done|].
    intros [= Heq]. apply Hx. rewrite Heq.
    apply list_elem_of_fmap. eauto. }
  rewrite command_step_created, command_step_updated, command_step_next_id.
  unfold Sync.is_new, Sync.is_known.
  rewrite <- (HT x) by apply list_elem_of_here.
  destruct (storable (container_id x) (fields x)); cbn; [|repeat split; lia].
  destruct (containers (db st) !! (host, container_id x)) eqn:E; cbn;
    repeat split; lia.
Qed.

(** *** The prune step *)

Lemma lookup_keep (m : gmap (Z * string) DockerContainer) ids h cid :
  filter (fun kv => ¬ stale host ids kv) m !! (h, cid) =
    if decide (h = host ∧ cid ∉ ids) then None else m !! (h, cid).
Proof.
  rewrite map_lookup_filter. unfold stale. cbn.
  destruct (m !! (h, cid)) as [row|]; cbn; [|by destruct (decide _)].
  destruct (decide (h = host ∧ cid ∉ ids)).
  - by rewrite option_guard_False by auto.
  - by rewrite option_guard_True.
Qed.

Lemma keep_all (m : gmap (Z * string) DockerContainer) ids :
  size (filter (stale host ids) m) = 0%nat →
  filter (fun kv => ¬ stale host ids kv) m = m.
Proof.
  intros H. apply map_size_empty_iff in H.
  apply map_filter_id. intros k row Hk Hstale.
  by apply (map_filter_empty_not_lookup _ _ _ _ H Hstale).
Qed.

(** The rows the queryset [removed] selects after the loop are those it
    would select before it. *)
Lemma removed_rows_run skip l d :
  let st := run skip l (initial d) in
  removed_rows host (docker_container_ids st) (db st) =
    removed_rows host (snapshot_ids l) d.
Proof.
  cbv zeta. rewrite run_ids. cbn [initial docker_container_ids].
  rewrite (right_id_L ∅ (∪)). unfold removed_rows.
  apply map_eq. intros [h cid]. apply option_eq. intros row.
  rewrite !map_lookup_filter_Some. unfold stale. cbn.
  split; intros [Hrow [-> Hcid]]; (split; [|done]).
  - pose proof (run_key skip l (initial d) cid) as Hkey.
    rewrite (last_stored_None _ _ Hcid) in Hkey. cbn in Hkey.
    by rewrite <- Hkey.
  - pose proof (run_key skip l (initial d) cid) as Hkey.
    rewrite (last_stored_None _ _ Hcid) in Hkey. cbn in Hkey.
    by rewrite Hkey.
Qed.

(** The table after a pass of the command: the table after the loop,
    without the rows of the host whose identifier is not in the
    snapshot. *)
Lemma sync_host_containers skip l d :
  containers (sync_host skip l d).1.1 =
    filter (fun kv => ¬ stale host (snapshot_ids l) kv)
      (containers (db (run skip l (initial d)))).
Proof.
  unfold Sync.sync_host. cbv zeta. cbn [fst].
  assert (docker_container_ids (run skip l (initial d)) = snapshot_ids l)
    as Hids.
  { rewrite run_ids. cbn. by rewrite (right_id_L ∅ (∪)). }
  rewrite Hids.
  destruct (0 <? size _)%nat eqn:Hsize.
  - done.
  - apply Nat.ltb_ge in Hsize. symmetry. apply keep_all.
    unfold removed_rows in Hsize. lia.
Qed.

Lemma sync_host_report skip l d :
  (sync_host skip l d).1.2 =
    {| synced :=
         length (List.filter (fun x => storable (container_id x) (fields x)) l);
       removed := size (removed_rows host (snapshot_ids l) d);
       collected := metrics_count (run skip l (initial d)) |}.
Proof.
  unfold Sync.sync_host. cbv zeta. cbn [fst snd].
  pose proof (removed_rows_run skip l d) as Hrem. cbv zeta in Hrem.
  rewrite Hrem, run_synced. done.
Qed.

(** *** The loop of the view *)

(** A loop of the view that reaches its end wrote the rows the loop of the
    command writes, and every descriptor was accepted. *)
Lemma view_loop_run skip l st stc st' :
  containers (db st) = containers (db stc) →
  next_id (db st) = next_id (db stc) →
  docker_container_ids st = docker_container_ids stc →
  synced_count st = synced_count stc →
  iteration st = iteration stc →
  view_loop l st = (st', None) →
  containers (db st') = containers (db (run skip l stc)) ∧
  next_id (db st') = next_id (db (run skip l stc)) ∧
  docker_container_ids st' = docker_container_ids (run skip l stc) ∧
  synced_count st' = synced_count (run skip l stc) ∧
  Forall (fun x => storable (container_id x) (fields x) = true) l.
Proof.
  revert st stc. induction l as [|x l IH]; intros st stc Hc Hn Hi Hs Ht.
  - cbn. intros [= <-]. repeat split; done.
  - cbn [Sync.view_loop fold_left]. rewrite update_or_create_eq.
    destruct (storable (container_id x) (fields x)) eqn:Hx; [|done].
    cbv zeta. intros Hloop.
    apply (IH _ (command_step skip stc x)) in Hloop.
    + destruct Hloop as (? & ? & ? & ? & ?). repeat split; try done.
      by constructor.
    + rewrite command_step_containers, Hx, <- Hc, <- Hn, <- Ht. cbn.
      destruct (String.eqb _ _); [|done].
      by destruct (Stats.get_container_stats _ _) as [[?|]|?].
    + rewrite command_step_next_id, Hx, <- Hc, <- Hn. cbn.
      destruct (String.eqb _ _);
        [destruct (Stats.get_container_stats _ _) as [[?|]|?]|];
        by destruct (containers (db st) !! _).
    + rewrite command_step_ids, <- Hi. done.
    + rewrite command_step_synced, Hx, <- Hs. done.
    + rewrite command_step_iteration, <- Ht. done.
Qed.

(** A loop of the view, finished or not, removes no row. *)
Lemma view_loop_is_Some l st st' e k :
  view_loop l st = (st', e) →
  is_Some (containers (db st) !! k) → is_Some (containers (db st') !! k).
Proof.
  revert st. induction l as [|x l IH]; intros st.
  - cbn. by intros [= <- <-].
  - cbn [Sync.view_loop]. rewrite update_or_create_eq.
    destruct (storable (container_id x) (fields x)) eqn:Hx.
    + cbv zeta. intros Hloop Hk. apply IH in Hloop; [done|]. cbn.
      assert (is_Some
                (<[(host, container_id x) :=
                     upserted_row
                       (containers (db st) !! (host, container_id x))
                       (next_id (db st)) (fields x) (clock (iteration st))]>
                   (containers (db st)) !! k)) as Hins
        by (rewrite lookup_insert_is_Some'; auto).
      destruct (String.eqb _ _); [|done].
      by destruct (Stats.get_container_stats _ _) as [[?|]|?].
    + by intros [= <- <-].
Qed.

(** *** The claims about one pass *)

Lemma elem_of_persisted_ids d cid :
  cid ∈ persisted_ids host d ↔ is_Some (containers d !! (host, cid)).
Proof.
  unfold persisted_ids. rewrite elem_of_list_to_set, list_elem_of_fmap.
  split.
  - intros [[[h c] row] [-> Hin]]. apply elem_of_map_to_list in Hin.
    apply map_lookup_filter_Some in Hin as [Hrow Hh]. cbn in *. subst h.
    eauto.
  - intros [row Hrow]. exists (host, cid, row). split; [done|].
    apply elem_of_map_to_list, map_lookup_filter_Some. done.
Qed.

Lemma run_is_Some skip l st k :
  is_Some (containers (db st) !! k) →
  is_Some (containers (db (run skip l st)) !! k).
Proof.
  revert st. induction l as [|x l IH]; intros st H; [done|].
  cbn. by apply IH, command_step_is_Some.
Qed.

Lemma post_Success l d st :
  view_loop l (initial d) = (st, None) →
  (post l d).1 =
    (delete_removed host (docker_container_ids st) (db st)).1 ∧
  (post l d).2 =
    Success (synced_count st)
      (delete_removed host (docker_container_ids st) (db st)).2.
Proof.
  intros H. unfold Sync.post. rewrite H.
  by destruct (delete_removed _ _ _).
Qed.

Lemma post_finished_containers skip l d st :
  view_loop l (initial d) = (st, None) →
  containers (post l d).1 = containers (sync_host skip l d).1.1 ∧
  synced_count st = length l.
Proof.
  intros H. destruct (post_Success l d st H) as [-> _].
  apply (view_loop_run skip l (initial d) (initial d)) in H
    as (Hc & _ & Hi & Hs & Hall); try done.
  split.
  - rewrite sync_host_containers. cbn. rewrite Hc, Hi, run_ids. cbn.
    by rewrite (right_id_L ∅ (∪)).
  - rewrite Hs, run_synced. cbn. f_equal.
    clear -Hall. induction Hall as [|x l Hx _ IH]; [done|].
    cbn. by rewrite Hx, IH.
Qed.

(** C3.  The prune step of a pass deletes exactly the rows of the host whose
    identifier is not in the set S built from the snapshot of that pass: the
    table after the pass is the table after the upserts without those rows,
    a row that was persisted before the pass is gone afterwards if and only
    if it belongs to the host and its identifier is not in S, and so a unit
    of the live enumeration is never deleted, whether or not the database
    accepted its descriptor.  The view deletes the same rows when its loop
    finishes, and none when it does not. *)
Theorem prune_exact (skip : bool) (l : list container_data) (d : database) :
  let S := snapshot_ids l in
  let d' := (sync_host skip l d).1.1 in
  containers d' =
    filter (fun kv => ¬ stale host S kv)
      (containers (db (fold_left (command_step skip) l (initial d)))) ∧
  (∀ h cid,
     is_Some (containers d !! (h, cid)) →
     (containers d' !! (h, cid) = None ↔ h = host ∧ cid ∉ S)) ∧
  (sync_host skip l d).1.2.(removed) = size (removed_rows host S d) ∧
  (∀ cid,
     cid ∈ S → is_Some (containers d !! (host, cid)) →
     is_Some (containers d' !! (host, cid))) ∧
  (∀ st e,
     view_loop l (initial d) = (st, e) →
     match e with
     | None => containers (post l d).1 = containers d'
     | Some _ =>
         ∀ k, is_Some (containers d !! k) →
              is_Some (containers (post l d).1 !! k)
     end).
Proof.
  intros S d'.
  assert (∀ h cid,
            is_Some (containers d !! (h, cid)) →
            (containers d' !! (h, cid) = None ↔ h = host ∧ cid ∉ S))
    as Hexact.
  { intros h cid Hk. subst d'. rewrite sync_host_containers, lookup_keep.
    apply (run_is_Some skip l (initial d)) in Hk as [row Hrow].
    destruct (decide (h = host ∧ cid ∉ snapshot_ids l)); [done|].
    rewrite Hrow. split; [done|]. intros ?. by exfalso. }
  split; [apply sync_host_containers|]. split; [done|].
  split; [by rewrite sync_host_report|]. split.
  - intros cid Hcid Hk. apply not_eq_None_Some. rewrite (Hexact _ _ Hk).
    intros [_ ?]. done.
  - intros st [e|] Hloop.
    + intros k Hk. unfold Sync.post. rewrite Hloop. cbn.
      by apply (view_loop_is_Some _ _ _ _ _ Hloop).
    + by destruct (post_finished_containers skip l d st Hloop).
Qed.

Lemma Permutation_length_filter {A} (f : A → bool) (l l' : list A) :
  l ≡ₚ l' → length (List.filter f l) = length (List.filter f l').
Proof.
  induction 1 as [|x l l' _ IH|x y l|l l' l'' _ IH1 _ IH2]; cbn.
  - done.
  - destruct (f x); cbn; by rewrite IH.
  - by destruct (f x), (f y).
  - by rewrite IH1.
Qed.

Lemma NoDup_fmap_eq {A B} (f : A → B) (l : list A) x y :
  NoDup (f <$> l) → x ∈ l → y ∈ l → f x = f y → x = y.
Proof.
  induction l as [|z l IH]; cbn; [by intros _ ?%not_elem_of_nil|].
  intros [Hz Hnd]%NoDup_cons [->|Hx]%elem_of_cons
    [->|Hy]%elem_of_cons Hf; [done| | |by apply IH].
  - exfalso. apply Hz. rewrite Hf. by apply list_elem_of_fmap_2.
  - exfalso. apply Hz. rewrite <- Hf. by apply list_elem_of_fmap_2.
Qed.

Lemma last_stored_NoDup l x :
  NoDup (container_id <$> l) → x ∈ l →
  storable (container_id x) (fields x) = true →
  last_stored (container_id x) l = Some x.
Proof.
  intros Hnd Hx Hs.
  destruct (last_stored_is_Some (container_id x) l x Hx Hs eq_refl)
    as [y Hy].
  rewrite Hy. f_equal.
  apply last_stored_Some in Hy as (Hyl & _ & Hid).
  by apply (NoDup_fmap_eq container_id l).
Qed.

Lemma sync_host_lookup skip l d h cid :
  containers (sync_host skip l d).1.1 !! (h, cid) =
    if decide (h = host ∧ cid ∉ snapshot_ids l) then None
    else containers (db (run skip l (initial d))) !! (h, cid).
Proof. by rewrite sync_host_containers, lookup_keep. Qed.

Lemma sync_host_next_id skip l d :
  next_id (sync_host skip l d).1.1 = next_id (db (run skip l (initial d))).
Proof.
  unfold Sync.sync_host. cbv zeta. cbn [fst].
  by destruct (Nat.ltb _ _).
Qed.

Lemma sync_host_out skip l d :
  (sync_host skip l d).2 = out (run skip l (initial d)).
Proof. done. Qed.

(** A snapshot without repeated identifiers, all of whose descriptors the
    database accepts: the unit of a descriptor is created or overwritten. *)
Lemma sync_host_unit skip l d x :
  NoDup (container_id <$> l) → x ∈ l →
  storable (container_id x) (fields x) = true →
  ∃ row,
    containers (sync_host skip l d).1.1 !! (host, container_id x) = Some row ∧
    columns row = fields x ∧
    match containers d !! (host, container_id x) with
    | Some old => id row = id old ∧ command row = command old
    | None =>
        command row = None ∧
        next_id d ≤ id row < next_id (sync_host skip l d).1.1
    end.
Proof.
  intros Hnd Hx Hs. rewrite sync_host_lookup, sync_host_next_id.
  rewrite decide_False.
  2:{ intros [_ Hn]. apply Hn. unfold snapshot_ids.
      apply elem_of_list_to_set. by apply list_elem_of_fmap_2. }
  pose proof (run_key skip l (initial d) (container_id x)) as Hkey.
  by rewrite (last_stored_NoDup l x Hnd Hx Hs) in Hkey.
Qed.

Lemma view_loop_finishes l st :
  Forall (fun x => storable (container_id x) (fields x) = true) l →
  ∃ st', view_loop l st = (st', None).
Proof.
  intros Hall. revert st. induction Hall as [|x l Hx _ IH]; intros st.
  - by exists st.
  - cbn [Sync.view_loop]. rewrite update_or_create_eq, Hx. cbv zeta.
    apply IH.
Qed.

Lemma filter_storable_all l :
  Forall (fun x => storable (container_id x) (fields x) = true) l →
  List.filter (fun x => storable (container_id x) (fields x)) l = l.
Proof.
  induction 1 as [|x l Hx _ IH]; [done|]. cbn. by rewrite Hx, IH.
Qed.


Lemma run_lines skip l st :
  (created_count (out (run skip l st)) + updated_count (out (run skip l st)) +
   synced_count st =
   created_count (out st) + updated_count (out st) +
   synced_count (run skip l st))%nat.
Proof.
  revert st. induction l as [|x l IH]; intros st; cbn; [lia|].
  pose proof (IH (command_step skip st x)) as H.
  rewrite command_step_created, command_step_updated,
    command_step_synced in H.
  destruct (storable _ _); [|lia]. destruct (_ !! _); lia.
Qed.

End Pass.

(** *** Two passes in a row *)

Section Twice.

Variable storable : string → attrs → bool.
Variable host : Z.
Variables clock1 clock2 : nat → Z.
Variables stats_api1 stats_api2 : string → result Stats.stats_doc.
Variables skip1 skip2 : bool.

Local Abbreviation first_pass :=
  (sync_host storable clock1 stats_api1 host skip1).
Local Abbreviation second_pass :=
  (sync_host storable clock2 stats_api2 host skip2).

(** After a pass every accepted descriptor of its snapshot has a row. *)
Lemma first_pass_covers l d x :
  x ∈ l → storable (container_id x) (fields x) = true →
  is_Some (containers (first_pass l d).1.1 !! (host, container_id x)).
Proof.
  intros Hx Hs. rewrite sync_host_lookup.
  rewrite decide_False.
  2:{ intros [_ Hn]. apply Hn. unfold snapshot_ids.
      apply elem_of_list_to_set. by apply list_elem_of_fmap_2. }
  pose proof (run_key storable clock1 stats_api1 host skip1 l (initial d)
                (container_id x)) as Hkey.
  destruct (last_stored_is_Some storable (container_id x) l x Hx Hs eq_refl)
    as [y Hy].
  rewrite Hy in Hkey. destruct Hkey as (row & -> & _). eauto.
Qed.

(** C2, amended.  A second pass over the same snapshot, at another time and
    whatever the statistics, leaves every row as the first pass left it
    except for its [updated_at]; it creates no row (no "created" line, the
    same next primary key, one "updated" line per accepted descriptor) and
    deletes none. *)
Theorem second_pass_same (l : list container_data) (d : database) :
  let d1 := (first_pass l d).1.1 in
  let second := second_pass l d1 in
  let d2 := second.1.1 in
  forget_updated_at <$> containers d2 = forget_updated_at <$> containers d1 ∧
  (∀ k, is_Some (containers d2 !! k) ↔ is_Some (containers d1 !! k)) ∧
  next_id d2 = next_id d1 ∧
  created_count second.2 = 0%nat ∧
  updated_count second.2 = synced second.1.2 ∧
  removed second.1.2 = 0%nat.
Proof.
  intros d1 second d2.
  assert (forget_updated_at <$> containers d2 =
          forget_updated_at <$> containers d1) as Hsame.
  { apply map_eq. intros [h cid]. rewrite !lookup_fmap.
    subst d2 second. rewrite sync_host_lookup.
    destruct (decide (h = host ∧ cid ∉ snapshot_ids l)) as [Hstale|Hkeep].
    - subst d1. rewrite sync_host_lookup. by rewrite decide_True.
    - destruct (decide (h = host)) as [->|Hh];
        [|by rewrite run_other_host].
      pose proof (run_key storable clock2 stats_api2 host skip2 l
                    (initial d1) cid) as Hkey2.
      destruct (last_stored storable cid l) as [cd|] eqn:Hlast;
        [|by rewrite Hkey2].
      destruct Hkey2 as (row2 & -> & Hcols2 & Hold).
      cbn [initial db] in Hold.
      assert (∃ row1, containers d1 !! (host, cid) = Some row1 ∧
                      columns row1 = fields cd) as (row1 & Hrow1 & Hcols1).
      { subst d1. rewrite sync_host_lookup, decide_False by done.
        pose proof (run_key storable clock1 stats_api1 host skip1 l
                      (initial d) cid) as Hkey1.
        rewrite Hlast in Hkey1. destruct Hkey1 as (row1 & ? & ? & _).
        eauto. }
      rewrite Hrow1 in Hold |- *. destruct Hold as [Hid Hcmd]. cbn.
      unfold forget_updated_at. by rewrite Hid, Hcmd, Hcols1, Hcols2. }
  destruct (run_covered storable clock2 stats_api2 host skip2 l (initial d1))
    as [Hcreated Hnext].
  { intros x Hx Hs. by apply first_pass_covers. }
  split; [done|]. split; [|split; [|split; [|split]]].
  - intros k. rewrite <- (fmap_is_Some forget_updated_at (containers d2 !! k)).
    rewrite <- (fmap_is_Some forget_updated_at (containers d1 !! k)).
    by rewrite <- !lookup_fmap, Hsame.
  - subst d2 second. by rewrite sync_host_next_id, Hnext.
  - subst second. by rewrite sync_host_out, Hcreated.
  - subst second. rewrite sync_host_out, sync_host_report. cbn.
    pose proof (run_lines storable clock2 stats_api2 host skip2 l
                  (initial d1)) as Hlines.
    rewrite Hcreated, run_synced in Hlines. cbn in Hlines. lia.
  - subst second. rewrite sync_host_report. cbn [removed].
    apply map_size_empty_iff, map_empty_filter_2.
    intros [h cid] row Hrow [Hh Hcid]. cbn in Hh, Hcid. subst h d1.
    rewrite sync_host_lookup in Hrow. by rewrite decide_True in Hrow.
Qed.

End Twice.



Lemma prune_exact_witness :
  let d' := (sync_host always_storable (fun n => Z.of_nat n) no_stats 1
               false bcd_snapshot abc_database).1.1 in
  containers d' !! (1, "a"%string) = None ∧
  is_Some (containers d' !! (1, "b"%string)) ∧
  is_Some (containers d' !! (2, "a"%string)).
Proof.
  pose proof (prune_exact always_storable (fun n => Z.of_nat n) no_stats 1
                false bcd_snapshot abc_database) as H.
  cbv zeta in H. destruct H as (_ & Hexact & _ & Hkept & _). cbv zeta.
  split; [|split].
  - apply Hexact; [by eexists|]. split; [done|]. by vm_compute.
  - apply Hkept; [by vm_compute|by eexists].
  - apply not_eq_None_Some. rewrite Hexact by (by eexists).
    intros [? _]. done.
Defined.

(** C2, as the spec states it, fails: with the first pass at time 100 and
    the second at time 200, the row of b is not the same after the second
    pass as after the first. *)
Lemma second_pass_not_same :
  let d1 := (sync_host always_storable (fun _ => 100) no_stats 1 true
               bcd_snapshot abc_database).1.1 in
  let d2 := (sync_host always_storable (fun _ => 200) no_stats 1 true
               bcd_snapshot d1).1.1 in
  updated_at <$> containers d1 !! (1, "b"%string) = Some 100 ∧
  updated_at <$> containers d2 !! (1, "b"%string) = Some 200 ∧
  containers d2 ≠ containers d1.
Proof.
  cbv zeta. split; [by vm_compute|]. split; [by vm_compute|].
  intros H. apply (f_equal (fun m => updated_at <$> m !! (1, "b"%string))) in H.
  vm_compute in H. discriminate.
Qed.

Lemma second_pass_same_witness :
  let d1 := (sync_host always_storable (fun _ => 100) no_stats 1 true
               bcd_snapshot abc_database).1.1 in
  let second := sync_host always_storable (fun _ => 200) no_stats 1 true
                  bcd_snapshot d1 in
  forget_updated_at <$> containers second.1.1 =
    forget_updated_at <$> containers d1 ∧
  created_count second.2 = 0%nat ∧ removed second.1.2 = 0%nat.
Proof.
  pose proof (second_pass_same always_storable 1 (fun _ => 100)
                (fun _ => 200) no_stats no_stats true true bcd_snapshot
                abc_database) as H.
  cbv zeta in H. cbv zeta. tauto.
Defined.

(** The number the view returns as [removed] is the first component of
    [delete()], which counts the metric rows deleted along with the units:
    with two metric rows of a, the view returns 3 where the command
    reports 1. *)
Lemma view_removed_counts_cascade :
  let pass := sync_host always_storable (fun n => Z.of_nat n) no_stats 1
                false bcd_snapshot abc_with_metrics in
  let view := post always_storable (fun n => Z.of_nat n) no_stats 1
                bcd_snapshot abc_with_metrics in
  reported pass.1.2 = [3%nat; 1%nat; 0%nat] ∧
  returned view.2 = [3%nat; 3%nat] ∧
  metrics view.1 = [sample_metric 2] ∧
  containers view.1 = containers pass.1.1.
Proof. cbv zeta. repeat split; by vm_compute. Qed.

End SyncFacts.

(** ** More on [parse_logs_and_save_errors]: what is saved *)

Module ErrorParserShape.
Import Str ErrorParser ErrorParserFacts.

Local Open Scope string_scope.

Lemma records_of_app clock a1 a2 a3 a4 a5 n (b1 b2 : list (list string)) :
  records_of clock a1 a2 a3 a4 a5 n (b1 ++ b2)%list =
    (records_of clock a1 a2 a3 a4 a5 n b1 ++
     records_of clock a1 a2 a3 a4 a5 (n + length b1) b2)%list.
Proof.
  unfold records_of. rewrite imap_app. f_equal.
  apply imap_ext. intros i b _. cbn. f_equal. lia.
Qed.

Lemma length_records_of clock a1 a2 a3 a4 a5 n blocks :
  length (records_of clock a1 a2 a3 a4 a5 n blocks) = length blocks.
Proof. unfold records_of. apply length_imap. Qed.

(** One line: the blocks it makes the scanner save, and the buffer and flag
    afterwards, depend on the line, the buffer and the flag only. *)
Lemma step_shape (line : string) (b : list string) (c : bool) :
  scanner_ok b c →
  ∃ (blocks : list (list string)) (b' : list string) (c' : bool),
    scanner_ok b' c' ∧ Forall is_block blocks ∧
    (length blocks + Nat.b2n c' = Nat.b2n c + Nat.b2n (has_kw line))%nat ∧
    (∀ P : string → Prop,
       P line → Forall P b → Forall (Forall P) blocks ∧ Forall P b') ∧
    ∀ clock a1 a2 a3 a4 a5 e t,
      step clock a1 a2 a3 a4 a5
        {| errors_found := e; buf := b; capturing := c; table := t |} line =
      {| errors_found := e + length blocks; buf := b'; capturing := c';
         table := (t ++ records_of clock a1 a2 a3 a4 a5 e blocks)%list |}.
Proof.
  intros [Hidle Hopen]. destruct (has_kw line) eqn:Hkw.
  - (* a keyword line closes the block, if any, and opens one *)
    destruct c.
    + destruct (Hopen eq_refl) as (kw & tail & -> & Hk & Ht).
      exists [kw :: tail], [line], true.
      split; [|split; [|split; [|split]]].
      * split; [done|]. intros _. exists line, []. by repeat split.
      * repeat constructor. exists kw, tail. by repeat split.
      * done.
      * intros P Hl Hb. split; by apply Forall_singleton.
      * intros. unfold step. rewrite Hkw. cbn.
        by rewrite Nat.add_0_r, Nat.add_1_r.
    + rewrite (Hidle eq_refl).
      exists [], [line], true.
      split; [|split; [|split; [|split]]].
      * split; [done|]. intros _. exists line, []. by repeat split.
      * constructor.
      * done.
      * intros P Hl Hb. split; [constructor|by apply Forall_singleton].
      * intros. unfold step. rewrite Hkw. cbn.
        by rewrite Nat.add_0_r, app_nil_r.
  - destruct c.
    + destruct (Hopen eq_refl) as (kw & tail & -> & Hk & Ht).
      destruct (is_blank line) eqn:Hb.
      * (* a blank line closes the block *)
        exists [kw :: tail], [], false.
        split; [|split; [|split; [|split]]].
        -- split; [done|]. intros [=].
        -- repeat constructor. exists kw, tail. by repeat split.
        -- done.
        -- intros P Hl HP. split; [by apply Forall_singleton|constructor].
        -- intros. unfold step. rewrite Hkw, Hb. cbn.
           by rewrite Nat.add_0_r, Nat.add_1_r.
      * (* any other line joins the block *)
        exists [], (kw :: tail ++ [line])%list, true.
        split; [|split; [|split; [|split]]].
        -- split; [done|]. intros _.
           exists kw, (tail ++ [line])%list. repeat split; try done.
           apply Forall_app. split; [done|]. by repeat constructor.
        -- constructor.
        -- done.
        -- intros P Hl HP. split; [constructor|].
           change (kw :: tail ++ [line])%list
             with ((kw :: tail) ++ [line])%list.
           apply Forall_app. split; [done|]. by repeat constructor.
        -- intros. unfold step. rewrite Hkw, Hb. cbn.
           by rewrite Nat.add_0_r, app_nil_r.
    + (* outside a block a line without keyword is skipped *)
      exists [], b, false.
      split; [|split; [|split; [|split]]].
      * split; [done|]. intros [=].
      * constructor.
      * done.
      * intros P Hl HP. split; [constructor|done].
      * intros. unfold step. rewrite Hkw. cbn.
        by rewrite Nat.add_0_r, app_nil_r.
Qed.

Lemma count_kw_cons line lines :
  count_kw (line :: lines) = (Nat.b2n (has_kw line) + count_kw lines)%nat.
Proof.
  unfold count_kw. cbn [List.filter]. by destruct (has_kw line).
Qed.

Lemma scan_shape (lines : list string) (b : list string) (c : bool) :
  scanner_ok b c →
  ∃ (blocks : list (list string)) (b' : list string) (c' : bool),
    scanner_ok b' c' ∧ Forall is_block blocks ∧
    (length blocks + Nat.b2n c' = Nat.b2n c + count_kw lines)%nat ∧
    (∀ P : string → Prop,
       Forall P lines → Forall P b → Forall (Forall P) blocks ∧ Forall P b') ∧
    ∀ clock a1 a2 a3 a4 a5 e t,
      scan clock a1 a2 a3 a4 a5 lines
        {| errors_found := e; buf := b; capturing := c; table := t |} =
      {| errors_found := e + length blocks; buf := b'; capturing := c';
         table := (t ++ records_of clock a1 a2 a3 a4 a5 e blocks)%list |}.
Proof.
  revert b c. induction lines as [|line lines IH]; intros b c Hok.
  - exists [], b, c. split; [done|]. split; [constructor|].
    split; [unfold count_kw; cbn; lia|]. split.
    + intros P _ Hb. split; [constructor|done].
    + intros. cbn. by rewrite Nat.add_0_r, app_nil_r.
  - destruct (step_shape line b c Hok)
      as (blocks1 & b1 & c1 & Hok1 & Hb1 & Hn1 & HP1 & Hstep).
    destruct (IH b1 c1 Hok1)
      as (blocks2 & b2 & c2 & Hok2 & Hb2 & Hn2 & HP2 & Hscan).
    exists (blocks1 ++ blocks2)%list, b2, c2.
    split; [done|]. split; [by apply Forall_app|]. split; [|split].
    + rewrite length_app, count_kw_cons. lia.
    + intros P Hlines Hb. apply Forall_cons in Hlines as [Hl Hlines].
      destruct (HP1 P Hl Hb) as [Hbl1 Hbuf1].
      destruct (HP2 P Hlines Hbuf1) as [Hbl2 Hbuf2].
      split; [by apply Forall_app|done].
    + intros.
      change (scan clock a1 a2 a3 a4 a5 (line :: lines)
                {| errors_found := e; buf := b; capturing := c; table := t |})
        with (scan clock a1 a2 a3 a4 a5 lines
                (step clock a1 a2 a3 a4 a5
                   {| errors_found := e; buf := b; capturing := c;
                      table := t |} line)).
      rewrite Hstep, Hscan, records_of_app, length_app.
      by rewrite Nat.add_assoc, <- app_assoc.
Qed.

(** The scan of some lines from an idle scanner, closed by the final
    [flush]: the blocks saved depend on the lines only, are made of these
    lines, and there is one per keyword line. *)
Lemma closed_scan_shape (lines : list string) :
  ∃ blocks : list (list string),
    Forall is_block blocks ∧ length blocks = count_kw lines ∧
    (∀ P : string → Prop, Forall P lines → Forall (Forall P) blocks) ∧
    ∀ clock a1 a2 a3 a4 a5 e (db : list ContainerError),
      (let st := scan clock a1 a2 a3 a4 a5 lines
                   {| errors_found := e; buf := []; capturing := false;
                      table := db |} in
       let st := if capturing st then flush clock a1 a2 a3 a4 a5 st
                 else st in
       (errors_found st, table st)) =
      ((e + length blocks)%nat,
       (db ++ records_of clock a1 a2 a3 a4 a5 e blocks)%list).
Proof.
  destruct (scan_shape lines [] false)
    as (blocks & b & c & [Hidle Hopen] & Hblocks & Hn & HP & Hscan).
  { split; [done|]. intros [=]. }
  destruct c.
  - destruct (Hopen eq_refl) as (kw & tail & -> & Hk & Ht).
    exists (blocks ++ [kw :: tail])%list. split; [|split; [|split]].
    + apply Forall_app. split; [done|]. repeat constructor.
      exists kw, tail. by repeat split.
    + rewrite length_app. cbn in *. lia.
    + intros P Hlines. destruct (HP P Hlines) as [H1 H2]; [constructor|].
      apply Forall_app. split; [done|]. by apply Forall_singleton.
    + intros. cbv zeta. rewrite Hscan. cbn.
      rewrite records_of_app, length_app. cbn.
      by rewrite Nat.add_0_r, Nat.add_assoc, Nat.add_1_r, <- app_assoc.
  - exists blocks. split; [done|]. split; [cbn in *; lia|]. split.
    + intros P Hlines. by destruct (HP P Hlines) as [H1 H2]; [constructor|].
    + intros. cbv zeta. by rewrite Hscan.
Qed.

Lemma parse_lines_shape (lines : list string) :
  ∃ blocks : list (list string),
    Forall is_block blocks ∧ length blocks = count_kw lines ∧
    (∀ P : string → Prop, Forall P lines → Forall (Forall P) blocks) ∧
    ∀ clock a1 a2 a3 a4 a5 (db : list ContainerError),
      parse_lines clock a1 a2 a3 a4 a5 lines db =
        (length blocks,
         (db ++ records_of clock a1 a2 a3 a4 a5 0 blocks)%list).
Proof.
  destruct (closed_scan_shape lines) as (blocks & H1 & H2 & H3 & H4).
  exists blocks. repeat split; try done.
  intros. unfold parse_lines. apply (H4 clock a1 a2 a3 a4 a5 0%nat db).
Qed.

(** The same for the whole function. *)
Lemma parse_logs_shape (logs : string) :
  ∃ blocks : list (list string),
    Forall is_block blocks ∧ length blocks = count_kw (splitlines logs) ∧
    Forall (Forall no_linebreak) blocks ∧
    ∀ clock a1 a2 a3 a4 a5 (db : list ContainerError),
      parse_logs_and_save_errors clock a1 a2 a3 a4 a5 logs db =
        (length blocks,
         (db ++ records_of clock a1 a2 a3 a4 a5 0 blocks)%list).
Proof.
  destruct (parse_lines_shape (splitlines logs))
    as (blocks & H1 & H2 & H3 & H4).
  exists blocks. split; [done|]. split; [done|]. split.
  - apply H3, splitlines_from_no_linebreak.
  - intros. unfold parse_logs_and_save_errors.
    destruct logs as [|c logs]; [|apply H4].
    destruct blocks; [|done]. cbn. by rewrite app_nil_r.
Qed.

Lemma Forall_records_of (Q : ContainerError → Prop) clock a1 a2 a3 a4 a5 n
    (blocks : list (list string)) :
  Forall (fun b => ∀ i, Q (record_of clock a1 a2 a3 a4 a5 i b)) blocks →
  Forall Q (records_of clock a1 a2 a3 a4 a5 n blocks).
Proof.
  intros H. revert n. induction H as [|b blocks Hb _ IH]; intros n.
  - constructor.
  - change (b :: blocks) with ([b] ++ blocks)%list.
    rewrite records_of_app. apply Forall_app. split; [|apply IH].
    cbn. repeat constructor. apply Hb.
Qed.

Lemma timestamps_records_of clock a1 a2 a3 a4 a5 n
    (blocks : list (list string)) :
  timestamp <$> records_of clock a1 a2 a3 a4 a5 n blocks =
    clock <$> seq n (length blocks).
Proof.
  revert n. induction blocks as [|b blocks IH]; intros n; [done|].
  change (b :: blocks) with ([b] ++ blocks)%list.
  rewrite records_of_app, fmap_app, IH. cbn.
  by rewrite Nat.add_0_r, Nat.add_1_r.
Qed.

Lemma forget_records_of clock clock' a1 a2 a3 a4 a5 n n'
    (blocks : list (list string)) :
  forget_timestamp <$> records_of clock a1 a2 a3 a4 a5 n blocks =
    forget_timestamp <$> records_of clock' a1 a2 a3 a4 a5 n' blocks.
Proof.
  unfold records_of. rewrite !fmap_imap. by apply imap_ext.
Qed.

Lemma length_take n s : (String.length (take n s) ≤ n)%nat.
Proof.
  unfold take. revert s. induction n as [|n IH]; intros s; [by destruct s|].
  destruct s as [|c s]; cbn; [lia|]. specialize (IH s). lia.
Qed.

(** X1.  The number returned is the number of lines that hold a keyword, and it
    is the number of rows appended to the table, whose earlier rows stay;
    the rows carry the successive readings of the clock. *)
Theorem returned_count_is_keyword_lines clock a1 a2 a3 a4 a5
    (logs : string) (db : list ContainerError) :
  let r := parse_logs_and_save_errors clock a1 a2 a3 a4 a5 logs db in
  r.1 = count_kw (splitlines logs) ∧
  ∃ recs, r.2 = (db ++ recs)%list ∧ length recs = r.1 ∧
          timestamp <$> recs = clock <$> seq 0 r.1.
Proof.
  destruct (parse_logs_shape logs) as (blocks & _ & Hn & _ & Hparse).
  cbv zeta. rewrite Hparse. cbn. split; [done|].
  eexists. split; [done|]. split; [apply length_records_of|].
  apply timestamps_records_of.
Qed.

(** X2.  Every row the call appends is one block: its full text is a keyword
    line followed by lines that neither hold a keyword nor are blank, joined
    by newlines; its summary is the first 1024 characters of the keyword
    line; the other columns are the arguments of the call. *)
Theorem saved_rows_are_blocks clock a1 a2 a3 a4 a5
    (logs : string) (db : list ContainerError) :
  ∃ recs,
    (parse_logs_and_save_errors clock a1 a2 a3 a4 a5 logs db).2 =
      (db ++ recs)%list ∧
    Forall
      (fun r =>
         (∃ kw tail,
            has_kw kw = true ∧
            Forall (fun line => has_kw line = false ∧ is_blank line = false)
              tail ∧
            error_message r = join LF (kw :: tail) ∧
            short_message r = take 1024 kw) ∧
         (String.length (short_message r) ≤ 1024)%nat ∧
         source_type r = a1 ∧ container_id r = a2 ∧ container_name r = a3 ∧
         level r = a5 ∧ service_name r = default "" a4)
      recs.
Proof.
  destruct (parse_logs_shape logs) as (blocks & Hblocks & _ & Hnl & Hparse).
  rewrite Hparse. cbn. eexists. split; [done|].
  apply Forall_records_of.
  assert (Forall (fun b => is_block b ∧ Forall no_linebreak b) blocks) as H
    by (by apply Forall_and).
  eapply Forall_impl; [exact H|]. cbv beta.
  intros b [(kw & tail & -> & Hkw & Htail) Hb] i.
  apply Forall_cons in Hb as [Hkwnl _].
  assert (short_message (record_of clock a1 a2 a3 a4 a5 i (kw :: tail)) =
          take 1024 kw) as Hshort.
  { cbn [short_message record_of]. by rewrite before_first_join. }
  split; [|split].
  - exists kw, tail. by repeat split.
  - rewrite Hshort. apply length_take.
  - cbn. repeat split.
Qed.

(** X3.  Parsing composes at a keyword line: the lines before it are parsed as
    if they were the whole log, and the lines from it on as a log of their
    own, numbered after the first part. *)
Theorem parse_lines_compose clock a1 a2 a3 a4 a5
    (l1 : list string) (kw : string) (l2 : list string)
    (db : list ContainerError) :
  has_kw kw = true →
  let r1 := parse_lines clock a1 a2 a3 a4 a5 l1 db in
  let r2 := parse_lines (fun k => clock (r1.1 + k)%nat) a1 a2 a3 a4 a5
              (kw :: l2) r1.2 in
  parse_lines clock a1 a2 a3 a4 a5 (l1 ++ kw :: l2)%list db =
    ((r1.1 + r2.1)%nat, r2.2).
Proof.
  intros Hkw r1 r2.
  destruct (scan_shape l1 [] false)
    as (blocks1 & b1 & c1 & [Hidle Hopen] & _ & _ & _ & Hscan1).
  { split; [done|]. intros [=]. }
  destruct (closed_scan_shape (kw :: l2)) as (blocks2 & _ & _ & _ & Hscan2).
  set (st0 := {| errors_found := 0; buf := []; capturing := false;
                 table := db |}).
  (* the first part, closed *)
  assert (∃ e1 t1,
            r1 = (e1, t1) ∧
            step clock a1 a2 a3 a4 a5 (scan clock a1 a2 a3 a4 a5 l1 st0) kw =
            step clock a1 a2 a3 a4 a5
              {| errors_found := e1; buf := []; capturing := false;
                 table := t1 |} kw) as (e1 & t1 & Hr1 & Hstep).
  { subst r1. unfold parse_lines. fold st0. subst st0. rewrite Hscan1.
    destruct c1.
    - destruct (Hopen eq_refl) as (kw' & tail' & -> & _ & _).
      eexists _, _. split; [reflexivity|].
      unfold step. rewrite Hkw. reflexivity.
    - rewrite (Hidle eq_refl). eexists _, _. split; [reflexivity|].
      unfold step. rewrite Hkw. reflexivity. }
  assert (r2 = (length blocks2,
                (t1 ++ records_of clock a1 a2 a3 a4 a5 e1 blocks2)%list))
    as Hr2.
  { subst r2. rewrite Hr1. cbn [fst snd]. unfold parse_lines.
    etrans;
      [apply (Hscan2 (fun k => clock (e1 + k)%nat) a1 a2 a3 a4 a5 0%nat t1)|].
    assert (records_of (fun k => clock (e1 + k)%nat) a1 a2 a3 a4 a5 0 blocks2
            = records_of clock a1 a2 a3 a4 a5 e1 blocks2) as ->
      by (unfold records_of; by apply imap_ext).
    done. }
  rewrite Hr1, Hr2. cbn [fst snd].
  unfold parse_lines. fold st0.
  unfold scan. rewrite fold_left_app. cbn [fold_left].
  fold (scan clock a1 a2 a3 a4 a5 l1 st0). rewrite Hstep.
  exact (Hscan2 clock a1 a2 a3 a4 a5 e1 t1).
Qed.

Lemma parse_lines_compose_witness :
  parse_lines (fun n => Z.of_nat n) "docker" "c1" "web" None "Error"
    (["ERROR a"; "x"] ++ "Traceback:" :: ["  at f"])%list [] =
  (2%nat,
   snd (parse_lines (fun k => Z.of_nat (1 + k)) "docker" "c1" "web" None
          "Error" ("Traceback:" :: ["  at f"])
          (snd (parse_lines (fun n => Z.of_nat n) "docker" "c1" "web" None
                  "Error" ["ERROR a"; "x"] [])))).
Proof.
  exact (parse_lines_compose (fun n => Z.of_nat n) "docker" "c1" "web" None
           "Error" ["ERROR a"; "x"] "Traceback:" ["  at f"] [] eq_refl).
Defined.

(** X4.  The parser keeps no trace of what it saved: a second call on the same
    log appends the same rows again, with new timestamps, and returns the
    same number. *)
Theorem parse_twice_saves_twice clock1 clock2 a1 a2 a3 a4 a5
    (logs : string) (db : list ContainerError) :
  let r1 := parse_logs_and_save_errors clock1 a1 a2 a3 a4 a5 logs db in
  let r2 := parse_logs_and_save_errors clock2 a1 a2 a3 a4 a5 logs r1.2 in
  r2.1 = r1.1 ∧
  ∃ recs1 recs2,
    r1.2 = (db ++ recs1)%list ∧ r2.2 = (db ++ recs1 ++ recs2)%list ∧
    length recs1 = r1.1 ∧ length recs2 = r1.1 ∧
    forget_timestamp <$> recs2 = forget_timestamp <$> recs1.
Proof.
  destruct (parse_logs_shape logs) as (blocks & _ & _ & _ & Hparse).
  cbv zeta. rewrite !Hparse. cbn [fst snd]. split; [done|].
  eexists _, _. split; [done|]. split; [by rewrite app_assoc|].
  split; [apply length_records_of|]. split; [apply length_records_of|].
  apply forget_records_of.
Qed.

End ErrorParserShape.

(** ** More on [get_container_stats]: totals and outcomes *)

Module StatsMore.
Import Stats PyFacts StatsFacts.

#[local] Set Warnings "-clear-no-such-hyp".

Local Open Scope string_scope.

(** The network and block I/O fields of a returned record. *)
Lemma stats_of_doc_io now stats r :
  stats_of_doc now stats = Return r →
  network_totals (get (networks stats) []) =
    (network_rx_bytes r, network_tx_bytes r, network_rx_packets r,
     network_tx_packets r) ∧
  block_totals
    (get (io_service_bytes_recursive
            (get (blkio_stats stats) {| io_service_bytes_recursive := None |}))
       []) 0 0 = Return (block_read_bytes r, block_write_bytes r).
Proof.
  unfold stats_of_doc.
  destruct (cpu_stats stats) as [cpu|]; [|done].
  destruct (precpu_stats stats) as [precpu|]; [|done].
  destruct (memory_stats stats) as [mem|]; [|done]. cbn.
  destruct (cpu_usage cpu) as [cu|]; [|done]. cbn.
  destruct (total_usage cu) as [total|]; [|done]. cbn.
  destruct (cpu_usage precpu) as [pcu|]; [|done]. cbn.
  destruct (total_usage pcu) as [ptotal|]; [|done]. cbn.
  destruct (system_cpu_usage cpu) as [system|]; [|done]. cbn.
  destruct (system_cpu_usage precpu) as [psystem|]; [|done]. cbn.
  destruct (cpu_percent _ _ cpu) as [pct|]; [|done]. cbn.
  pose proof (memory_part_total mem) as Hmem. cbv zeta in Hmem.
  rewrite Hmem. cbn.
  destruct (network_totals _) as [[[rxb txb] rxp] txp].
  destruct (block_totals _ 0 0) as [[rd wr]|]; [|done]. cbn.
  by intros [= <-].
Qed.

Lemma network_totals_from (nets : list (string * network_doc)) a b c d :
  fold_left
    (fun '(rxb, txb, rxp, txp) '(_, nd) =>
       (rxb + get (rx_bytes nd) 0, txb + get (tx_bytes nd) 0,
        rxp + get (rx_packets nd) 0, txp + get (tx_packets nd) 0))
    nets (a, b, c, d) =
  (a + Zsum ((fun kv => get (rx_bytes kv.2) 0) <$> nets),
   b + Zsum ((fun kv => get (tx_bytes kv.2) 0) <$> nets),
   c + Zsum ((fun kv => get (rx_packets kv.2) 0) <$> nets),
   d + Zsum ((fun kv => get (tx_packets kv.2) 0) <$> nets)).
Proof.
  revert a b c d. induction nets as [|[k nd] nets IH]; intros a b c d; cbn.
  - by rewrite !Z.add_0_r.
  - rewrite IH. unfold Zsum. cbn. f_equal; [f_equal; [f_equal|]|]; lia.
Qed.

Lemma Zsum_Permutation (l l' : list Z) : l ≡ₚ l' → Zsum l = Zsum l'.
Proof.
  unfold Zsum.
  induction 1 as [|x l l' _ IH|x y l|l l' l'' _ IH1 _ IH2]; cbn; lia.
Qed.



Lemma op_values_cons o io ios :
  op_values o (io :: ios) =
  match (if decide (op io = Some o) then value io else None) with
  | Some v => v :: op_values o ios
  | None => op_values o ios
  end.
Proof. reflexivity. Qed.

Lemma block_totals_sums ios rd wr p :
  block_totals ios rd wr = Return p →
  p = (rd + Zsum (op_values "Read" ios), wr + Zsum (op_values "Write" ios)) ∧
  forallb io_complete ios = true.
Proof.
  revert rd wr. induction ios as [|io ios IH]; intros rd wr.
  - cbn. intros [= <-]. by rewrite !Z.add_0_r.
  - cbn [block_totals forallb]. rewrite !op_values_cons.
    unfold io_complete at 1.
    destruct (op io) as [o|] eqn:Hop; [|done].
    cbn [getitem mbind result_bind].
    destruct (decide (o = "Read")) as [->|Hr].
    + rewrite !decide_True by auto.
      rewrite decide_False by done.
      destruct (value io) as [v|] eqn:Hv; [|done].
      intros H. apply IH in H as [-> ->].
      split; [|done]. unfold Zsum. cbn. f_equal; lia.
    + rewrite (decide_False (P := Some o = Some "Read")) by congruence.
      destruct (decide (o = "Write")) as [->|Hw].
      * rewrite !decide_True by auto.
        destruct (value io) as [v|] eqn:Hv; [|done].
        intros H. apply IH in H as [-> ->].
        split; [|done]. unfold Zsum. cbn. f_equal; lia.
      * rewrite (decide_False (P := o = "Read" ∨ o = "Write")) by tauto.
        rewrite (decide_False (P := Some o = Some "Write")) by congruence.
        intros H. by apply IH in H as [-> ->].
Qed.



Lemma block_totals_Raise ios rd wr e :
  block_totals ios rd wr = Raise e → e = KeyError "op" ∨ e = KeyError "value".
Proof.
  revert rd wr. induction ios as [|io ios IH]; intros rd wr; [done|].
  cbn [block_totals].
  destruct (op io) as [o|]; [|intros [= <-]; by left].
  cbn [getitem mbind result_bind].
  destruct (decide (o = "Read")).
  - destruct (value io); [apply IH|intros [= <-]; by right].
  - destruct (decide (o = "Write")); [|apply IH].
    destruct (value io); [apply IH|intros [= <-]; by right].
Qed.

Lemma cpu_percent_returns cd sd cpu cu :
  cpu_usage cpu = Some cu → ∃ q, cpu_percent cd sd cpu = Return q.
Proof.
  intros Hcu. destruct (decide (sd > 0 ∧ cd > 0)) as [Hg|Hg].
  - rewrite (cpu_percent_guard_true _ _ _ _ Hcu Hg). eauto.
  - rewrite (cpu_percent_guard_false _ _ _ Hg). eauto.
Qed.

Lemma stats_of_doc_Raise now stats e :
  stats_of_doc now stats = Raise e → ∃ k, e = KeyError k ∧ k ∈ required_keys.
Proof.
  assert (∀ k, k ∈ required_keys → ∃ k', KeyError k = KeyError k' ∧
                                          k' ∈ required_keys) as Hk by eauto.
  unfold stats_of_doc.
  destruct (cpu_stats stats) as [cpu|];
    [|intros [= <-]; apply Hk; set_solver].
  destruct (precpu_stats stats) as [precpu|];
    [|intros [= <-]; apply Hk; set_solver].
  destruct (memory_stats stats) as [mem|];
    [|intros [= <-]; apply Hk; set_solver].
  cbn.
  destruct (cpu_usage cpu) as [cu|] eqn:Hcu;
    [|intros [= <-]; apply Hk; set_solver]. cbn.
  destruct (total_usage cu) as [total|];
    [|intros [= <-]; apply Hk; set_solver]. cbn.
  destruct (cpu_usage precpu) as [pcu|];
    [|intros [= <-]; apply Hk; set_solver]. cbn.
  destruct (total_usage pcu) as [ptotal|];
    [|intros [= <-]; apply Hk; set_solver]. cbn.
  destruct (system_cpu_usage cpu) as [system|];
    [|intros [= <-]; apply Hk; set_solver]. cbn.
  destruct (system_cpu_usage precpu) as [psystem|];
    [|intros [= <-]; apply Hk; set_solver]. cbn.
  destruct (cpu_percent_returns (total - ptotal) (system - psystem) _ _ Hcu)
    as [q ->]. cbn.
  pose proof (memory_part_total mem) as Hmem. cbv zeta in Hmem.
  rewrite Hmem. cbn.
  destruct (network_totals _) as [[[rxb txb] rxp] txp].
  destruct (block_totals _ 0 0) as [[rd wr]|e'] eqn:Hio; [done|]. cbn.
  intros [= <-].
  apply block_totals_Raise in Hio as [->| ->]; apply Hk; set_solver.
Qed.

Lemma stats_of_doc_Return_complete now stats r :
  stats_of_doc now stats = Return r → complete stats = true.
Proof.
  intros Hr.
  destruct (stats_of_doc_io _ _ _ Hr) as [_ Hio].
  apply block_totals_sums in Hio as [_ Hio].
  apply stats_of_doc_inv in Hr
    as (cpu & precpu & mem & cu & pcu & total & ptotal & system & psystem &
        pct & H1 & H2 & H3 & H4 & H5 & H6 & H7 & H8 & H9 & _).
  unfold complete, counters_complete.
  rewrite H1, H2, H3, H4, H5, H6, H7, H8, H9, Hio.
  rewrite !bool_decide_eq_true_2 by eauto. done.
Qed.



End StatsMore.

(** ** More on the sync pass: metrics and integrity *)

Module SyncMore.
Import Py Sync Integrity SyncFacts.

#[local] Set Warnings "-clear-no-such-hyp".

Lemma filter_all {A} (P : A → Prop) `{∀ x, Decision (P x)} (l : list A) :
  (∀ x, x ∈ l → P x) → filter P l = l.
Proof.
  induction l as [|x l IH]; intros Hl; [done|].
  rewrite filter_cons_True by (apply Hl; by left).
  f_equal. apply IH. intros y Hy. apply Hl. by right.
Qed.

(** [get_container_stats] gives a record exactly on a complete document. *)
Lemma stats_record_iff now api :
  has_record api = true ↔
  ∃ r, Stats.get_container_stats now api = Return (Some r).
Proof.
  destruct api as [doc|e]; cbn [has_record].
  - split.
    + intros Hc. destruct (StatsFacts.stats_of_doc_returns now _ Hc) as [r Hr].
      exists r. by apply StatsFacts.get_container_stats_Return.
    + intros [r Hr]. unfold Stats.get_container_stats in Hr. cbn in Hr.
      destruct (Stats.stats_of_doc now doc) as [r'|e] eqn:Hdoc.
      * by apply StatsMore.stats_of_doc_Return_complete in Hdoc.
      * by destruct e.
  - split; [done|]. intros [r Hr]. by destruct e.
Qed.

Lemma stats_no_record now api :
  has_record api = false →
  Stats.get_container_stats now api = Return None ∨
  ∃ e, Stats.get_container_stats now api = Raise e.
Proof.
  intros Hc. destruct (Stats.get_container_stats now api) as [[r|]|e] eqn:Hg;
    [|by left|by eauto].
  assert (has_record api = true) by (apply (stats_record_iff now); eauto).
  congruence.
Qed.

(** *** The three writes preserve the integrity of the tables *)

Section Writes.

Variable storable : string → attrs → bool.

Lemma update_or_create_inv host cid defaults now d d1 row created :
  update_or_create storable host cid defaults now d = Return (d1, row, created) →
  containers d1 = <[(host, cid) := row]> (containers d) ∧
  metrics d1 = metrics d ∧
  next_id d ≤ next_id d1 ∧
  match containers d !! (host, cid) with
  | Some old => id row = id old ∧ next_id d1 = next_id d
  | None => id row = next_id d ∧ next_id d1 = next_id d + 1
  end.
Proof.
  unfold update_or_create. destruct (storable cid defaults); [|done].
  destruct (containers d !! (host, cid)) as [old|];
    intros [= <- <- <-]; cbn; repeat split; lia.
Qed.

Lemma update_or_create_stable host cid defaults now d d1 row created k old :
  update_or_create storable host cid defaults now d = Return (d1, row, created) →
  containers d !! k = Some old →
  ∃ row', containers d1 !! k = Some row' ∧ id row' = id old.
Proof.
  intros Hu Hold. apply update_or_create_inv in Hu as (-> & _ & _ & Hid).
  destruct (decide (k = (host, cid))) as [->|Hk].
  - rewrite Hold in Hid. rewrite lookup_insert_eq. exists row. by destruct Hid.
  - rewrite lookup_insert_ne by done. eauto.
Qed.

Lemma update_or_create_pk_ok host cid defaults now d d1 row created :
  update_or_create storable host cid defaults now d = Return (d1, row, created) →
  pk_ok d → pk_ok d1.
Proof.
  intros Hu [Hlt Hinj].
  apply update_or_create_inv in Hu as (Hc & _ & Hle & Hid).
  assert (id row < next_id d1) as Hrow.
  { destruct (containers d !! (host, cid)) as [old|] eqn:Hold.
    - destruct Hid as [-> ->]. by eapply Hlt.
    - destruct Hid as [-> ->]. lia. }
  assert (∀ k r, k ≠ (host, cid) → containers d !! k = Some r →
                 id r ≠ id row) as Hfresh.
  { intros k r Hk Hr Heq.
    destruct (containers d !! (host, cid)) as [old|] eqn:Hold.
    - destruct Hid as [Hid _]. rewrite Hid in Heq.
      by apply Hk, (Hinj _ _ _ _ Hr Hold).
    - destruct Hid as [Hid _]. apply Hlt in Hr. lia. }
  split.
  - intros k r. rewrite Hc. destruct (decide (k = (host, cid))) as [->|Hk].
    + rewrite lookup_insert_eq. by intros [= <-].
    + rewrite lookup_insert_ne by done. intros Hr. apply Hlt in Hr. lia.
  - intros k1 k2 r1 r2. rewrite Hc.
    destruct (decide (k1 = (host, cid))) as [->|Hk1];
      destruct (decide (k2 = (host, cid))) as [->|Hk2]; [done|..].
    + rewrite lookup_insert_eq, lookup_insert_ne by done.
      intros [= <-] Hr2 Heq. by destruct (Hfresh _ _ Hk2 Hr2).
    + rewrite lookup_insert_eq, lookup_insert_ne by done.
      intros Hr1 [= <-] Heq. by destruct (Hfresh _ _ Hk1 Hr1).
    + rewrite !lookup_insert_ne by done. apply Hinj.
Qed.

Lemma update_or_create_fk_ok host cid defaults now d d1 row created :
  update_or_create storable host cid defaults now d = Return (d1, row, created) →
  fk_ok d → fk_ok d1.
Proof.
  intros Hu Hfk m Hm.
  pose proof (update_or_create_inv _ _ _ _ _ _ _ _ Hu) as (_ & Hmet & _).
  rewrite Hmet in Hm. destruct (Hfk m Hm) as (k & old & Hold & Hid).
  destruct (update_or_create_stable _ _ _ _ _ _ _ _ _ _ Hu Hold)
    as (row' & Hrow' & Hid').
  exists k, row'. split; [done|]. congruence.
Qed.

Lemma create_metric_pk_ok pk stats d : pk_ok d → pk_ok (create_metric pk stats d).
Proof. done. Qed.

Lemma create_metric_fk_ok k row stats d :
  containers d !! k = Some row → fk_ok d →
  fk_ok (create_metric (id row) stats d).
Proof.
  intros Hrow Hfk m. cbn. rewrite elem_of_app, list_elem_of_singleton.
  intros [Hm| ->]; [by apply Hfk|]. by exists k, row.
Qed.

Lemma delete_removed_pk_ok host ids d :
  pk_ok d → pk_ok (delete_removed host ids d).1.
Proof.
  intros [Hlt Hinj]. split; cbn.
  - intros k r [Hr _]%map_lookup_filter_Some. by eapply Hlt.
  - intros k1 k2 r1 r2 [Hr1 _]%map_lookup_filter_Some
      [Hr2 _]%map_lookup_filter_Some. by eapply Hinj.
Qed.

Lemma delete_removed_fk_ok host ids d :
  fk_ok d → fk_ok (delete_removed host ids d).1.
Proof.
  intros Hfk m. cbn. rewrite list_elem_of_filter. intros [Hnot Hm].
  destruct (Hfk m Hm) as (k & row & Hrow & Hid).
  exists k, row. split; [|done]. apply map_lookup_filter_Some.
  split; [done|]. intros Hstale. apply Hnot. unfold cascaded.
  apply list_elem_of_fmap. exists (k, row). split; [done|].
  apply elem_of_map_to_list. unfold removed_rows.
  by apply map_lookup_filter_Some.
Qed.

End Writes.

(** *** One iteration of the loop of the command *)

Section Pass.

Variable storable : string → attrs → bool.
Variable clock : nat → Z.
Variable stats_api : string → result Stats.stats_doc.
Variable host : Z.

Local Abbreviation command_step skip :=
  (command_step storable clock stats_api host skip).
Local Abbreviation sync_host := (sync_host storable clock stats_api host).
Local Abbreviation view_loop := (view_loop storable clock stats_api host).
Local Abbreviation post := (post storable clock stats_api host).
Local Abbreviation collects := (collects storable stats_api).
Local Abbreviation run skip := (fold_left (command_step skip)).

(** What an iteration does to the database: nothing when the database
    refuses the descriptor; otherwise the upsert, followed by one new metric
    row of the upserted container when metrics are collected for it. *)
Lemma command_step_db skip st x :
  (storable (container_id x) (fields x) = false ∧
   db (command_step skip st x) = db st ∧
   metrics_count (command_step skip st x) = metrics_count st) ∨
  (∃ d1 row created,
     update_or_create storable host (container_id x) (fields x)
       (clock (iteration st)) (db st) = Return (d1, row, created) ∧
     ((negb skip && collects x = true ∧
       ∃ stats, db (command_step skip st x) = create_metric (id row) stats d1 ∧
                metrics_count (command_step skip st x) = S (metrics_count st)) ∨
      (negb skip && collects x = false ∧
       db (command_step skip st x) = d1 ∧
       metrics_count (command_step skip st x) = metrics_count st))).
Proof.
  unfold Sync.command_step, Integrity.collects.
  destruct (update_or_create _ _ _ _ _ _) as [[[d1 row] created]|e] eqn:Hu.
  - right. exists d1, row, created. split; [done|].
    assert (storable (container_id x) (fields x) = true) as ->.
    { unfold update_or_create in Hu. by destruct (storable _ _). }
    cbn [andb].
    destruct (negb skip) eqn:Hskip; cbn [andb]; [|by right].
    destruct (String.eqb _ _) eqn:Hrun; cbn [andb]; [|by right].
    destruct (has_record _) eqn:Hrec.
    + left. split; [done|].
      apply (stats_record_iff (clock (iteration st))) in Hrec as [r ->]. eauto.
    + right. split; [done|].
      apply (stats_no_record (clock (iteration st))) in Hrec as [->|[e ->]];
        done.
  - left. unfold update_or_create in Hu.
    destruct (storable _ _); [|done].
    by destruct (containers (db st) !! _).
Qed.

Lemma command_step_pk_ok skip st x :
  pk_ok (db st) → pk_ok (db (command_step skip st x)).
Proof.
  intros Hpk.
  destruct (command_step_db skip st x)
    as [(_ & -> & _)|(d1 & row & created & Hu & [(_ & stats & -> & _)|(_ & -> & _)])];
    [done|..].
  - apply create_metric_pk_ok. by eapply update_or_create_pk_ok.
  - by eapply update_or_create_pk_ok.
Qed.

Lemma command_step_fk_ok skip st x :
  fk_ok (db st) → fk_ok (db (command_step skip st x)).
Proof.
  intros Hfk.
  destruct (command_step_db skip st x)
    as [(_ & -> & _)|(d1 & row & created & Hu & [(_ & stats & -> & _)|(_ & -> & _)])];
    [done|..].
  - apply (create_metric_fk_ok (host, container_id x)).
    + apply update_or_create_inv in Hu as (-> & _). by rewrite lookup_insert_eq.
    + by eapply update_or_create_fk_ok.
  - by eapply update_or_create_fk_ok.
Qed.

(** The rows stay under their key and keep their primary key. *)
Lemma command_step_stable skip st x k old :
  containers (db st) !! k = Some old →
  ∃ row, containers (db (command_step skip st x)) !! k = Some row ∧
         id row = id old.
Proof.
  intros Hold.
  destruct (command_step_db skip st x)
    as [(_ & -> & _)|(d1 & row & created & Hu & [(_ & stats & -> & _)|(_ & -> & _)])];
    [by eauto|..]; cbn [create_metric containers];
    by eapply update_or_create_stable.
Qed.

(** The metric rows an iteration appends. *)
Lemma command_step_metrics skip st x :
  ∃ new,
    metrics (db (command_step skip st x)) = (metrics (db st) ++ new)%list ∧
    metrics_count (command_step skip st x) =
      (metrics_count st + length new)%nat ∧
    length new = Nat.b2n (negb skip && collects x) ∧
    Forall
      (fun m =>
         ∃ row,
           containers (db (command_step skip st x)) !! (host, container_id x)
             = Some row ∧
           id row = container m)
      new.
Proof.
  destruct (command_step_db skip st x)
    as [(Hst & -> & ->)|(d1 & row & created & Hu &
                         [(-> & stats & -> & ->)|(-> & -> & ->)])].
  - exists []. rewrite app_nil_r. unfold Integrity.collects. rewrite Hst.
    cbn. rewrite andb_false_r. repeat split; [lia|done].
  - apply update_or_create_inv in Hu as (Hc & Hm & _).
    eexists [_]. cbn [create_metric metrics containers]. rewrite Hm.
    split; [done|]. split; [cbn; lia|]. split; [done|].
    apply Forall_singleton. exists row. rewrite Hc, lookup_insert_eq. done.
  - apply update_or_create_inv in Hu as (_ & Hm & _).
    exists []. rewrite app_nil_r, Hm. cbn. repeat split; [lia|done].
Qed.

(** *** The loop of the command *)

Lemma run_pk_ok skip l st : pk_ok (db st) → pk_ok (db (run skip l st)).
Proof.
  revert st. induction l as [|x l IH]; intros st Hpk; [done|].
  cbn [fold_left]. by apply IH, command_step_pk_ok.
Qed.

Lemma run_fk_ok skip l st : fk_ok (db st) → fk_ok (db (run skip l st)).
Proof.
  revert st. induction l as [|x l IH]; intros st Hfk; [done|].
  cbn [fold_left]. by apply IH, command_step_fk_ok.
Qed.

Lemma run_stable skip l st k old :
  containers (db st) !! k = Some old →
  ∃ row, containers (db (run skip l st)) !! k = Some row ∧ id row = id old.
Proof.
  revert st old. induction l as [|x l IH]; intros st old Hold; [by eauto|].
  cbn [fold_left].
  destruct (command_step_stable skip st x k old Hold) as (row & Hrow & Hid).
  destruct (IH _ _ Hrow) as (row' & Hrow' & Hid').
  exists row'. split; [done|]. congruence.
Qed.

Lemma run_metrics skip l st :
  ∃ new,
    metrics (db (run skip l st)) = (metrics (db st) ++ new)%list ∧
    metrics_count (run skip l st) = (metrics_count st + length new)%nat ∧
    length new =
      (if skip then 0 else length (List.filter collects l))%nat ∧
    Forall
      (fun m =>
         ∃ cid row,
           cid ∈ snapshot_ids l ∧
           containers (db (run skip l st)) !! (host, cid) = Some row ∧
           id row = container m)
      new.
Proof.
  revert st. induction l as [|x l IH]; intros st.
  - exists []. rewrite app_nil_r. cbn. repeat split; [lia|by destruct skip|done].
  - cbn [fold_left].
    destruct (command_step_metrics skip st x) as (new1 & Hm1 & Hc1 & Hl1 & Hf1).
    destruct (IH (command_step skip st x)) as (new2 & Hm2 & Hc2 & Hl2 & Hf2).
    exists (new1 ++ new2)%list. rewrite Hm2, Hm1, Hc2, Hc1, length_app, Hl1, Hl2.
    rewrite <- app_assoc. split; [done|]. split; [lia|]. split.
    + cbn [List.filter]. destruct skip; [done|]. cbn [negb andb].
      destruct (collects x); cbn; lia.
    + apply Forall_app. split.
      * eapply Forall_impl; [exact Hf1|]. intros m (row & Hrow & Hid). cbn beta.
        destruct (run_stable skip l _ _ _ Hrow) as (row' & Hrow' & Hid').
        exists (container_id x), row'. unfold snapshot_ids.
        split; [set_solver|]. split; [done|]. congruence.
      * eapply Forall_impl; [exact Hf2|]. intros m (cid & row & Hcid & Hrow & Hid).
        exists cid, row. unfold snapshot_ids in *. split; [set_solver|done].
Qed.


(** *** The pass of the command *)

Lemma sync_host_db skip l d :
  (sync_host skip l d).1.1 =
    (delete_removed host (snapshot_ids l) (db (run skip l (initial d)))).1.
Proof.
  unfold Sync.sync_host. cbv zeta. cbn [fst snd].
  rewrite run_ids. cbn [initial docker_container_ids].
  rewrite (right_id_L ∅ (∪)).
  destruct (0 <? size _)%nat eqn:Hsize; [done|].
  apply Nat.ltb_ge in Hsize.
  assert (size (removed_rows host (snapshot_ids l)
                  (db (run skip l (initial d)))) = 0%nat) as Hzero by lia.
  unfold delete_removed. cbn [fst].
  rewrite (keep_all host _ _ Hzero).
  apply map_size_empty_inv in Hzero. rewrite Hzero.
  rewrite (filter_all _ (metrics _)).
  - by destruct (db _).
  - intros m _. unfold cascaded. rewrite map_to_list_empty. cbn. set_solver.
Qed.

Lemma sync_host_pk_ok skip l d : pk_ok d → pk_ok (sync_host skip l d).1.1.
Proof.
  intros Hpk. rewrite sync_host_db. by apply delete_removed_pk_ok, run_pk_ok.
Qed.

Lemma sync_host_fk_ok skip l d : fk_ok d → fk_ok (sync_host skip l d).1.1.
Proof.
  intros Hfk. rewrite sync_host_db. by apply delete_removed_fk_ok, run_fk_ok.
Qed.

Lemma sync_host_metrics skip l d :
  metrics (sync_host skip l d).1.1 =
    filter (fun m => ¬ cascaded (removed_rows host (snapshot_ids l) d) m)
      (metrics (db (run skip l (initial d)))).
Proof.
  rewrite sync_host_db. cbn [delete_removed fst metrics].
  pose proof (removed_rows_run storable clock stats_api host skip l d) as Hrem.
  cbv zeta in Hrem. rewrite run_ids in Hrem.
  cbn [initial docker_container_ids] in Hrem.
  rewrite (right_id_L ∅ (∪)) in Hrem. by rewrite Hrem.
Qed.

(** *** The loop of the view *)

Lemma view_loop_pk_ok l st st' e :
  view_loop l st = (st', e) → pk_ok (db st) → pk_ok (db st').
Proof.
  revert st. induction l as [|x l IH]; intros st; cbn [Sync.view_loop].
  - by intros [= <- <-].
  - destruct (update_or_create _ _ _ _ _ _) as [[[d1 row] created]|e'] eqn:Hu.
    + intros Hloop Hpk. apply IH in Hloop; [done|]. cbn [db].
      pose proof (update_or_create_pk_ok _ _ _ _ _ _ _ _ _ Hu Hpk) as Hpk1.
      destruct (String.eqb _ _); [|done].
      by destruct (Stats.get_container_stats _ _) as [[stats|]|].
    + by intros [= <- <-].
Qed.

Lemma view_loop_fk_ok l st st' e :
  view_loop l st = (st', e) → fk_ok (db st) → fk_ok (db st').
Proof.
  revert st. induction l as [|x l IH]; intros st; cbn [Sync.view_loop].
  - by intros [= <- <-].
  - destruct (update_or_create _ _ _ _ _ _) as [[[d1 row] created]|e'] eqn:Hu.
    + intros Hloop Hfk. apply IH in Hloop; [done|]. cbn [db].
      pose proof (update_or_create_fk_ok _ _ _ _ _ _ _ _ _ Hu Hfk) as Hfk1.
      destruct (String.eqb _ _); [|done].
      destruct (Stats.get_container_stats _ _) as [[stats|]|]; [|done..].
      apply (create_metric_fk_ok (host, container_id x)); [|done].
      apply update_or_create_inv in Hu as (-> & _). by rewrite lookup_insert_eq.
    + by intros [= <- <-].
Qed.

Lemma post_pk_ok l d : pk_ok d → pk_ok (post l d).1.
Proof.
  intros Hpk. unfold Sync.post.
  destruct (view_loop l (initial d)) as [st [e|]] eqn:Hloop.
  - by apply (view_loop_pk_ok _ _ _ _ Hloop).
  - destruct (delete_removed _ _ _) as [d' n] eqn:Hdel.
    change d' with (d', n).1. rewrite <- Hdel.
    by apply delete_removed_pk_ok, (view_loop_pk_ok _ _ _ _ Hloop).
Qed.

Lemma post_fk_ok l d : fk_ok d → fk_ok (post l d).1.
Proof.
  intros Hfk. unfold Sync.post.
  destruct (view_loop l (initial d)) as [st [e|]] eqn:Hloop.
  - by apply (view_loop_fk_ok _ _ _ _ Hloop).
  - destruct (delete_removed _ _ _) as [d' n] eqn:Hdel.
    change d' with (d', n).1. rewrite <- Hdel.
    by apply delete_removed_fk_ok, (view_loop_fk_ok _ _ _ _ Hloop).
Qed.


(** The lines of the units an iteration writes. *)
Lemma command_step_unit_lines skip st x :
  let unit_line :=
    if storable (container_id x) (fields x) then
      match containers (db st) !! (host, container_id x) with
      | Some _ => Updated (name (fields x)) (status (fields x))
      | None => Created (name (fields x)) (status (fields x))
      end
    else SyncError (name (fields x)) in
  unit_lines (out (command_step skip st x)) =
    (unit_lines (out st) ++ [unit_line])%list ∧
  (skip = true → out (command_step skip st x) = (out st ++ [unit_line])%list).
Proof.
  cbv zeta. unfold Sync.command_step, unit_lines.
  rewrite update_or_create_eq.
  destruct (storable (container_id x) (fields x));
    [|cbn [out]; by rewrite List.filter_app].
  cbv zeta.
  destruct (containers (db st) !! (host, container_id x));
    (destruct skip; cbn [negb andb];
     [cbn [out]; by rewrite List.filter_app|]);
    (destruct (String.eqb _ _);
     [|cbn [out]; by rewrite List.filter_app]);
    destruct (Stats.get_container_stats _ _) as [[?|]|?];
    cbn [out]; by rewrite List.filter_app.
Qed.

(** X8.  A pass keeps the two tables sound, in the command and in the view,
    whether the loop of the view finishes or not: the primary keys of the
    container rows stay distinct and below the next one, and every metric
    row still refers to a container row; the prune step never leaves a
    metric of a deleted container behind. *)
Theorem pass_keeps_integrity skip l d :
  (pk_ok d → pk_ok (sync_host skip l d).1.1 ∧ pk_ok (post l d).1) ∧
  (fk_ok d → fk_ok (sync_host skip l d).1.1 ∧ fk_ok (post l d).1).
Proof.
  split; intros H; split.
  - by apply sync_host_pk_ok.
  - by apply post_pk_ok.
  - by apply sync_host_fk_ok.
  - by apply post_fk_ok.
Qed.


End Pass.

(** *** Two passes that differ in their metrics *)

Section Skip.

Variable storable : string → attrs → bool.
Variable clock : nat → Z.
Variable host : Z.
Variables api1 api2 : string → result Stats.stats_doc.
Variables skip1 skip2 : bool.

Local Abbreviation run1 :=
  (fold_left (command_step storable clock api1 host skip1)).
Local Abbreviation run2 :=
  (fold_left (command_step storable clock api2 host skip2)).

Lemma run_same l st1 st2 :
  containers (db st1) = containers (db st2) →
  next_id (db st1) = next_id (db st2) →
  iteration st1 = iteration st2 →
  unit_lines (out st1) = unit_lines (out st2) →
  containers (db (run1 l st1)) = containers (db (run2 l st2)) ∧
  next_id (db (run1 l st1)) = next_id (db (run2 l st2)) ∧
  unit_lines (out (run1 l st1)) = unit_lines (out (run2 l st2)).
Proof.
  revert st1 st2. induction l as [|x l IH]; intros st1 st2 Hc Hn Hi Ho;
    [done|].
  cbn [fold_left]. apply IH.
  - rewrite !command_step_containers. by rewrite Hc, Hn, Hi.
  - rewrite !command_step_next_id. by rewrite Hc, Hn.
  - rewrite !command_step_iteration. by rewrite Hi.
  - destruct (command_step_unit_lines storable clock api1 host skip1 st1 x)
      as [-> _].
    destruct (command_step_unit_lines storable clock api2 host skip2 st2 x)
      as [-> _].
    by rewrite Hc, Ho.
Qed.

Lemma run_skip api l st :
  Forall (fun ln => is_unavailable ln = false) (out st) →
  Forall (fun ln => is_unavailable ln = false)
    (out (fold_left (command_step storable clock api host true) l st)).
Proof.
  revert st. induction l as [|x l IH]; intros st Hst; [done|].
  cbn [fold_left]. apply IH.
  destruct (command_step_unit_lines storable clock api host true st x)
    as [_ Hout].
  rewrite (Hout eq_refl). apply Forall_app. split; [done|]. apply Forall_singleton.
  destruct (storable _ _); [|done].
  by destruct (containers (db st) !! _).
Qed.


End Skip.

(** *** Examples *)

Lemma abc_pk_ok : pk_ok abc_with_metrics.
Proof.
  assert (map_Forall
            (fun k1 row1 =>
               id row1 < 5 ∧
               map_Forall (fun k2 row2 => id row1 = id row2 → k1 = k2)
                 (containers abc_with_metrics))
            (containers abc_with_metrics)) as H
    by (apply (bool_decide_unpack _); by vm_compute).
  split.
  - intros k row Hrow. by apply (H k row Hrow).
  - intros k1 k2 row1 row2 H1 H2. by apply (proj2 (H k1 row1 H1) k2 row2 H2).
Qed.

Lemma abc_fk_ok : fk_ok abc_with_metrics.
Proof.
  intros m Hm. cbn in Hm.
  apply elem_of_cons in Hm as [->|Hm];
    [by exists (1, "a"%string), (unit_row 1 "a" "running" 10)|].
  apply elem_of_cons in Hm as [->|Hm];
    [by exists (1, "a"%string), (unit_row 1 "a" "running" 10)|].
  apply list_elem_of_singleton in Hm as ->.
  by exists (1, "b"%string), (unit_row 2 "b" "running" 10).
Qed.

Lemma pass_keeps_integrity_witness :
  let d' := (sync_host always_storable (fun n => Z.of_nat n) stats_of_b 1
               false running_snapshot abc_with_metrics).1.1 in
  pk_ok d' ∧ fk_ok d'.
Proof.
  destruct (pass_keeps_integrity always_storable (fun n => Z.of_nat n)
              stats_of_b 1 false running_snapshot abc_with_metrics)
    as [Hpk Hfk].
  split; [apply Hpk, abc_pk_ok|apply Hfk, abc_fk_ok].
Defined.



End SyncMore.

(** ** The hosts around the pass: [Command.handle] and the view *)

Module HostsFacts.
Import Py Sync Integrity Hosts SyncFacts.

#[local] Set Warnings "-clear-no-such-hyp".

Section Hosts.

Variable storable : string → attrs → bool.
Variable clock : Z → nat → Z.
Variable docker : string → engine.

Local Abbreviation containers_of := (containers_of docker).
Local Abbreviation handle_host := (handle_host storable clock docker).
Local Abbreviation handle_loop := (handle_loop storable clock docker).
Local Abbreviation handle := (handle storable clock docker).
Local Abbreviation post_request := (post_request storable clock docker).
Local Abbreviation loop skip := (fold_left (handle_host skip)).

(** *** One host *)

Lemma handle_host_Raise skip st x e :
  containers_of x = Raise e →
  handle_host skip st x =
    {| hdb := hdb st; outcomes := (outcomes st ++ [ConnectionError e])%list;
       sums := sums st |}.
Proof. unfold Hosts.handle_host. by intros ->. Qed.

Lemma handle_host_Return skip st x l :
  containers_of x = Return l →
  let pass := sync_host storable (clock (host_id x))
                (stats (docker (host_url x))) (host_id x) skip l (hdb st) in
  hdb (handle_host skip st x) = pass.1.1 ∧
  outcomes (handle_host skip st x) =
    (outcomes st ++ [Synced pass.1.2 pass.2])%list ∧
  total_synced (sums (handle_host skip st x)) =
    (total_synced (sums st) + synced_of storable (Return l))%nat ∧
  total_removed (sums (handle_host skip st x)) =
    (total_removed (sums st) + removed_of (hdb st) (host_id x) (Return l))%nat ∧
  total_metrics (sums (handle_host skip st x)) =
    (total_metrics (sums st) +
     metrics_of storable skip (stats (docker (host_url x))) (Return l))%nat.
Proof.
  unfold Hosts.handle_host. intros ->. cbv zeta. cbn [hdb outcomes sums
    total_synced total_removed total_metrics].
  rewrite sync_host_report.
  cbn [synced removed collected synced_of removed_of metrics_of].
  destruct (SyncMore.run_metrics storable (clock (host_id x))
              (stats (docker (host_url x))) (host_id x) skip l
              (initial (hdb st))) as (new & _ & -> & -> & _).
  done.
Qed.

(** The rows of the other hosts stay. *)
Lemma handle_host_other skip st x h cid :
  host_id x ≠ h →
  containers (hdb (handle_host skip st x)) !! (h, cid) =
    containers (hdb st) !! (h, cid).
Proof.
  intros Hne. destruct (containers_of x) as [l|e] eqn:Hx.
  - destruct (handle_host_Return skip st x l Hx) as (-> & _).
    rewrite sync_host_lookup. rewrite decide_False by (intros [? _]; done).
    by apply run_other_host.
  - by rewrite (handle_host_Raise _ _ _ _ Hx).
Qed.

(** A host that is not reached, or whose listing raises, keeps its rows. *)
Lemma handle_host_failed skip st x e :
  containers_of x = Raise e → hdb (handle_host skip st x) = hdb st.
Proof. intros Hx. by rewrite (handle_host_Raise _ _ _ _ Hx). Qed.

(** After the pass of a host, the rows its listing does not name are gone. *)
Lemma handle_host_pruned skip st x l cid :
  containers_of x = Return l → cid ∉ snapshot_ids l →
  containers (hdb (handle_host skip st x)) !! (host_id x, cid) = None.
Proof.
  intros Hx Hcid. destruct (handle_host_Return skip st x l Hx) as (-> & _).
  rewrite sync_host_lookup. by rewrite decide_True.
Qed.

(** *** The loop over the hosts *)

Lemma loop_snoc skip hs x st :
  loop skip (hs ++ [x]) st = handle_host skip (loop skip hs st) x.
Proof. by rewrite fold_left_app. Qed.

Lemma loop_untouched skip hs st h cid :
  (∀ x, x ∈ hs → host_id x = h → ∃ e, containers_of x = Raise e) →
  containers (hdb (loop skip hs st)) !! (h, cid) =
    containers (hdb st) !! (h, cid).
Proof.
  revert st. induction hs as [|x hs IH]; intros st Hhs; [done|].
  cbn [fold_left]. rewrite IH by (intros; apply Hhs; [by right|done]).
  destruct (decide (host_id x = h)) as [Hx|Hx].
  - destruct (Hhs x) as [e He]; [by left|done|].
    by rewrite (handle_host_failed _ _ _ _ He).
  - by apply handle_host_other.
Qed.


Lemma sum_list_with_ext {A} (f g : A → nat) (l : list A) :
  (∀ x, x ∈ l → f x = g x) → sum_list_with f l = sum_list_with g l.
Proof.
  induction l as [|x l IH]; intros Hfg; [done|]. cbn.
  rewrite (Hfg x) by (by left). rewrite IH; [done|].
  intros y Hy. apply Hfg. by right.
Qed.

(** The rows a host loses depend on its own rows only. *)
Lemma removed_of_agree d1 d2 h listed :
  (∀ cid, containers d1 !! (h, cid) = containers d2 !! (h, cid)) →
  removed_of d1 h listed = removed_of d2 h listed.
Proof.
  intros Hagree. destruct listed as [l|e]; [|done]. cbn. f_equal.
  unfold removed_rows. apply map_eq. intros [h' cid]. apply option_eq.
  intros row. rewrite !map_lookup_filter_Some. unfold stale. cbn.
  split; intros [Hrow [-> Hcid]]; (split; [|done]).
  - by rewrite <- Hagree.
  - by rewrite Hagree.
Qed.

Lemma loop_outcomes skip hs st :
  length (outcomes (loop skip hs st)) =
    (length (outcomes st) + length hs)%nat.
Proof.
  revert st. induction hs as [|x hs IH]; intros st; cbn [fold_left length];
    [lia|].
  rewrite IH. unfold Hosts.handle_host.
  destruct (containers_of x); cbn [outcomes]; rewrite length_app; cbn; lia.
Qed.

Lemma loop_sums skip hs st :
  NoDup (host_id <$> hs) →
  total_synced (sums (loop skip hs st)) =
    (total_synced (sums st) +
     sum_list_with (fun x => synced_of storable (containers_of x)) hs)%nat ∧
  total_removed (sums (loop skip hs st)) =
    (total_removed (sums st) +
     sum_list_with
       (fun x => removed_of (hdb st) (host_id x) (containers_of x)) hs)%nat ∧
  total_metrics (sums (loop skip hs st)) =
    (total_metrics (sums st) +
     sum_list_with
       (fun x => metrics_of storable skip (stats (docker (host_url x)))
                   (containers_of x)) hs)%nat.
Proof.
  revert st. induction hs as [|x hs IH]; intros st Hnd.
  - cbn. lia.
  - rewrite fmap_cons in Hnd. apply NoDup_cons in Hnd as [Hx Hnd].
    cbn [fold_left sum_list_with].
    destruct (IH (handle_host skip st x) Hnd) as (-> & -> & ->).
    rewrite (sum_list_with_ext
               (fun y => removed_of (hdb (handle_host skip st x)) (host_id y)
                           (containers_of y))
               (fun y => removed_of (hdb st) (host_id y) (containers_of y))).
    + destruct (containers_of x) as [l|e] eqn:Hl.
      * destruct (handle_host_Return skip st x l Hl) as (_ & _ & -> & -> & ->).
        lia.
      * rewrite (handle_host_Raise _ _ _ _ Hl). cbn. lia.
    + intros y Hy. apply removed_of_agree. intros cid.
      apply handle_host_other. intros Heq. apply Hx. rewrite Heq.
      by apply list_elem_of_fmap_2.
Qed.

(** *** [Command.handle] *)

Lemma selects_Some host_id i x :
  truthy host_id = Some i →
  (Hosts.host_id x = i ∧ is_active x = true) ↔ selects host_id x.
Proof. unfold selects. intros ->. tauto. Qed.

Lemma selects_None host_id x :
  truthy host_id = None → is_active x = true ↔ selects host_id x.
Proof. unfold selects. intros ->. tauto. Qed.

Lemma handle_selected host_id skip hosts d :
  handle host_id skip hosts d =
    match filter (selects host_id) hosts with
    | [] =>
        (d, match truthy host_id with
            | Some i => HostNotFound i
            | None => NoActiveHosts
            end)
    | _ => handle_loop skip (filter (selects host_id) hosts) d
    end.
Proof.
  unfold Hosts.handle. destruct (truthy host_id) as [i|] eqn:Hid.
  - rewrite (list_filter_iff _ (selects host_id))
      by (intros x; by apply selects_Some).
    by destruct (filter _ _).
  - rewrite (list_filter_iff _ (selects host_id))
      by (intros x; by apply selects_None).
    by destruct (filter _ _).
Qed.

Lemma handle_db host_id skip hosts d :
  (handle host_id skip hosts d).1 =
    hdb (loop skip (filter (selects host_id) hosts) (hosts_initial d)).
Proof.
  rewrite handle_selected. by destruct (filter _ _).
Qed.

Lemma NoDup_selected host_id hosts :
  NoDup (Hosts.host_id <$> hosts) →
  NoDup (Hosts.host_id <$> filter (selects host_id) hosts).
Proof.
  intros Hnd. eapply sublist_NoDup; [exact Hnd|].
  apply fmap_sublist, sublist_filter.
Qed.

(** X11.  [Command.handle] changes the rows of a host only when the host is
    active, selected by [--host-id] (or no truthy [--host-id] is given), its
    daemon is reached and the listing does not raise: the rows of every
    other host, of an inactive host, of a host that is not selected and of a
    host whose connection fails stay as they were. *)
Theorem handle_leaves_other_hosts host_id skip hosts d h cid :
  (∀ x, x ∈ hosts → Hosts.host_id x = h → selects host_id x →
        ∃ e, containers_of x = Raise e) →
  containers (handle host_id skip hosts d).1 !! (h, cid) =
    containers d !! (h, cid).
Proof.
  intros Hh. rewrite handle_db. rewrite loop_untouched; [done|].
  intros x [Hsel Hx]%list_elem_of_filter Hid. by apply Hh.
Qed.

(** X12.  After [Command.handle], a host that was synced holds no row whose
    identifier its listing does not name.  [get_all_containers] answers a
    [DockerException] of the listing with the empty list, so when the daemon
    of a selected host is reached and its listing raises one, every row of
    that host is deleted. *)
Theorem unlisted_rows_deleted host_id skip hosts d x :
  NoDup (Hosts.host_id <$> hosts) → x ∈ hosts → selects host_id x →
  let d' := (handle host_id skip hosts d).1 in
  (∀ l cid,
     containers_of x = Return l → cid ∉ snapshot_ids l →
     containers d' !! (Hosts.host_id x, cid) = None) ∧
  (connection (docker (host_url x)) = Return () →
   listing (docker (host_url x)) = Raise DockerException ∨
   listing (docker (host_url x)) = Raise NotFound →
   ∀ cid, containers d' !! (Hosts.host_id x, cid) = None).
Proof.
  intros Hnd Hx Hsel. cbv zeta.
  assert (∀ l cid,
            containers_of x = Return l → cid ∉ snapshot_ids l →
            containers (handle host_id skip hosts d).1
              !! (Hosts.host_id x, cid) = None) as Hgen.
  { intros l cid Hl Hcid. rewrite handle_db.
    apply (NoDup_selected host_id) in Hnd.
    assert (x ∈ filter (selects host_id) hosts) as Hin
      by (by apply list_elem_of_filter).
    apply list_elem_of_split in Hin as (hs1 & hs2 & Hsplit).
    rewrite Hsplit in Hnd |- *.
    rewrite fmap_app, fmap_cons in Hnd.
    apply NoDup_app in Hnd as (_ & _ & [Hx2 _]%NoDup_cons).
    rewrite fold_left_app. cbn [fold_left].
    rewrite loop_untouched.
    - by apply (handle_host_pruned _ _ _ l).
    - intros y Hy Heq. destruct Hx2. rewrite <- Heq.
      by apply list_elem_of_fmap_2. }
  split; [exact Hgen|].
  intros Hconn Hlist cid. apply (Hgen []); [|set_solver].
  unfold Hosts.containers_of. rewrite Hconn. cbn.
  by destruct Hlist as [-> | ->].
Qed.



(** *** [SyncDockerDataView.post] *)

Lemma view_loop_other_host sapi host l st st' e h cid :
  view_loop storable (clock host) sapi host l st = (st', e) → h ≠ host →
  containers (db st') !! (h, cid) = containers (db st) !! (h, cid).
Proof.
  intros Hloop Hne. revert st Hloop.
  induction l as [|x l IH]; intros st; cbn [Sync.view_loop].
  - by intros [= <- <-].
  - destruct (update_or_create _ _ _ _ _ _) as [[[d1 row] created]|e'] eqn:Hu.
    + intros Hloop. apply IH in Hloop. rewrite Hloop. cbn [db].
      apply SyncMore.update_or_create_inv in Hu as (Hc & _).
      assert (containers d1 !! (h, cid) = containers (db st) !! (h, cid))
        as <- by (rewrite Hc, lookup_insert_ne; [done|congruence]).
      destruct (String.eqb _ _); [|done].
      by destruct (Stats.get_container_stats _ _) as [[stats|]|].
    + by intros [= <- <-].
Qed.

Lemma post_other_host sapi host l d h cid :
  h ≠ host →
  containers (post storable (clock host) sapi host l d).1 !! (h, cid) =
    containers d !! (h, cid).
Proof.
  intros Hne. unfold Sync.post.
  destruct (view_loop _ _ _ _ _ _) as [st [e|]] eqn:Hloop.
  - by apply (view_loop_other_host _ _ _ _ _ _ _ _ Hloop).
  - destruct (delete_removed _ _ _) as [d' n] eqn:Hdel.
    change d' with (d', n).1. rewrite <- Hdel. cbn [delete_removed fst containers].
    rewrite lookup_keep. rewrite decide_False by (intros [? _]; done).
    by apply (view_loop_other_host _ _ _ _ _ _ _ _ Hloop).
Qed.

Lemma post_nil sapi host d :
  (∃ n, (post storable (clock host) sapi host [] d).2 = Success 0 n) ∧
  ∀ cid,
    containers (post storable (clock host) sapi host [] d).1 !! (host, cid)
      = None.
Proof.
  unfold Sync.post. cbn [Sync.view_loop initial db docker_container_ids
    synced_count].
  destruct (delete_removed _ _ _) as [d' n] eqn:Hdel. split; [by eauto|].
  intros cid. change d' with (d', n).1. rewrite <- Hdel.
  cbn [delete_removed fst containers]. rewrite lookup_keep.
  by rewrite decide_True by set_solver.
Qed.

Lemma filter_unique {A} (f : A → Z) (P : A → Prop) `{∀ x, Decision (P x)}
    (l : list A) (c : Z) (x : A) :
  NoDup (f <$> l) → (∀ y, P y → f y = c) → x ∈ l → P x →
  filter P l = [x].
Proof.
  intros Hnd Hc Hx HP.
  assert (NoDup (f <$> filter P l)) as Hnd'
    by (eapply sublist_NoDup; [exact Hnd|apply fmap_sublist, sublist_filter]).
  assert (x ∈ filter P l) as Hin by (by apply list_elem_of_filter).
  assert (∀ y, y ∈ filter P l → f y = c) as Hall
    by (intros y [Hy _]%list_elem_of_filter; by apply Hc).
  destruct (filter P l) as [|y [|z rest]]; [by apply elem_of_nil in Hin| |].
  - by apply list_elem_of_singleton in Hin as ->.
  - rewrite !fmap_cons in Hnd'. apply NoDup_cons in Hnd' as [Hy _].
    destruct Hy. rewrite (Hall y) by (by left).
    rewrite (Hall z) by (right; by left). by left.
Qed.

(** With distinct identifiers, the host the view finds is the selected
    one. *)
Lemma post_request_found host_id hosts d x :
  NoDup (Hosts.host_id <$> hosts) → x ∈ hosts → selects host_id x →
  truthy host_id ≠ None →
  post_request host_id hosts d =
    match containers_of x with
    | Raise e => (d, Answered (ServerError e))
    | Return containers_data =>
        let r := post storable (clock (Hosts.host_id x))
                   (stats (docker (host_url x))) (Hosts.host_id x)
                   containers_data d in
        (r.1, Answered r.2)
    end.
Proof.
  intros Hnd Hx Hselx Hid. unfold Hosts.post_request.
  destruct (truthy host_id) as [i|] eqn:Hi; [|done].
  rewrite (list_filter_iff _ (selects host_id))
    by (intros y; by apply selects_Some).
  rewrite (filter_unique Hosts.host_id _ _ i x); [done|done| |done..].
  intros y Hy. apply (selects_Some host_id i y Hi) in Hy. tauto.
Qed.


End Hosts.

(** *** Examples *)

Lemma three_hosts_NoDup : NoDup (host_id <$> three_hosts).
Proof. apply (bool_decide_unpack _). by vm_compute. Qed.

Lemma handle_leaves_other_hosts_witness :
  containers
    (handle always_storable host_clock failing_docker None false three_hosts
       abc_database).1 !! (2, "a"%string) =
  containers abc_database !! (2, "a"%string).
Proof.
  apply handle_leaves_other_hosts. intros x Hx Hid _.
  apply elem_of_cons in Hx as [->|Hx]; [done|].
  apply elem_of_cons in Hx as [->|Hx]; [by exists DockerException|].
  apply list_elem_of_singleton in Hx as ->. done.
Defined.

Lemma unlisted_rows_deleted_witness :
  containers
    (handle always_storable host_clock failing_docker None false
       three_hosts abc_database).1 !! (1, "a"%string) = None.
Proof.
  pose proof (unlisted_rows_deleted always_storable host_clock failing_docker
                None false three_hosts abc_database
                {| host_id := 1; host_name := "local"; host_url := local_url;
                   is_active := true |} three_hosts_NoDup) as H.
  destruct H as [_ H]; [by left|done|].
  apply H; [reflexivity|by left].
Defined.



End HostsFacts.

(** ** [_parse_container_info] and the listing *)

Module ParseFacts.
Import Py Sync Hosts Parse SyncFacts HostsFacts.

#[local] Set Warnings "-clear-no-such-hyp".

(** *** The loop over the networks *)

Lemma networks_loop_names nets acc ip :
  (networks_loop nets acc ip).1 = (acc ++ nets.*1)%list.
Proof.
  revert acc ip. induction nets as [|[name nd] nets IH]; intros acc ip; cbn.
  - by rewrite app_nil_r.
  - rewrite IH. by rewrite <- app_assoc.
Qed.

(** Once an address is found it stays. *)
Lemma networks_loop_found nets acc ip :
  falsy ip = false → (networks_loop nets acc ip).2 = ip.
Proof.
  revert acc ip. induction nets as [|[name nd] nets IH]; intros acc ip Hip;
    cbn; [done|].
  rewrite Hip. by apply IH.
Qed.

(** Without an address so far, the first network that has one gives it. *)
Lemma networks_loop_first nets1 name nd nets2 acc ip :
  falsy ip = true →
  Forall (fun kv => falsy (IPAddress kv.2) = true) nets1 →
  falsy (IPAddress nd) = false →
  (networks_loop (nets1 ++ (name, nd) :: nets2) acc ip).2 = IPAddress nd.
Proof.
  revert acc ip. induction nets1 as [|[name1 nd1] nets1 IH];
    intros acc ip Hip Hnone Hnd; cbn.
  - rewrite Hip. by apply networks_loop_found.
  - apply Forall_cons in Hnone as [H1 Hnone]. rewrite Hip. by apply IH.
Qed.

(** Without any address, the last network gives what it has. *)
Lemma networks_loop_none nets acc ip :
  falsy ip = true →
  Forall (fun kv => falsy (IPAddress kv.2) = true) nets →
  (networks_loop nets acc ip).2 =
    match last nets with
    | Some kv => IPAddress kv.2
    | None => ip
    end.
Proof.
  revert acc ip. induction nets as [|[name nd] nets IH];
    intros acc ip Hip Hnone; cbn; [done|].
  apply Forall_cons in Hnone as [H1 Hnone]. rewrite Hip.
  rewrite IH by done. cbn in H1.
  destruct nets as [|kv nets]; [done|]. rewrite last_cons_cons.
  destruct (last (kv :: nets)) eqn:Hlast; [done|].
  by apply last_None in Hlast.
Qed.

(** *** The loop over the ports *)

Lemma bindings_inv bs strs :
  bindings bs = Return strs →
  strs = binding_str <$> bs ∧ forallb binding_complete bs = true.
Proof.
  revert strs. induction bs as [|b bs IH]; intros strs; cbn.
  - by intros [= <-].
  - destruct (HostIp b) as [ip|] eqn:Hip; [|done]. cbn.
    destruct (HostPort b) as [port|] eqn:Hport; [|done]. cbn.
    destruct (bindings bs) as [strs'|]; [|done]. cbn.
    intros [= <-]. destruct (IH strs' eq_refl) as [-> ->].
    unfold binding_complete, binding_str. rewrite Hip, Hport. done.
Qed.

Lemma bindings_complete bs :
  forallb binding_complete bs = true → bindings bs = Return (binding_str <$> bs).
Proof.
  induction bs as [|b bs IH]; cbn; [done|].
  unfold binding_complete at 1, binding_str at 1.
  destruct (HostIp b) as [ip|]; [|done].
  destruct (HostPort b) as [port|]; [|by rewrite andb_false_r]. cbn.
  intros Hbs. by rewrite (IH Hbs).
Qed.

Lemma bindings_Raise bs e :
  bindings bs = Raise e → e = KeyError "HostIp" ∨ e = KeyError "HostPort".
Proof.
  induction bs as [|b bs IH]; cbn; [done|].
  destruct (HostIp b) as [ip|]; [|intros [= <-]; by left]. cbn.
  destruct (HostPort b) as [port|]; [|intros [= <-]; by right]. cbn.
  destruct (bindings bs) as [strs'|e']; [done|]. cbn.
  intros [= <-]. by apply IH.
Qed.

Lemma ports_loop_inv ports acc m :
  ports_loop ports acc = Return m →
  m = (acc ++ (mapping <$> filter (fun p => published p.2 = true) ports))%list ∧
  forallb port_complete ports = true.
Proof.
  revert acc. induction ports as [|[port hb] ports IH]; intros acc;
    cbn [ports_loop forallb].
  - intros [= <-]. by rewrite app_nil_r.
  - unfold port_complete at 1. cbn [snd].
    destruct (published hb) eqn:Hpub.
    + rewrite filter_cons_True by done.
      destruct (bindings (default [] hb)) as [strs|] eqn:Hb; [|done].
      cbn [mbind result_bind].
      apply bindings_inv in Hb as [-> ->]. intros Hm.
      apply IH in Hm as [-> ->]. rewrite <- app_assoc. done.
    + rewrite filter_cons_False by (cbn; congruence).
      intros Hm. apply IH in Hm as [-> ->].
      by destruct hb as [[|? ?]|].
Qed.

Lemma ports_loop_complete ports acc :
  forallb port_complete ports = true → ∃ m, ports_loop ports acc = Return m.
Proof.
  revert acc. induction ports as [|[port hb] ports IH]; intros acc; cbn;
    [by eauto|].
  intros [Hp Hps]%andb_prop. unfold port_complete in Hp. cbn in Hp.
  destruct (published hb); [|by apply IH].
  rewrite (bindings_complete _ Hp). cbn. by apply IH.
Qed.

Lemma ports_loop_Raise ports acc e :
  ports_loop ports acc = Raise e →
  e = KeyError "HostIp" ∨ e = KeyError "HostPort".
Proof.
  revert acc. induction ports as [|[port hb] ports IH]; intros acc; cbn;
    [done|].
  destruct (published hb); [|by apply IH].
  destruct (bindings (default [] hb)) as [strs|e'] eqn:Hb; cbn.
  - by apply IH.
  - intros [= <-]. by apply bindings_Raise in Hb.
Qed.


(** *** [_parse_container_info] *)

Lemma parse_inv c cd :
  _parse_container_info c = Return cd →
  ∃ st state created restart_count config m,
    State (obj_attrs c) = Some st ∧ Status st = Some state ∧
    Created (obj_attrs c) = Some created ∧
    RestartCount (obj_attrs c) = Some restart_count ∧
    Config (obj_attrs c) = Some config ∧
    ports_loop (ports_of c) [] = Return m ∧
    cd = {| container_id := obj_id c;
            short_id := obj_short_id c;
            fields := {|
              name := obj_name c;
              image := match tags (obj_image c) with
                       | tag :: _ => tag
                       | [] => image_obj_id (obj_image c)
                       end;
              image_id := image_obj_id (obj_image c);
              status := obj_status c;
              state := state;
              restart_count := restart_count;
              ports := m;
              networks := (networks_loop (networks_of c) [] None).1;
              ip_address := (networks_loop (networks_of c) [] None).2;
              created := created;
              started_at := StartedAt st;
              finished_at := FinishedAt st;
              labels := get (Labels config) [] |} |}.
Proof.
  unfold _parse_container_info, ports_of, networks_of.
  destruct (State (obj_attrs c)) as [st|]; [|done]. cbn.
  destruct (Status st) as [state|] eqn:Hstate; [|done]. cbn.
  destruct (Created (obj_attrs c)) as [created|]; [|done]. cbn.
  destruct (RestartCount (obj_attrs c)) as [restart_count|]; [|done]. cbn.
  destruct (Config (obj_attrs c)) as [config|]; [|done]. cbn.
  destruct (networks_loop _ [] None) as [network_list ip].
  destruct (ports_loop _ []) as [m|]; [|done]. cbn.
  intros [= <-]. by exists st, state, created, restart_count, config, m.
Qed.

Lemma parse_returns c :
  parsable c = true → ∃ cd, _parse_container_info c = Return cd.
Proof.
  unfold parsable, _parse_container_info.
  destruct (State (obj_attrs c)) as [st|]; [|done]. cbn.
  rewrite !andb_true_iff, !bool_decide_eq_true.
  intros [[[[[state ->] [created ->]] [restart_count ->]] [config ->]] Hp].
  cbn. destruct (networks_loop _ [] None) as [network_list ip].
  destruct (ports_loop_complete _ [] Hp) as [m ->]. cbn. eauto.
Qed.

Lemma parse_Return_parsable c cd :
  _parse_container_info c = Return cd → parsable c = true.
Proof.
  intros (st & state & created & restart_count & config & m &
          H1 & H2 & H3 & H4 & H5 & Hp & _)%parse_inv.
  apply ports_loop_inv in Hp as [_ Hp]. unfold parsable.
  rewrite H1, H2, H3, H4, H5. unfold ports_of in Hp. rewrite Hp.
  rewrite !bool_decide_eq_true_2 by eauto. done.
Qed.

Lemma parse_Raise c e :
  _parse_container_info c = Raise e → ∃ k, e = KeyError k ∧ k ∈ parse_keys.
Proof.
  assert (∀ k, k ∈ parse_keys →
               ∃ k', KeyError k = KeyError k' ∧ k' ∈ parse_keys) as Hk
    by eauto.
  unfold _parse_container_info.
  destruct (State (obj_attrs c)) as [st|];
    [|intros [= <-]; apply Hk; set_solver]. cbn.
  destruct (Status st) as [state|];
    [|intros [= <-]; apply Hk; set_solver]. cbn.
  destruct (Created (obj_attrs c)) as [created|];
    [|intros [= <-]; apply Hk; set_solver]. cbn.
  destruct (RestartCount (obj_attrs c)) as [restart_count|];
    [|intros [= <-]; apply Hk; set_solver]. cbn.
  destruct (Config (obj_attrs c)) as [config|];
    [|intros [= <-]; apply Hk; set_solver]. cbn.
  destruct (networks_loop _ [] None) as [network_list ip].
  destruct (ports_loop _ []) as [m|e'] eqn:Hp; [done|]. cbn.
  intros [= <-]. apply ports_loop_Raise in Hp as [-> | ->]; apply Hk;
    set_solver.
Qed.

(** X15.  The network fields of a parsed container: [networks] holds the
    names of the networks in the order of the inspection; [ip_address] is
    the address of the first network that has a non-empty one; when no
    network has one it is what the last network holds, which can be the
    empty string, and [None] when there is no network. *)
Theorem parsed_networks c cd :
  _parse_container_info c = Return cd →
  networks (fields cd) = (networks_of c).*1 ∧
  (∀ nets1 name nd nets2,
     networks_of c = (nets1 ++ (name, nd) :: nets2)%list →
     Forall (fun kv => falsy (IPAddress kv.2) = true) nets1 →
     falsy (IPAddress nd) = false →
     ip_address (fields cd) = IPAddress nd) ∧
  (Forall (fun kv => falsy (IPAddress kv.2) = true) (networks_of c) →
   ip_address (fields cd) =
     match last (networks_of c) with
     | Some kv => IPAddress kv.2
     | None => None
     end).
Proof.
  intros (st & state & created & restart_count & config & m &
          _ & _ & _ & _ & _ & _ & ->)%parse_inv.
  cbn [fields networks ip_address]. split; [|split].
  - by rewrite networks_loop_names.
  - intros nets1 name nd nets2 -> Hnone Hnd.
    by apply networks_loop_first.
  - intros Hnone. by apply networks_loop_none.
Qed.

(** X16.  The [ports] of a parsed container hold exactly the container
    ports whose bindings are a non-empty list, in the order of the
    inspection, each with its bindings written as "HostIp:HostPort"; a port
    whose bindings are [null] or empty is left out. *)
Theorem parsed_ports c cd :
  _parse_container_info c = Return cd →
  ports (fields cd) =
    mapping <$> filter (fun p => published p.2 = true) (ports_of c) ∧
  (∀ port strs, (port, strs) ∈ ports (fields cd) → strs ≠ []) ∧
  (length (ports (fields cd)) ≤ length (ports_of c))%nat.
Proof.
  intros (st & state & created & restart_count & config & m &
          _ & _ & _ & _ & _ & Hp & ->)%parse_inv.
  cbn [fields ports]. apply ports_loop_inv in Hp as [-> _]. cbn [app].
  split; [done|]. split.
  - intros port strs ([port' hb] & [= -> ->] & [Hpub _]%list_elem_of_filter)
      %list_elem_of_fmap.
    cbn in Hpub |- *. by destruct hb as [[|b bs]|].
  - rewrite length_fmap. apply length_filter.
Qed.


(** *** The listing *)

Lemma parse_all_inv cs l :
  parse_all cs = Return l →
  container_id <$> l = obj_id <$> cs ∧
  Forall (fun c => parsable c = true) cs ∧
  Forall2 (fun c cd => _parse_container_info c = Return cd) cs l.
Proof.
  revert l. induction cs as [|c cs IH]; intros l; cbn.
  - intros [= <-]. by repeat constructor.
  - destruct (_parse_container_info c) as [cd|] eqn:Hc; [|done]. cbn.
    destruct (parse_all cs) as [l'|]; [|done]. cbn. intros [= <-].
    destruct (IH l' eq_refl) as (Hids & Hall & Hpar).
    pose proof (parse_inv _ _ Hc)
      as (? & ? & ? & ? & ? & ? & _ & _ & _ & _ & _ & _ & Hcd).
    split; [|split].
    + rewrite !fmap_cons, Hids. f_equal. by rewrite Hcd.
    + constructor; [|done]. by eapply parse_Return_parsable.
    + by constructor.
Qed.

Lemma parse_all_returns cs :
  Forall (fun c => parsable c = true) cs → ∃ l, parse_all cs = Return l.
Proof.
  induction 1 as [|c cs Hc _ [l IH]]; cbn; [by eauto|].
  destruct (parse_returns c Hc) as [cd ->]. cbn. rewrite IH. cbn. eauto.
Qed.

Lemma parse_all_Raise cs e :
  parse_all cs = Raise e → ∃ k, e = KeyError k ∧ k ∈ parse_keys.
Proof.
  induction cs as [|c cs IH]; cbn; [done|].
  destruct (_parse_container_info c) as [cd|e'] eqn:Hc; cbn.
  - destruct (parse_all cs) as [l'|e']; cbn; [done|].
    intros [= <-]. by apply IH.
  - intros [= <-]. by apply parse_Raise in Hc.
Qed.

Lemma parse_all_unparsable cs c :
  c ∈ cs → parsable c = false →
  ∃ k, parse_all cs = Raise (KeyError k) ∧ k ∈ parse_keys.
Proof.
  intros Hc Hp. destruct (parse_all cs) as [l|e] eqn:Hall.
  - apply parse_all_inv in Hall as (_ & Hall & _).
    apply (proj1 (Forall_forall _ _) Hall) in Hc. congruence.
  - apply parse_all_Raise in Hall as (k & -> & Hk). eauto.
Qed.




Section Hosts.

Variable storable : string → attrs → bool.
Variable clock : Z → nat → Z.
Variable docker : string → engine.


End Hosts.

(** *** Examples *)

Lemma parsed_networks_witness :
  ∃ cd, _parse_container_info web = Return cd ∧
        networks (fields cd) = ["none"; "bridge"; "backend"]%string ∧
        ip_address (fields cd) = Some "172.17.0.2"%string.
Proof.
  eexists. split; [reflexivity|].
  destruct (parsed_networks web _ eq_refl) as (Hn & Hip & _).
  split; [exact Hn|].
  apply (Hip [("none"%string, {| IPAddress := Some ""%string |})]
             "bridge"%string {| IPAddress := Some "172.17.0.2"%string |}
             [("backend"%string, {| IPAddress := Some "10.0.0.5"%string |})]);
    [reflexivity|by repeat constructor|reflexivity].
Defined.

Lemma parsed_ports_witness :
  ∃ cd, _parse_container_info web = Return cd ∧
        ports (fields cd) = [("80/tcp", ["0.0.0.0:8080"])]%string.
Proof.
  eexists. split; [reflexivity|].
  destruct (parsed_ports web _ eq_refl) as (Hp & _). exact Hp.
Defined.



End ParseFacts.
